(** * A shallow embedding of the entity-component core and its calendar

    The development follows the three Python modules of the engine:
    [component.py] (typed value containers), [entity.py] (entities and the
    entity manager) and [game_state.py] (calendar and world state).

    Conventions.
    - A Python [int] is a [Z]; a [float] is a binary64 [float]; a [str] is a
      [string]; [None]-able values are [option]s.
    - A [dict] is a [gmap]: iteration order is not observable in any of the
      properties below (every result that is a list is characterised by its
      members).
    - A raised exception is the [Raise] branch of [result]; the class
      variable [Entity._next_id] is threaded explicitly through the
      state-and-error monad [M]. *)

From Stdlib Require Import ZArith Floats Ascii String DecimalString DecimalZ.
From stdpp Require Import base option list gmap strings fin_maps countable.

Local Open Scope string_scope.
Local Open Scope Z_scope.

(** ** Python run-time model *)

Inductive exn : Type :=
| ValueError
| IndexError
| ZeroDivisionError.

Global Instance exn_eq_dec : EqDecision exn.
Proof. solve_decision. Defined.

Inductive result (A : Type) : Type :=
| Ok (a : A)
| Raise (e : exn).
Arguments Ok {A} a.
Arguments Raise {A} e.

Global Instance result_ret : MRet result := fun _ a => Ok a.
Global Instance result_bind : MBind result := fun _ _ f r =>
  match r with
  | Ok a => f a
  | Raise e => Raise e
  end.

Global Instance result_fmap : FMap result := fun _ _ f r =>
  match r with
  | Ok a => Ok (f a)
  | Raise e => Raise e
  end.

(** [try: body except e: handler] *)
Definition try_except {A} (body : result A) (e : exn) (handler : result A) : result A :=
  match body with
  | Ok a => Ok a
  | Raise e' => if decide (e' = e) then handler else Raise e'
  end.

(** [l.index(x)]: position of the first element equal to [x]. *)
Fixpoint list_index (x : string) (l : list string) : result Z :=
  match l with
  | [] => Raise ValueError
  | y :: l' => if decide (y = x) then Ok 0 else i ← list_index x l'; Ok (i + 1)
  end.

(** [l[i]], negative indices counting from the end. *)
Definition list_getitem {A} (l : list A) (i : Z) : result A :=
  let n := Z.of_nat (length l) in
  let j := if i <? 0 then i + n else i in
  if (j <? 0) || (n <=? j) then Raise IndexError
  else match l !! Z.to_nat j with
       | Some a => Ok a
       | None => Raise IndexError
       end.

(** [a % b] on integers (the sign of the result follows the divisor). *)
Definition py_mod (a b : Z) : result Z :=
  if decide (b = 0) then Raise ZeroDivisionError else Ok (a mod b).

(** [l.remove(x)] on a list that contains [x]: drops the first occurrence. *)
Fixpoint list_remove (x : Z) (l : list Z) : list Z :=
  match l with
  | [] => []
  | y :: l' => if decide (y = x) then l' else y :: list_remove x l'
  end.

(** [l.remove(x)] on a list of any element type. *)
Fixpoint remove_first `{EqDecision A} (x : A) (l : list A) : list A :=
  match l with
  | [] => []
  | y :: l' => if decide (y = x) then l' else y :: remove_first x l'
  end.

(** [l[start:]]: a negative [start] counts from the end, and an index
    outside the list is clipped to it. *)
Definition slice_from {A} (l : list A) (start : Z) : list A :=
  let n := Z.of_nat (length l) in
  let start := if start <? 0 then Z.max (start + n) 0 else Z.min start n in
  drop (Z.to_nat start) l.

(** [max(a, b)] and [min(a, b)] on two floats: the first argument is kept
    unless the second compares strictly greater (resp. smaller). *)
Definition py_max2 (a b : float) : float := if PrimFloat.ltb a b then b else a.
Definition py_min2 (a b : float) : float := if PrimFloat.ltb b a then b else a.

(** *** [int(k)] on a dict key

    A key of a serialized mapping is an [int] (a record handed over in
    memory) or a [str] (a record that went through JSON). *)

Inductive pykey : Type :=
| KInt (z : Z)
| KStr (s : string).

(** The blanks that [int] skips around an ASCII literal: tab, line feed,
    vertical tab, form feed, carriage return and space. *)
Definition is_space (c : ascii) : bool :=
  let n := nat_of_ascii c in
  ((9 <=? n) && (n <=? 13) || (n =? 32))%nat.

Fixpoint lstrip (s : list ascii) : list ascii :=
  match s with
  | c :: s' => if is_space c then lstrip s' else s
  | [] => []
  end.

Definition strip (s : list ascii) : list ascii := rev (lstrip (rev (lstrip s))).

(** Underscores are allowed between two digits only; [prev] tells whether
    the previous character was not an underscore. *)
Fixpoint drop_underscores (prev : bool) (s : list ascii) : option (list ascii) :=
  match s with
  | [] => if prev then Some [] else None
  | c :: s' =>
      if Ascii.eqb c "_"
      then (if prev then drop_underscores false s' else None)
      else cons c <$> drop_underscores true s'
  end.

(** [int(s)] for an ASCII string, base 10: surrounding whitespace, an
    optional sign, decimal digits with single underscores between them;
    anything else raises [ValueError]. *)
Definition int_of_str (s : string) : result Z :=
  let cs := strip (list_ascii_of_string s) in
  let '(neg, body) :=
    match cs with
    | "-"%char :: r => (true, r)
    | "+"%char :: r => (false, r)
    | _ => (false, cs)
    end in
  match drop_underscores false body with
  | None => Raise ValueError
  | Some ds =>
      match NilZero.uint_of_string (string_of_list_ascii ds) with
      | Some u => Ok (if neg : bool then - Z.of_uint u else Z.of_uint u)
      | None => Raise ValueError
      end
  end.

(** [str(z)] *)
Definition str_of_int (z : Z) : string := NilZero.string_of_int (Z.to_int z).

Definition py_int (k : pykey) : result Z :=
  match k with
  | KInt z => Ok z
  | KStr s => int_of_str s
  end.

(** What [json.dump] followed by [json.load] does to the keys of a
    mapping: JSON object keys are text. *)
Definition json_key (k : pykey) : pykey :=
  match k with
  | KInt z => KStr (str_of_int z)
  | KStr s => KStr s
  end.

(** The ten ASCII decimal digits. *)
Definition is_dec (c : ascii) : bool :=
  match c with
  | "0" | "1" | "2" | "3" | "4" | "5" | "6" | "7" | "8" | "9" => true
  | _ => false
  end%char.

(** [max(d, key=d.get)] on a dict given by its items in insertion order: the
    first key is the initial best, a later key replaces it only when its
    value is strictly greater. *)
Fixpoint max_loop (best : string * float) (rest : list (string * float)) : string :=
  match rest with
  | [] => best.1
  | kv :: rest' =>
      if PrimFloat.ltb best.2 kv.2 then max_loop kv rest' else max_loop best rest'
  end.

Definition py_max_key (d : list (string * float)) : result string :=
  match d with
  | [] => Raise ValueError
  | kv :: rest => Ok (max_loop kv rest)
  end.

(** ** component.py *)

Inductive ComponentType : Type :=
| POSITION | HEALTH | INVENTORY | AI | SENSORY | MEMORY
| GOAL | RELATIONSHIP | SCHEDULE | OCCUPATION | NEEDS | CURRENCY.

Module ComponentType_.

Definition value (ct : ComponentType) : string :=
  match ct with
  | POSITION => "position" | HEALTH => "health" | INVENTORY => "inventory"
  | AI => "ai" | SENSORY => "sensory" | MEMORY => "memory"
  | GOAL => "goal" | RELATIONSHIP => "relationship" | SCHEDULE => "schedule"
  | OCCUPATION => "occupation" | NEEDS => "needs" | CURRENCY => "currency"
  end.

Definition to_nat (ct : ComponentType) : nat :=
  match ct with
  | POSITION => 0 | HEALTH => 1 | INVENTORY => 2 | AI => 3 | SENSORY => 4
  | MEMORY => 5 | GOAL => 6 | RELATIONSHIP => 7 | SCHEDULE => 8
  | OCCUPATION => 9 | NEEDS => 10 | CURRENCY => 11
  end%nat.

Definition of_nat (n : nat) : option ComponentType :=
  match n with
  | 0 => Some POSITION | 1 => Some HEALTH | 2 => Some INVENTORY
  | 3 => Some AI | 4 => Some SENSORY | 5 => Some MEMORY | 6 => Some GOAL
  | 7 => Some RELATIONSHIP | 8 => Some SCHEDULE | 9 => Some OCCUPATION
  | 10 => Some NEEDS | 11 => Some CURRENCY | _ => None
  end%nat.

End ComponentType_.

Global Instance ComponentType_eq_dec : EqDecision ComponentType.
Proof. solve_decision. Defined.

Global Instance ComponentType_countable : Countable ComponentType.
Proof.
  apply (inj_countable ComponentType_.to_nat ComponentType_.of_nat).
  intros []; reflexivity.
Defined.

(** A serialized component: the flat key-value record that [to_dict]
    produces and [from_dict] consumes.  Every key a deserializer reads is an
    optional field of the type its class annotates ([None] = key absent);
    keys no deserializer reads are not represented.  The tag is free text. *)
Record CompData : Type := mkData {
  d_type : option string;
  d_entity_id : option Z;
  d_location : option string;
  d_x : option float;
  d_y : option float;
  d_current : option Z;
  d_maximum : option Z;
  d_items : option (gmap string Z);
  d_capacity : option Z;
  d_amount : option Z;
  d_relationships : option (list (pykey * Z));
  d_hunger : option float;
  d_energy : option float;
  d_social : option float;
  d_schedule : option (gmap string string);
  d_occupation : option string;
  d_workplace : option string;
  d_skill_level : option Z;
  d_memories : option (list (gmap string string));
  d_max_memories : option Z;
  d_current_goal : option string;
  d_goals : option (list string)
}.

(** A record written with [json.dump] and read back with [json.load]: the
    keys of the relationship mapping come back as text. *)
Definition json_loads_dumps (data : CompData) : CompData :=
  mkData (d_type data) (d_entity_id data) (d_location data) (d_x data) (d_y data)
    (d_current data) (d_maximum data) (d_items data) (d_capacity data)
    (d_amount data)
    (fmap (M := list) (prod_map json_key id) <$> d_relationships data)
    (d_hunger data) (d_energy data) (d_social data) (d_schedule data)
    (d_occupation data) (d_workplace data) (d_skill_level data)
    (d_memories data) (d_max_memories data) (d_current_goal data) (d_goals data).

Module Component_.

(** [Component.to_dict]: the tag and the owner, nothing else. *)
Definition to_dict (ct : ComponentType) (eid : option Z) : CompData :=
  mkData (Some (ComponentType_.value ct)) eid
    None None None None None None None None None None None None None None
    None None None None None None.

End Component_.

Module PositionComponent.

Record t : Type := mk {
  entity_id : option Z;
  location : string;
  x : float;
  y : float
}.

Definition to_dict (self : t) : CompData :=
  let base := Component_.to_dict POSITION (entity_id self) in
  mkData (d_type base) (d_entity_id base)
    (Some (location self)) (Some (x self)) (Some (y self))
    None None None None None None None None None None None None None None None
    None None.

Definition from_dict (data : CompData) : t :=
  mk None (default "Unknown" (d_location data))
    (default 0%float (d_x data)) (default 0%float (d_y data)).

End PositionComponent.

Module HealthComponent.

Record t : Type := mk {
  entity_id : option Z;
  current : Z;
  maximum : Z
}.

Definition is_alive (self : t) : bool := bool_decide (current self > 0).

Definition damage (self : t) (amount : Z) : t :=
  mk (entity_id self) (Z.max 0 (current self - amount)) (maximum self).

Definition heal (self : t) (amount : Z) : t :=
  mk (entity_id self) (Z.min (maximum self) (current self + amount)) (maximum self).

Definition to_dict (self : t) : CompData :=
  let base := Component_.to_dict HEALTH (entity_id self) in
  mkData (d_type base) (d_entity_id base) None None None
    (Some (current self)) (Some (maximum self))
    None None None None None None None None None None None None None None None.

Definition from_dict (data : CompData) : t :=
  mk None (default 100 (d_current data)) (default 100 (d_maximum data)).

End HealthComponent.

Module InventoryComponent.

Record t : Type := mk {
  entity_id : option Z;
  items : gmap string Z;
  capacity : Z
}.

Definition get_count (self : t) (item_type : string) : Z :=
  default 0 (items self !! item_type).

Definition add_item (self : t) (item_type : string) (quantity : Z) : t * bool :=
  let current_count := map_fold (fun _ v acc => v + acc) 0 (items self) in
  if bool_decide (current_count + quantity <= capacity self)
  then (mk (entity_id self)
          (<[item_type := get_count self item_type + quantity]> (items self))
          (capacity self), true)
  else (self, false).

Definition remove_item (self : t) (item_type : string) (quantity : Z) : t * bool :=
  match items self !! item_type with
  | Some n =>
      if bool_decide (n >= quantity)
      then
        let n' := n - quantity in
        (mk (entity_id self)
            (if decide (n' = 0) then delete item_type (items self)
             else <[item_type := n']> (items self))
            (capacity self), true)
      else (self, false)
  | None => (self, false)
  end.

Definition has_item (self : t) (item_type : string) (quantity : Z) : bool :=
  bool_decide (default 0 (items self !! item_type) >= quantity).

Definition to_dict (self : t) : CompData :=
  let base := Component_.to_dict INVENTORY (entity_id self) in
  mkData (d_type base) (d_entity_id base) None None None None None
    (Some (items self)) (Some (capacity self))
    None None None None None None None None None None None None None.

Definition from_dict (data : CompData) : t :=
  mk None (default ∅ (d_items data)) (default 20 (d_capacity data)).

End InventoryComponent.

Module CurrencyComponent.

Record t : Type := mk {
  entity_id : option Z;
  amount : Z
}.

Definition add (self : t) (value : Z) : t :=
  mk (entity_id self) (amount self + value).

(** The updated component together with the boolean the method returns. *)
Definition remove (self : t) (value : Z) : t * bool :=
  if bool_decide (amount self >= value)
  then (mk (entity_id self) (amount self - value), true)
  else (self, false).

Definition has (self : t) (value : Z) : bool :=
  bool_decide (amount self >= value).

Definition to_dict (self : t) : CompData :=
  let base := Component_.to_dict CURRENCY (entity_id self) in
  mkData (d_type base) (d_entity_id base) None None None None None None None
    (Some (amount self))
    None None None None None None None None None None None None.

Definition from_dict (data : CompData) : t :=
  mk None (default 0 (d_amount data)).

End CurrencyComponent.

Module RelationshipComponent.

Record t : Type := mk {
  entity_id : option Z;
  relationships : gmap Z Z
}.

Definition get_relationship (self : t) (eid : Z) : Z :=
  default 0 (relationships self !! eid).

Definition modify_relationship (self : t) (eid delta : Z) : t :=
  let current := default 0 (relationships self !! eid) in
  mk (entity_id self)
     (<[eid := Z.max (-100) (Z.min 100 (current + delta))]> (relationships self)).

Definition set_relationship (self : t) (eid value : Z) : t :=
  mk (entity_id self)
     (<[eid := Z.max (-100) (Z.min 100 value)]> (relationships self)).

Definition get_relationship_level (self : t) (eid : Z) : string :=
  let value := get_relationship self eid in
  if bool_decide (value < -50) then "enemy"
  else if bool_decide (value < -10) then "dislike"
  else if bool_decide (value < 10) then "neutral"
  else if bool_decide (value < 50) then "friendly"
  else if bool_decide (value < 75) then "friend"
  else "close_friend".

(** The mapping itself is stored in the record, integer keys and all. *)
Definition to_dict (self : t) : CompData :=
  let base := Component_.to_dict RELATIONSHIP (entity_id self) in
  mkData (d_type base) (d_entity_id base)
    None None None None None None None None
    (Some (prod_map KInt id <$> map_to_list (relationships self)))
    None None None None None None None None None None None.

(** [{int(k): v for k, v in relationships.items()}]: a later item overwrites
    an earlier one with the same integer key; the first key that does not
    parse aborts with [ValueError]. *)
Fixpoint int_relationships (items : list (pykey * Z)) (acc : gmap Z Z) : result (gmap Z Z) :=
  match items with
  | [] => Ok acc
  | (k, v) :: items' => z ← py_int k; int_relationships items' (<[z := v]> acc)
  end.

Definition from_dict (data : CompData) : result t :=
  let relationships := default [] (d_relationships data) in
  m ← int_relationships relationships ∅;
  Ok (mk None m).

End RelationshipComponent.

Module NeedsComponent.

Record t : Type := mk {
  entity_id : option Z;
  hunger : float;
  energy : float;
  social : float
}.

(** The local dict [needs], by its items in insertion order. *)
Definition urgencies (self : t) : list (string * float) :=
  [ ("hunger", (100 - hunger self)%float);
    ("energy", (100 - energy self)%float);
    ("social", (100 - social self)%float) ].

Definition get_most_urgent_need (self : t) : result string :=
  py_max_key (urgencies self).

Definition decay (self : t) (delta_time : float) : t :=
  mk (entity_id self)
     (py_max2 0 (hunger self - delta_time * 5))
     (py_max2 0 (energy self - delta_time * 3))
     (py_max2 0 (social self - delta_time * 2)).

Definition eat (self : t) (food_value : float) : t :=
  mk (entity_id self) (py_min2 100 (hunger self + food_value))
     (energy self) (social self).

Definition rest (self : t) (rest_value : float) : t :=
  mk (entity_id self) (hunger self)
     (py_min2 100 (energy self + rest_value)) (social self).

Definition socialize (self : t) (social_value : float) : t :=
  mk (entity_id self) (hunger self) (energy self)
     (py_min2 100 (social self + social_value)).

Definition to_dict (self : t) : CompData :=
  let base := Component_.to_dict NEEDS (entity_id self) in
  mkData (d_type base) (d_entity_id base) None None None None None None None
    None None
    (Some (hunger self)) (Some (energy self)) (Some (social self))
    None None None None None None None None.

Definition from_dict (data : CompData) : t :=
  mk None (default 50%float (d_hunger data))
    (default 100%float (d_energy data)) (default 50%float (d_social data)).

End NeedsComponent.

Module ScheduleComponent.

Record t : Type := mk {
  entity_id : option Z;
  schedule : gmap string string
}.

Definition get_activity (self : t) (time_of_day : string) : option string :=
  schedule self !! time_of_day.

Definition set_activity (self : t) (time_of_day activity : string) : t :=
  mk (entity_id self) (<[time_of_day := activity]> (schedule self)).

Definition to_dict (self : t) : CompData :=
  let base := Component_.to_dict SCHEDULE (entity_id self) in
  mkData (d_type base) (d_entity_id base) None None None None None None None
    None None None None None
    (Some (schedule self))
    None None None None None None None.

Definition from_dict (data : CompData) : t :=
  mk None (default ∅ (d_schedule data)).

End ScheduleComponent.

Module OccupationComponent.

Record t : Type := mk {
  entity_id : option Z;
  occupation : string;
  workplace : string;
  skill_level : Z
}.

Definition to_dict (self : t) : CompData :=
  let base := Component_.to_dict OCCUPATION (entity_id self) in
  mkData (d_type base) (d_entity_id base) None None None None None None None
    None None None None None None
    (Some (occupation self)) (Some (workplace self)) (Some (skill_level self))
    None None None None.

Definition from_dict (data : CompData) : t :=
  mk None (default "Villager" (d_occupation data))
    (default "None" (d_workplace data)) (default 1 (d_skill_level data)).

End OccupationComponent.

Module MemoryComponent.

Record t : Type := mk {
  entity_id : option Z;
  memories : list (gmap string string);
  max_memories : Z
}.

Definition add_memory (self : t) (memory : gmap string string) : t :=
  let memories := (memories self ++ [memory])%list in
  mk (entity_id self)
     (if bool_decide (Z.of_nat (length memories) > max_memories self)
      then tail memories else memories)
     (max_memories self).

Definition get_recent_memories (self : t) (count : Z) : list (gmap string string) :=
  slice_from (memories self) (- count).

Definition to_dict (self : t) : CompData :=
  let base := Component_.to_dict MEMORY (entity_id self) in
  mkData (d_type base) (d_entity_id base) None None None None None None None
    None None None None None None None None None
    (Some (memories self)) (Some (max_memories self))
    None None.

Definition from_dict (data : CompData) : t :=
  mk None (default [] (d_memories data)) (default 50 (d_max_memories data)).

End MemoryComponent.

Module GoalComponent.

Record t : Type := mk {
  entity_id : option Z;
  current_goal : option string;
  goals : list string
}.

Definition set_goal (self : t) (goal : string) : t :=
  mk (entity_id self) (Some goal) (goals self).

Definition add_goal (self : t) (goal : string) : t :=
  if decide (goal ∈ goals self) then self
  else mk (entity_id self) (current_goal self) (goals self ++ [goal])%list.

Definition complete_goal (self : t) (goal : string) : t :=
  let goals :=
    if decide (goal ∈ goals self) then remove_first goal (goals self)
    else goals self in
  let current_goal :=
    if decide (current_goal self = Some goal) then None else current_goal self in
  mk (entity_id self) current_goal goals.

(** [current_goal] is written even when it is [None] (JSON [null]), which
    [data.get] reads back as [None]. *)
Definition to_dict (self : t) : CompData :=
  let base := Component_.to_dict GOAL (entity_id self) in
  mkData (d_type base) (d_entity_id base) None None None None None None None
    None None None None None None None None None None None
    (current_goal self) (Some (goals self)).

Definition from_dict (data : CompData) : t :=
  mk None (d_current_goal data) (default [] (d_goals data)).

End GoalComponent.

(** The closed set of component classes. *)
Inductive Component : Type :=
| Position (c : PositionComponent.t)
| Health (c : HealthComponent.t)
| Inventory (c : InventoryComponent.t)
| Currency (c : CurrencyComponent.t)
| Relationship (c : RelationshipComponent.t)
| Needs (c : NeedsComponent.t)
| Schedule (c : ScheduleComponent.t)
| Occupation (c : OccupationComponent.t)
| Memory (c : MemoryComponent.t)
| Goal (c : GoalComponent.t).

(** The [component_type] each class passes to [Component.__init__]. *)
Definition component_type (c : Component) : ComponentType :=
  match c with
  | Position _ => POSITION
  | Health _ => HEALTH
  | Inventory _ => INVENTORY
  | Currency _ => CURRENCY
  | Relationship _ => RELATIONSHIP
  | Needs _ => NEEDS
  | Schedule _ => SCHEDULE
  | Occupation _ => OCCUPATION
  | Memory _ => MEMORY
  | Goal _ => GOAL
  end.

Definition entity_id (c : Component) : option Z :=
  match c with
  | Position c => PositionComponent.entity_id c
  | Health c => HealthComponent.entity_id c
  | Inventory c => InventoryComponent.entity_id c
  | Currency c => CurrencyComponent.entity_id c
  | Relationship c => RelationshipComponent.entity_id c
  | Needs c => NeedsComponent.entity_id c
  | Schedule c => ScheduleComponent.entity_id c
  | Occupation c => OccupationComponent.entity_id c
  | Memory c => MemoryComponent.entity_id c
  | Goal c => GoalComponent.entity_id c
  end.

(** [component.entity_id = eid] *)
Definition set_entity_id (eid : Z) (c : Component) : Component :=
  match c with
  | Position (PositionComponent.mk _ l x y) => Position (PositionComponent.mk (Some eid) l x y)
  | Health (HealthComponent.mk _ c m) => Health (HealthComponent.mk (Some eid) c m)
  | Inventory (InventoryComponent.mk _ i c) => Inventory (InventoryComponent.mk (Some eid) i c)
  | Currency (CurrencyComponent.mk _ a) => Currency (CurrencyComponent.mk (Some eid) a)
  | Relationship (RelationshipComponent.mk _ r) => Relationship (RelationshipComponent.mk (Some eid) r)
  | Needs (NeedsComponent.mk _ h e s) => Needs (NeedsComponent.mk (Some eid) h e s)
  | Schedule (ScheduleComponent.mk _ s) => Schedule (ScheduleComponent.mk (Some eid) s)
  | Occupation (OccupationComponent.mk _ o w s) => Occupation (OccupationComponent.mk (Some eid) o w s)
  | Memory (MemoryComponent.mk _ m n) => Memory (MemoryComponent.mk (Some eid) m n)
  | Goal (GoalComponent.mk _ c g) => Goal (GoalComponent.mk (Some eid) c g)
  end.

(** [component.to_dict()], by the class of the component. *)
Definition dispatch_to_dict (c : Component) : CompData :=
  match c with
  | Position c => PositionComponent.to_dict c
  | Health c => HealthComponent.to_dict c
  | Inventory c => InventoryComponent.to_dict c
  | Currency c => CurrencyComponent.to_dict c
  | Relationship c => RelationshipComponent.to_dict c
  | Needs c => NeedsComponent.to_dict c
  | Schedule c => ScheduleComponent.to_dict c
  | Occupation c => OccupationComponent.to_dict c
  | Memory c => MemoryComponent.to_dict c
  | Goal c => GoalComponent.to_dict c
  end.

(** The component as its class constructor leaves it: not attached. *)
Definition detached (c : Component) : Component :=
  match c with
  | Position (PositionComponent.mk _ l x y) => Position (PositionComponent.mk None l x y)
  | Health (HealthComponent.mk _ c m) => Health (HealthComponent.mk None c m)
  | Inventory (InventoryComponent.mk _ i c) => Inventory (InventoryComponent.mk None i c)
  | Currency (CurrencyComponent.mk _ a) => Currency (CurrencyComponent.mk None a)
  | Relationship (RelationshipComponent.mk _ r) => Relationship (RelationshipComponent.mk None r)
  | Needs (NeedsComponent.mk _ h e s) => Needs (NeedsComponent.mk None h e s)
  | Schedule (ScheduleComponent.mk _ s) => Schedule (ScheduleComponent.mk None s)
  | Occupation (OccupationComponent.mk _ o w s) => Occupation (OccupationComponent.mk None o w s)
  | Memory (MemoryComponent.mk _ m n) => Memory (MemoryComponent.mk None m n)
  | Goal (GoalComponent.mk _ c g) => Goal (GoalComponent.mk None c g)
  end.

(** The registry: tag text to the [from_dict] of the class.  [AI] and
    [SENSORY] are component types without a class, hence without an entry. *)
Definition COMPONENT_REGISTRY : gmap string (CompData -> result Component) :=
  list_to_map [
    (ComponentType_.value POSITION, fun d => Ok (Position (PositionComponent.from_dict d)));
    (ComponentType_.value HEALTH, fun d => Ok (Health (HealthComponent.from_dict d)));
    (ComponentType_.value INVENTORY, fun d => Ok (Inventory (InventoryComponent.from_dict d)));
    (ComponentType_.value CURRENCY, fun d => Ok (Currency (CurrencyComponent.from_dict d)));
    (ComponentType_.value RELATIONSHIP, fun d => Relationship <$> RelationshipComponent.from_dict d);
    (ComponentType_.value NEEDS, fun d => Ok (Needs (NeedsComponent.from_dict d)));
    (ComponentType_.value SCHEDULE, fun d => Ok (Schedule (ScheduleComponent.from_dict d)));
    (ComponentType_.value OCCUPATION, fun d => Ok (Occupation (OccupationComponent.from_dict d)));
    (ComponentType_.value MEMORY, fun d => Ok (Memory (MemoryComponent.from_dict d)));
    (ComponentType_.value GOAL, fun d => Ok (Goal (GoalComponent.from_dict d)))
  ].

(** [None] when the tag is missing or not registered. *)
Definition create_component_from_dict (data : CompData) : result (option Component) :=
  match d_type data with
  | None => Ok None
  | Some component_type =>
      match COMPONENT_REGISTRY !! component_type with
      | Some from_dict => c ← from_dict data; Ok (Some c)
      | None => Ok None
      end
  end.

(** ** entity.py *)

(** Computations that read and advance the class variable
    [Entity._next_id] and may raise: the counter keeps the value it had when
    the exception was raised. *)
Definition M (A : Type) : Type := Z -> result A * Z.

Global Instance M_ret : MRet M := fun _ a n => (Ok a, n).
Global Instance M_bind : MBind M := fun _ _ f c n =>
  match c n with
  | (Ok a, n') => f a n'
  | (Raise e, n') => (Raise e, n')
  end.

Definition lift {A} (r : result A) : M A := fun n => (r, n).
Definition get_next_id : M Z := fun n => (Ok n, n).
Definition put_next_id (k : Z) : M unit := fun _ => (Ok tt, k).

(** A serialized entity; [None] = key absent. *)
Record EntityData : Type := mkEntityData {
  ed_id : option Z;
  ed_name : option string;
  ed_entity_type : option string;
  ed_active : option bool;
  ed_components : option (list CompData)
}.

Module Entity.

Record t : Type := mk {
  id : Z;
  name : string;
  entity_type : string;
  components : gmap ComponentType Component;
  active : bool
}.

Definition __init__ (name entity_type : string) : M t :=
  n ← get_next_id;
  _ ← put_next_id (n + 1);
  mret (mk n name entity_type ∅ true).

Definition add_component (self : t) (component : Component) : t * bool :=
  match components self !! component_type component with
  | Some _ => (self, false)
  | None =>
      (mk (id self) (name self) (entity_type self)
          (<[component_type component := set_entity_id (id self) component]>
             (components self))
          (active self), true)
  end.

Definition remove_component (self : t) (ct : ComponentType) : t * bool :=
  match components self !! ct with
  | Some _ =>
      (mk (id self) (name self) (entity_type self)
          (delete ct (components self)) (active self), true)
  | None => (self, false)
  end.

Definition get_component (self : t) (ct : ComponentType) : option Component :=
  components self !! ct.

Definition has_component (self : t) (ct : ComponentType) : bool :=
  bool_decide (is_Some (components self !! ct)).

Definition has_components (self : t) (cts : list ComponentType) : bool :=
  forallb (has_component self) cts.

(** The loop over [data.get("components", [])]. *)
Fixpoint restore_components (l : list CompData) (entity : t) : result t :=
  match l with
  | [] => Ok entity
  | comp_data :: l' =>
      component ← create_component_from_dict comp_data;
      restore_components l'
        match component with
        | Some c => (add_component entity c).1
        | None => entity
        end
  end.

Definition from_dict (data : EntityData) : M t :=
  entity ← __init__ (default "Unnamed Entity" (ed_name data))
                    (default "Generic" (ed_entity_type data));
  let entity :=
    mk (default (id entity) (ed_id data)) (name entity) (entity_type entity)
       (components entity) (default true (ed_active data)) in
  lift (restore_components (default [] (ed_components data)) entity).

Definition get_components (self : t) : list Component :=
  (map_to_list (components self)).*2.

Definition to_dict (self : t) : EntityData :=
  mkEntityData (Some (id self)) (Some (name self)) (Some (entity_type self))
    (Some (active self))
    (Some (dispatch_to_dict <$> (map_to_list (components self)).*2)).

(** [entity.add_component(c)] for each [c] of a list in turn, the returned
    booleans dropped. *)
Definition add_components (cs : list Component) (self : t) : t :=
  fold_left (fun e c => (add_component e c).1) cs self.

End Entity.

Module EntityManager.

Record t : Type := mk {
  entities : gmap Z Entity.t;
  entities_by_type : gmap string (list Z)
}.

Definition __init__ : t := mk ∅ ∅.

Definition add_entity (self : t) (entity : Entity.t) : t * bool :=
  match entities self !! Entity.id entity with
  | Some _ => (self, false)
  | None =>
      let by_type :=
        match entities_by_type self !! Entity.entity_type entity with
        | Some _ => entities_by_type self
        | None => <[Entity.entity_type entity := []]> (entities_by_type self)
        end in
      (mk (<[Entity.id entity := entity]> (entities self))
          (<[Entity.entity_type entity :=
               (default [] (by_type !! Entity.entity_type entity)
                ++ [Entity.id entity])%list]> by_type),
       true)
  end.

Definition create_entity (self : t) (name entity_type : string) : M (t * Entity.t) :=
  entity ← Entity.__init__ name entity_type;
  mret ((add_entity self entity).1, entity).

Definition remove_entity (self : t) (entity_id : Z) : t * bool :=
  match entities self !! entity_id with
  | None => (self, false)
  | Some entity =>
      let by_type :=
        match entities_by_type self !! Entity.entity_type entity with
        | Some ids =>
            if decide (entity_id ∈ ids)
            then <[Entity.entity_type entity := list_remove entity_id ids]>
                   (entities_by_type self)
            else entities_by_type self
        | None => entities_by_type self
        end in
      (mk (delete entity_id (entities self)) by_type, true)
  end.

Definition get_entity (self : t) (entity_id : Z) : option Entity.t :=
  entities self !! entity_id.

Definition get_entities_by_type (self : t) (entity_type : string) : list Entity.t :=
  omap (fun eid => entities self !! eid)
       (default [] (entities_by_type self !! entity_type)).

Definition get_all_entities (self : t) : list Entity.t :=
  (map_to_list (entities self)).*2.

Definition get_active_entities (self : t) : list Entity.t :=
  List.filter Entity.active (get_all_entities self).

Definition query_entities (self : t) (required_components : list ComponentType) : list Entity.t :=
  List.filter
    (fun entity => Entity.active entity && Entity.has_components entity required_components)
    (map_to_list (entities self)).*2.

Definition count_entities (self : t) : Z := Z.of_nat (size (entities self)).

Definition count_entities_by_type (self : t) (entity_type : string) : Z :=
  Z.of_nat (length (default [] (entities_by_type self !! entity_type))).

Definition clear (self : t) : t := mk ∅ ∅.

(** The loop over [data.get("entities", [])]. *)
Fixpoint load_entities (l : list EntityData) (manager : t) : M t :=
  match l with
  | [] => mret manager
  | entity_data :: l' =>
      entity ← Entity.from_dict entity_data;
      let manager := (add_entity manager entity).1 in
      next_id ← get_next_id;
      _ ← (if bool_decide (Entity.id entity >= next_id)
           then put_next_id (Entity.id entity + 1) else mret tt);
      load_entities l' manager
  end.

Definition from_dict (data : option (list EntityData)) : M t :=
  load_entities (default [] data) __init__.

Definition to_dict (self : t) : option (list EntityData) :=
  Some (Entity.to_dict <$> (map_to_list (entities self)).*2).

(** [create_entity] returns the very object it handed to [add_entity]: when
    [add_entity] stored it, what the caller attaches to it afterwards is
    seen through the manager; when its ID was taken, the manager holds
    another object and does not change.  [before] is the manager
    [create_entity] was called on, [created] the entity as it returned it,
    [entity] the same object after the caller's updates. *)
Definition write_back (before self : t) (created entity : Entity.t) : t :=
  if (add_entity before created).2
  then mk (<[Entity.id entity := entity]> (entities self)) (entities_by_type self)
  else self.

End EntityManager.

(** *** Entity archetypes *)

Definition create_player_entity (entity_manager : EntityManager.t) (name : string)
  : M (EntityManager.t * Entity.t) :=
  '(manager, created) ← EntityManager.create_entity entity_manager name "Player";
  let player :=
    Entity.add_components
      [ Position (PositionComponent.mk None "YourFarm" 0 0);
        Health (HealthComponent.mk None 100 100);
        Inventory (InventoryComponent.mk None ∅ 20);
        Currency (CurrencyComponent.mk None 100);
        Relationship (RelationshipComponent.mk None ∅) ] created in
  mret (EntityManager.write_back entity_manager manager created player, player).

Definition create_villager_entity (entity_manager : EntityManager.t)
    (name occupation location : string) : M (EntityManager.t * Entity.t) :=
  '(manager, created) ← EntityManager.create_entity entity_manager name "Villager";
  let villager :=
    Entity.add_components
      [ Position (PositionComponent.mk None location 0 0);
        Health (HealthComponent.mk None 100 100);
        Inventory (InventoryComponent.mk None ∅ 15);
        Currency (CurrencyComponent.mk None 50);
        Relationship (RelationshipComponent.mk None ∅);
        Needs (NeedsComponent.mk None 50 100 50);
        Schedule (ScheduleComponent.mk None ∅);
        Occupation (OccupationComponent.mk None occupation "None" 1);
        Memory (MemoryComponent.mk None [] 50);
        Goal (GoalComponent.mk None None []) ] created in
  mret (EntityManager.write_back entity_manager manager created villager, villager).

Definition create_crop_entity (entity_manager : EntityManager.t)
    (crop_type location : string) (x y : float) : M (EntityManager.t * Entity.t) :=
  '(manager, created) ← EntityManager.create_entity entity_manager crop_type "Crop";
  let crop :=
    Entity.add_components [ Position (PositionComponent.mk None location x y) ] created in
  mret (EntityManager.write_back entity_manager manager created crop, crop).

(** A call on a manager, as a client of [entity.py] may issue it. *)
Inductive op : Type :=
| OpCreate (name entity_type : string)
| OpAdd (entity : Entity.t)
| OpRemove (entity_id : Z)
| OpClear.

(** One call, on the manager and the ID counter. *)
Definition step (st : EntityManager.t * Z) (o : op) : EntityManager.t * Z :=
  match o with
  | OpCreate name entity_type =>
      match EntityManager.create_entity st.1 name entity_type st.2 with
      | (Ok (m, _), n) => (m, n)
      | (Raise _, n) => (st.1, n)
      end
  | OpAdd entity => ((EntityManager.add_entity st.1 entity).1, st.2)
  | OpRemove entity_id => ((EntityManager.remove_entity st.1 entity_id).1, st.2)
  | OpClear => (EntityManager.clear st.1, st.2)
  end.

Definition run (ops : list op) (st : EntityManager.t * Z) : EntityManager.t * Z :=
  fold_left step ops st.

(** ** game_state.py *)

Module TimeOfDay.

Definition MORNING : string := "morning".
Definition AFTERNOON : string := "afternoon".
Definition EVENING : string := "evening".
Definition NIGHT : string := "night".

Definition get_all : list string := [MORNING; AFTERNOON; EVENING; NIGHT].

Definition get_next (current : string) : result string :=
  let times := get_all in
  try_except
    (index ← list_index current times;
     k ← py_mod (index + 1) (Z.of_nat (length times));
     list_getitem times k)
    ValueError
    (Ok MORNING).

End TimeOfDay.

Module Season.

Definition SPRING : string := "spring".
Definition SUMMER : string := "summer".
Definition FALL : string := "fall".
Definition WINTER : string := "winter".

Definition get_all : list string := [SPRING; SUMMER; FALL; WINTER].

Definition get_next (current : string) : result string :=
  let seasons := get_all in
  try_except
    (index ← list_index current seasons;
     k ← py_mod (index + 1) (Z.of_nat (length seasons));
     list_getitem seasons k)
    ValueError
    (Ok SPRING).

End Season.

Module Weather.

Definition SUNNY : string := "sunny".

End Weather.

Module GameState.

(** The time stamps [created_at] and [last_saved] are left out. *)
Record t : Type := mk {
  entity_manager : EntityManager.t;
  day_count : Z;
  time_of_day : string;
  season : string;
  year : Z;
  current_weather : string;
  player_id : option Z;
  game_name : string
}.

Definition __init__ : t :=
  mk EntityManager.__init__ 1 TimeOfDay.MORNING Season.SPRING 1
     Weather.SUNNY None "Farming Village".

Definition advance_time (self : t) : result t :=
  time_of_day ← TimeOfDay.get_next (time_of_day self);
  if decide (time_of_day = TimeOfDay.MORNING) then
    let day_count := day_count self + 1 in
    r ← py_mod day_count 28;
    if decide (r = 0) then
      season ← Season.get_next (season self);
      let year := if decide (season = Season.SPRING) then year self + 1 else year self in
      Ok (mk (entity_manager self) day_count time_of_day season year
             (current_weather self) (player_id self) (game_name self))
    else
      Ok (mk (entity_manager self) day_count time_of_day (season self) (year self)
             (current_weather self) (player_id self) (game_name self))
  else
    Ok (mk (entity_manager self) (day_count self) time_of_day (season self) (year self)
           (current_weather self) (player_id self) (game_name self)).

(** [n] calls in a row; the first exception ends the run. *)
Fixpoint advance_times (n : nat) (self : t) : result t :=
  match n with
  | O => Ok self
  | S n' => self' ← advance_time self; advance_times n' self'
  end.

Definition set_player (self : t) (entity_id : Z) : t :=
  match EntityManager.get_entity (entity_manager self) entity_id with
  | Some _ =>
      mk (entity_manager self) (day_count self) (time_of_day self) (season self)
         (year self) (current_weather self) (Some entity_id) (game_name self)
  | None => self
  end.

Definition get_player (self : t) : option Entity.t :=
  match player_id self with
  | Some i => EntityManager.get_entity (entity_manager self) i
  | None => None
  end.

End GameState.

(** The calendar fields of a state. *)
Definition calendar (g : GameState.t) : string * Z * string * Z :=
  (GameState.time_of_day g, GameState.day_count g, GameState.season g, GameState.year g).

(** *** Vocabulary of the statements about deserialization *)

(** The tag of the record is a key of the registry. *)
Definition registered (data : CompData) : bool :=
  match d_type data with
  | Some ty => bool_decide (is_Some (COMPONENT_REGISTRY !! ty))
  | None => false
  end.

(** The entity record without its component records of unregistered tag. *)
Definition drop_unregistered (data : EntityData) : EntityData :=
  mkEntityData (ed_id data) (ed_name data) (ed_entity_type data) (ed_active data)
    (List.filter registered <$> ed_components data).

(** The component that the first record deserializing to variant [ct]
    deserializes to. *)
Fixpoint first_of_type (ct : ComponentType) (l : list CompData) : option Component :=
  match l with
  | [] => None
  | comp_data :: l' =>
      match create_component_from_dict comp_data with
      | Ok (Some c) =>
          if decide (component_type c = ct) then Some c else first_of_type ct l'
      | _ => first_of_type ct l'
      end
  end.

(** The JSON object [{"type": tag, "current": ..., "maximum": ...}], the
    last two keys present or not. *)
Definition tagged (tag : string) (current maximum : option Z) : CompData :=
  mkData (Some tag) None None None None current maximum None None None None
    None None None None None None None None None None None.

(** *** Vocabulary of the statements about the type index *)

(** How often the ID [i] is listed under the type [ty]. *)
Definition listed (m : EntityManager.t) (ty : string) (i : Z) : nat :=
  count_occ Z.eq_dec (default [] (EntityManager.entities_by_type m !! ty)) i.

(** How often it has to be: once when [i] is a key of the primary map and
    the entity stored there is of type [ty], never otherwise. *)
Definition expected (m : EntityManager.t) (ty : string) (i : Z) : nat :=
  match EntityManager.entities m !! i with
  | Some e => if decide (Entity.entity_type e = ty) then 1 else 0
  | None => 0
  end.

Definition index_consistent (m : EntityManager.t) : Prop :=
  (forall i e, EntityManager.entities m !! i = Some e -> Entity.id e = i) /\
  (forall ty i, listed m ty i = expected m ty i).

(** *** Vocabulary of the statements about the keys of a relationship record *)

(** The keys for which [py_int] stands for the interpreter's [int]: an
    integer, or ASCII text of at most 4300 characters.  Text with other
    characters goes through the Unicode tables of digits and blanks, and a
    longer literal may exceed the interpreter's bound on the digits of an
    integer literal. *)
Definition plain_key (k : pykey) : bool :=
  match k with
  | KInt _ => true
  | KStr s =>
      forallb (fun c => (nat_of_ascii c <? 128)%nat) (list_ascii_of_string s)
      && (String.length s <=? 4300)%nat
  end.

(** The record [{"type": "relationship", "relationships": items}]. *)
Definition relationship_record (items : list (pykey * Z)) : CompData :=
  mkData (Some "relationship") None None None None None None None None None
    (Some items) None None None None None None None None None None None.

(** *** Vocabulary of the statements about sequences of component calls *)

Inductive health_call : Type :=
| CallDamage (amount : Z)
| CallHeal (amount : Z).

Definition health_amount (c : health_call) : Z :=
  match c with CallDamage a | CallHeal a => a end.

Definition health_do (h : HealthComponent.t) (c : health_call) : HealthComponent.t :=
  match c with
  | CallDamage a => HealthComponent.damage h a
  | CallHeal a => HealthComponent.heal h a
  end.

Inductive currency_call : Type :=
| CallAdd (value : Z)
| CallRemove (value : Z).

(** [add] of a negative value is the one call that is excluded below. *)
Definition currency_ok (c : currency_call) : Prop :=
  match c with CallAdd v => 0 <= v | CallRemove _ => True end.

Definition currency_do (w : CurrencyComponent.t) (c : currency_call) : CurrencyComponent.t :=
  match c with
  | CallAdd v => CurrencyComponent.add w v
  | CallRemove v => (CurrencyComponent.remove w v).1
  end.

Inductive relationship_call : Type :=
| CallSet (eid value : Z)
| CallModify (eid delta : Z).

Definition relationship_do (r : RelationshipComponent.t) (c : relationship_call)
  : RelationshipComponent.t :=
  match c with
  | CallSet i v => RelationshipComponent.set_relationship r i v
  | CallModify i d => RelationshipComponent.modify_relationship r i d
  end.

(** Every stored relationship value lies in [-100, 100]. *)
Definition in_range (r : RelationshipComponent.t) : Prop :=
  forall k v, RelationshipComponent.relationships r !! k = Some v -> -100 <= v <= 100.

(** [sum(self.items.values())] *)
Definition total (inv : InventoryComponent.t) : Z :=
  map_fold (fun _ v acc => v + acc) 0 (InventoryComponent.items inv).

(** No entry with a count of zero or less, and no more items than the
    capacity. *)
Definition stocked (inv : InventoryComponent.t) : Prop :=
  (forall k v, InventoryComponent.items inv !! k = Some v -> 0 < v) /\
  total inv <= InventoryComponent.capacity inv.

Inductive inventory_call : Type :=
| CallAddItem (item_type : string) (quantity : Z)
| CallRemoveItem (item_type : string) (quantity : Z).

Definition inventory_quantity (c : inventory_call) : Z :=
  match c with CallAddItem _ q | CallRemoveItem _ q => q end.

Definition inventory_do (inv : InventoryComponent.t) (c : inventory_call)
  : InventoryComponent.t :=
  match c with
  | CallAddItem k q => (InventoryComponent.add_item inv k q).1
  | CallRemoveItem k q => (InventoryComponent.remove_item inv k q).1
  end.

Inductive goal_call : Type :=
| CallAddGoal (goal : string)
| CallSetGoal (goal : string)
| CallCompleteGoal (goal : string).

Definition goal_do (g : GoalComponent.t) (c : goal_call) : GoalComponent.t :=
  match c with
  | CallAddGoal x => GoalComponent.add_goal g x
  | CallSetGoal x => GoalComponent.set_goal g x
  | CallCompleteGoal x => GoalComponent.complete_goal g x
  end.

(** *** Vocabulary of the statements about entities and managers *)

(** Every component of the entity is stored under its own type and names
    the entity as its owner. *)
Definition owned (e : Entity.t) : Prop :=
  forall ct c, Entity.components e !! ct = Some c ->
               component_type c = ct /\ entity_id c = Some (Entity.id e).

(** An entity record written to JSON and read back. *)
Definition json_entity (data : EntityData) : EntityData :=
  mkEntityData (ed_id data) (ed_name data) (ed_entity_type data) (ed_active data)
    (fmap (M := list) json_loads_dumps <$> ed_components data).

(** Every entity of the manager is stored under its own ID and owns its
    components. *)
Definition well_formed (m : EntityManager.t) : Prop :=
  forall i e, EntityManager.entities m !! i = Some e -> Entity.id e = i /\ owned e.

(** Every ID in use is below the counter. *)
Definition keys_below (st : EntityManager.t * Z) : Prop :=
  forall i, is_Some (EntityManager.entities st.1 !! i) -> i < st.2.

(** A call other than [add_entity] with an entity made elsewhere. *)
Definition own_call (o : op) : Prop :=
  match o with OpAdd _ => False | _ => True end.

(** What an archetype helper called on manager [m] with counter [n] has to
    return in [r]: an entity of type [ty] with ID [n] that is active, owns
    its components and has exactly the component types [cts]; when the ID
    was free the entity is stored in the returned manager and found by the
    query for [cts], the other IDs being untouched; when the ID was taken
    the manager is unchanged; and the type index stays consistent. *)
Definition archetype (m : EntityManager.t) (n : Z)
    (r : result (EntityManager.t * Entity.t) * Z)
    (ty : string) (cts : list ComponentType) : Prop :=
  exists m' e,
    r = (Ok (m', e), n + 1) /\
    Entity.id e = n /\ Entity.entity_type e = ty /\ Entity.active e = true /\
    owned e /\
    (forall ct, Entity.has_component e ct = true <-> ct ∈ cts) /\
    (EntityManager.entities m !! n = None ->
     EntityManager.get_entity m' n = Some e /\
     e ∈ EntityManager.query_entities m' cts /\
     (forall i, i <> n -> EntityManager.get_entity m' i = EntityManager.get_entity m i)) /\
    (is_Some (EntityManager.entities m !! n) -> m' = m) /\
    (index_consistent m -> index_consistent m').

(** *** Vocabulary of the statements about the calendar *)

(** The calendar [k] calls of [advance_time] after a new game: the day
    number grows every fourth call, the season changes on the days whose
    number is a multiple of 28, and the year on those whose number is a
    multiple of 112. *)
Definition calendar_at (k : Z) : string * Z * string * Z :=
  let day := 1 + k / 4 in
  (nth (Z.to_nat (k mod 4)) TimeOfDay.get_all "",
   day,
   nth (Z.to_nat ((day / 28) mod 4)) Season.get_all "",
   1 + day / 112).

(** * Theorems *)

Section Health.
Import HealthComponent.

(** C2, as stated, fails: with [current = 5], [maximum = 10] and
    [d = 8 <= maximum] the damage is clamped at 0 and healing by 8 gives 8,
    not the value 5 held before the damage. *)
Lemma damage_heal_counterexample :
  exists (h : t) (d : Z),
    0 <= current h <= maximum h /\ d <= maximum h /\
    current (heal (damage h d) d) = 8 /\
    current (heal (damage h d) d) <> Z.min (maximum h) (current h).
Proof. exists (mk None 5 10), 8. vm_compute. repeat split; congruence. Qed.

(** C2, amended: for every health component with
    [0 <= current <= maximum] and every integer [d <= current] (so that the
    damage is not clamped at 0), [damage d] followed by [heal d] leaves
    [current] at its value before the damage, and [maximum] and the owner
    are untouched. *)
Theorem damage_heal_restores (h : t) (d : Z) :
  0 <= current h <= maximum h ->
  d <= current h ->
  heal (damage h d) d = h.
Proof.
  intros [H0 Hmax] Hd. destruct h as [eid c m]; simpl in *.
  unfold heal, damage; simpl. f_equal. lia.
Qed.

Lemma damage_heal_restores_witness :
  0 <= 80 <= 100 /\ 30 <= 80 /\
  heal (damage (mk (Some 1) 80 100) 30) 30 = mk (Some 1) 80 100.
Proof.
  split; [lia | ]. split; [lia | ].
  apply damage_heal_restores; simpl; lia.
Defined.

End Health.

Section Currency.
Import CurrencyComponent.

(** C5: for all integers [a >= b >= 0], on a currency component holding
    [a], [remove b] returns true and leaves [a - b]; [remove (a + 1)]
    returns false and leaves the component unchanged; in both cases the
    amount stays non-negative. *)
Theorem remove_all_or_nothing (eid : option Z) (a b : Z) :
  a >= b -> b >= 0 ->
  remove (mk eid a) b = (mk eid (a - b), true) /\
  remove (mk eid a) (a + 1) = (mk eid a, false) /\
  amount (remove (mk eid a) b).1 >= 0 /\
  amount (remove (mk eid a) (a + 1)).1 >= 0.
Proof.
  intros Hab Hb. unfold remove; simpl.
  rewrite bool_decide_true by lia. rewrite bool_decide_false by lia.
  simpl. repeat split; lia.
Qed.

Lemma remove_all_or_nothing_witness :
  100 >= 30 /\ 30 >= 0 /\
  remove (mk None 100) 30 = (mk None 70, true) /\
  remove (mk None 100) 101 = (mk None 100, false) /\
  amount (remove (mk None 100) 30).1 >= 0 /\
  amount (remove (mk None 100) 101).1 >= 0.
Proof.
  split; [lia | ]. split; [lia | ].
  apply (remove_all_or_nothing None 100 30); lia.
Defined.

End Currency.

(** ** The calendar *)

Section Calendar.
Import GameState.

Lemma get_next_time_cases (s : string) :
  TimeOfDay.get_next s =
    Ok (if decide (s = "morning") then "afternoon"
        else if decide (s = "afternoon") then "evening"
        else if decide (s = "evening") then "night"
        else "morning").
Proof.
  unfold TimeOfDay.get_next, TimeOfDay.get_all, TimeOfDay.MORNING,
    TimeOfDay.AFTERNOON, TimeOfDay.EVENING, TimeOfDay.NIGHT.
  cbn [list_index].
  repeat (case_decide; subst; [try reflexivity; try congruence | ]);
    try congruence.
  reflexivity.
Qed.

Lemma get_next_season_cases (s : string) :
  Season.get_next s =
    Ok (if decide (s = "spring") then "summer"
        else if decide (s = "summer") then "fall"
        else if decide (s = "fall") then "winter"
        else "spring").
Proof.
  unfold Season.get_next, Season.get_all, Season.SPRING, Season.SUMMER,
    Season.FALL, Season.WINTER.
  cbn [list_index].
  repeat (case_decide; subst; [try reflexivity; try congruence | ]);
    try congruence.
  reflexivity.
Qed.

Lemma advance_time_total (g : t) : exists g', advance_time g = Ok g'.
Proof.
  unfold advance_time.
  rewrite get_next_time_cases. generalize (time_of_day g). intros s.
  match goal with |- context [Ok ?r ≫= _] => generalize r end. intros tod.
  cbn [mbind result_bind].
  destruct (decide (tod = TimeOfDay.MORNING)) as [_|_]; [ | eauto].
  unfold py_mod. destruct (decide (28 = 0)) as [|_]; [lia | ].
  cbn [mbind result_bind].
  destruct (decide ((day_count g + 1) `mod` 28 = 0)) as [_|_]; [ | eauto].
  rewrite get_next_season_cases. cbn [mbind result_bind]. eauto.
Qed.

Lemma advance_times_total (n : nat) : forall g, exists g', advance_times n g = Ok g'.
Proof.
  induction n as [|n IH]; intros g; cbn [advance_times]; [eauto | ].
  destruct (advance_time_total g) as [g1 ->]. cbn [mbind result_bind]. apply IH.
Qed.

(** C9: [TimeOfDay.get_next] and [Season.get_next] return a label for every
    input string, and that label is "morning" (respectively "spring") when
    the input is not one of the four recognised labels; hence [advance_time],
    once or any number of times in a row, never raises, whatever text the
    [time_of_day] and [season] fields hold. *)
Theorem get_next_total_advance_time_never_raises :
  (forall s, exists r, TimeOfDay.get_next s = Ok r) /\
  (forall s, s ∉ TimeOfDay.get_all -> TimeOfDay.get_next s = Ok "morning") /\
  (forall s, exists r, Season.get_next s = Ok r) /\
  (forall s, s ∉ Season.get_all -> Season.get_next s = Ok "spring") /\
  (forall g, exists g', advance_time g = Ok g') /\
  (forall n g, exists g', advance_times n g = Ok g').
Proof.
  split; [intros s; rewrite get_next_time_cases; eauto | ].
  split.
  { intros s Hs. rewrite get_next_time_cases.
    unfold TimeOfDay.get_all, TimeOfDay.MORNING, TimeOfDay.AFTERNOON,
      TimeOfDay.EVENING, TimeOfDay.NIGHT in Hs.
    repeat (case_decide; [subst; exfalso; apply Hs; set_solver | ]).
    reflexivity. }
  split; [intros s; rewrite get_next_season_cases; eauto | ].
  split.
  { intros s Hs. rewrite get_next_season_cases.
    unfold Season.get_all, Season.SPRING, Season.SUMMER, Season.FALL,
      Season.WINTER in Hs.
    repeat (case_decide; [subst; exfalso; apply Hs; set_solver | ]).
    reflexivity. }
  split; [apply advance_time_total | intros n g; apply advance_times_total].
Qed.

(** A state restored from a save whose labels are corrupt. *)
Lemma get_next_total_advance_time_never_raises_witness :
  ("noon" ∉ TimeOfDay.get_all) /\ TimeOfDay.get_next "noon" = Ok "morning" /\
  ("monsoon" ∉ Season.get_all) /\ Season.get_next "monsoon" = Ok "spring" /\
  exists g',
    advance_time (mk EntityManager.__init__ 27 "noon" "monsoon" 3 "sunny" None "g") = Ok g'.
Proof.
  destruct get_next_total_advance_time_never_raises as (_ & Ht & _ & Hs & Ha & _).
  assert (H1 : "noon" ∉ TimeOfDay.get_all).
  { intros H. repeat (apply elem_of_cons in H as [H|H]; [discriminate H | ]).
    apply elem_of_nil in H. exact H. }
  assert (H2 : "monsoon" ∉ Season.get_all).
  { intros H. repeat (apply elem_of_cons in H as [H|H]; [discriminate H | ]).
    apply elem_of_nil in H. exact H. }
  split; [exact H1 | ]. split; [exact (Ht _ H1) | ].
  split; [exact H2 | ]. split; [exact (Hs _ H2) | ]. apply Ha.
Defined.

(** The calendar reached by a run depends on the initial calendar only. *)
Lemma calendar_after_init (n : nat) (g : t) :
  calendar g = calendar __init__ ->
  calendar <$> advance_times n g = calendar <$> advance_times n __init__.
Proof.
  intros Hc. revert g Hc. generalize __init__ as g0.
  induction n as [|n IH]; intros g0 g Hc; cbn [advance_times].
  - cbn. now rewrite Hc.
  - assert (Hstep : match advance_time g, advance_time g0 with
                    | Ok a, Ok b => calendar a = calendar b
                    | _, _ => False
                    end).
    { destruct g, g0; unfold calendar in Hc; cbn in Hc.
      injection Hc as -> -> -> ->.
      unfold advance_time; cbn [time_of_day day_count season year].
      rewrite get_next_time_cases.
      match goal with |- context [Ok ?r ≫= _] => generalize r end. intros tod.
      cbn [mbind result_bind].
      destruct (decide (tod = TimeOfDay.MORNING)) as [_|_]; [ | reflexivity].
      unfold py_mod. destruct (decide (28 = 0)) as [|_]; [lia | ].
      cbn [mbind result_bind].
      match goal with |- context [decide (?d `mod` 28 = 0)] =>
        destruct (decide (d `mod` 28 = 0)) as [_|_]; [ | reflexivity] end.
      rewrite get_next_season_cases. cbn [mbind result_bind]. reflexivity. }
    destruct (advance_time g) as [a|], (advance_time g0) as [b|]; try contradiction.
    cbn [mbind result_bind]. now apply IH.
Qed.

(** C1, as stated, fails: 112 calls from (morning, day 1, spring, year 1)
    end on day 29 in summer of year 1, not in spring of year 2. *)
Lemma advance_time_112_counterexample :
  calendar __init__ = ("morning", 1, "spring", 1) /\
  calendar <$> advance_times 112 __init__ = Ok ("morning", 29, "summer", 1) /\
  ("summer", 1) <> ("spring", 2).
Proof. split; [reflexivity | ]. split; [vm_compute; reflexivity | congruence]. Qed.

(** C1, amended: from a state with [time_of_day = morning], [day_count = 1],
    [season = spring] and [year = 1], exactly 4 calls of [advance_time] yield
    [time_of_day = morning] and [day_count = 2], and exactly 112 calls yield
    [season = summer] and [year = 1] (on the morning of day 29): 112 calls
    are one season, not one year. *)
Theorem advance_time_4_and_112 (g : t) :
  calendar g = ("morning", 1, "spring", 1) ->
  calendar <$> advance_times 4 g = Ok ("morning", 2, "spring", 1) /\
  calendar <$> advance_times 112 g = Ok ("morning", 29, "summer", 1).
Proof.
  intros Hc.
  split; rewrite (calendar_after_init _ g Hc); vm_compute; reflexivity.
Qed.

Lemma advance_time_4_and_112_witness :
  calendar __init__ = ("morning", 1, "spring", 1) /\
  calendar <$> advance_times 4 __init__ = Ok ("morning", 2, "spring", 1) /\
  calendar <$> advance_times 112 __init__ = Ok ("morning", 29, "summer", 1).
Proof.
  split; [reflexivity | apply advance_time_4_and_112; reflexivity].
Defined.

End Calendar.

(** ** Integer keys through text *)

Section IntKeys.

Lemma lstrip_id (s : list ascii) :
  Forall (fun c => is_space c = false) s -> lstrip s = s.
Proof. intros [|c s' Hc _]; [reflexivity | ]. cbn [lstrip]. now rewrite Hc. Qed.

Lemma strip_id (s : list ascii) :
  Forall (fun c => is_space c = false) s -> strip s = s.
Proof.
  intros Hs. unfold strip. rewrite (lstrip_id s Hs).
  rewrite lstrip_id by (apply Forall_rev; exact Hs). apply rev_involutive.
Qed.

Lemma is_dec_cases (c : ascii) :
  is_dec c = true ->
  is_space c = false /\ Ascii.eqb c "_" = false /\
  Ascii.eqb c "-" = false /\ Ascii.eqb c "+" = false.
Proof.
  destruct c as [[] [] [] [] [] [] [] []]; cbn; intros H;
    first [discriminate H | repeat split].
Qed.

Lemma drop_underscores_digits (s : list ascii) :
  Forall (fun c => is_dec c = true) s -> drop_underscores true s = Some s.
Proof.
  induction 1 as [|c s' Hc _ IH]; [reflexivity | ].
  cbn [drop_underscores]. destruct (is_dec_cases c Hc) as (_ & -> & _).
  now rewrite IH.
Qed.

Lemma string_of_uint_digits (u : Decimal.uint) :
  Forall (fun c => is_dec c = true)
         (list_ascii_of_string (NilEmpty.string_of_uint u)).
Proof. induction u; cbn; constructor; auto. Qed.

(** [int] reads a non-empty digit string as the number it denotes. *)
Lemma int_of_str_digits (neg : bool) (s : string) (u : Decimal.uint) :
  Forall (fun c => is_dec c = true) (list_ascii_of_string s) ->
  NilZero.uint_of_string s = Some u ->
  int_of_str (if neg then String "-" s else s)
  = Ok (if neg then - Z.of_uint u else Z.of_uint u).
Proof.
  intros Hd Hu. unfold int_of_str.
  assert (Hsp : Forall (fun c => is_space c = false) (list_ascii_of_string s)).
  { eapply List.Forall_impl; [ | exact Hd]. intros c Hc. now apply is_dec_cases. }
  destruct s as [|c s']; [discriminate Hu | ].
  assert (Hc : is_dec c = true) by (now inversion Hd).
  assert (Hd' : Forall (fun c => is_dec c = true) (list_ascii_of_string s'))
    by (now inversion Hd).
  destruct (is_dec_cases c Hc) as (_ & Hus & Hminus & Hplus).
  assert (Hbody : drop_underscores false (list_ascii_of_string (String c s'))
                  = Some (list_ascii_of_string (String c s'))).
  { cbn [list_ascii_of_string drop_underscores]. rewrite Hus.
    now rewrite drop_underscores_digits. }
  destruct neg.
  - change (list_ascii_of_string (String "-" (String c s')))
      with ("-"%char :: list_ascii_of_string (String c s')).
    rewrite strip_id by (constructor; [reflexivity | exact Hsp]).
    rewrite Hbody, string_of_list_ascii_of_string, Hu. reflexivity.
  - rewrite strip_id by exact Hsp.
    assert (Hhead : match list_ascii_of_string (String c s') with
                    | "-"%char :: r => (true, r)
                    | "+"%char :: r => (false, r)
                    | _ => (false, list_ascii_of_string (String c s'))
                    end = (false, list_ascii_of_string (String c s'))).
    { cbn [list_ascii_of_string].
      apply Ascii.eqb_neq in Hminus, Hplus.
      destruct c as [[] [] [] [] [] [] [] []]; try reflexivity; congruence. }
    rewrite Hhead.
    rewrite Hbody, string_of_list_ascii_of_string, Hu. reflexivity.
Qed.

(** Reading back the text of an integer gives the integer. *)
Lemma int_of_str_of_int (z : Z) : int_of_str (str_of_int z) = Ok z.
Proof.
  destruct z as [|p|p]; [reflexivity | | ].
  - unfold str_of_int. cbn [Z.to_int NilZero.string_of_int].
    assert (Hnn := DecimalPos.Unsigned.to_uint_nonnil p).
    rewrite (int_of_str_digits false _ (Pos.to_uint p)).
    + f_equal. exact (DecimalZ.of_to (Z.pos p)).
    + unfold NilZero.string_of_uint.
      destruct (Pos.to_uint p) eqn:E; try contradiction;
        rewrite <- E; apply string_of_uint_digits.
    + now apply NilZero.usu.
  - unfold str_of_int. cbn [Z.to_int NilZero.string_of_int].
    assert (Hnn := DecimalPos.Unsigned.to_uint_nonnil p).
    rewrite (int_of_str_digits true _ (Pos.to_uint p)).
    + f_equal. exact (DecimalZ.of_to (Z.neg p)).
    + unfold NilZero.string_of_uint.
      destruct (Pos.to_uint p) eqn:E; try contradiction;
        rewrite <- E; apply string_of_uint_digits.
    + now apply NilZero.usu.
Qed.

End IntKeys.

(** ** The relationship mapping through [to_dict] and [from_dict] *)

Section Relationship.
Import RelationshipComponent.

Lemma fold_insert_notin (l : list (Z * Z)) (acc : gmap Z Z) (k : Z) :
  k ∉ l.*1 ->
  fold_left (fun a kv => <[kv.1 := kv.2]> a) l acc !! k = acc !! k.
Proof.
  revert acc. induction l as [|[k' v'] l IH]; intros acc Hk; [reflexivity | ].
  cbn in *. apply not_elem_of_cons in Hk as [Hne Hk].
  rewrite IH by exact Hk. now apply lookup_insert_ne.
Qed.

Lemma fold_insert_in (l : list (Z * Z)) (acc : gmap Z Z) (k v : Z) :
  NoDup l.*1 -> (k, v) ∈ l ->
  fold_left (fun a kv => <[kv.1 := kv.2]> a) l acc !! k = Some v.
Proof.
  revert acc. induction l as [|[k' v'] l IH]; intros acc Hnd Hin.
  - now apply elem_of_nil in Hin.
  - cbn in *. inversion Hnd as [|? ? Hk' Hnd']; subst.
    apply elem_of_cons in Hin as [Heq|Hin].
    + injection Heq as -> ->. rewrite fold_insert_notin by exact Hk'.
      apply lookup_insert_eq.
    + now apply IH.
Qed.

Lemma fold_insert_map_to_list (m : gmap Z Z) :
  fold_left (fun a kv => <[kv.1 := kv.2]> a) (map_to_list m) ∅ = m.
Proof.
  apply map_eq. intros k. destruct (m !! k) as [v|] eqn:E.
  - apply fold_insert_in; [apply NoDup_fst_map_to_list | ].
    now apply elem_of_map_to_list.
  - rewrite fold_insert_notin; [apply lookup_empty | ].
    intros Hin. apply list_elem_of_fmap in Hin as [[k' v] [-> Hin]].
    apply elem_of_map_to_list in Hin. cbn in E. congruence.
Qed.

(** Keys that [int] maps back to the integer they stand for. *)
Lemma int_relationships_keys (f : Z -> pykey) (l : list (Z * Z)) (acc : gmap Z Z) :
  (forall z, py_int (f z) = Ok z) ->
  int_relationships (prod_map f id <$> l) acc
  = Ok (fold_left (fun a kv => <[kv.1 := kv.2]> a) l acc).
Proof.
  intros Hf. revert acc. induction l as [|[k v] l IH]; intros acc; [reflexivity | ].
  cbn. rewrite Hf. cbn. apply IH.
Qed.

Lemma from_dict_to_dict (r : t) :
  from_dict (to_dict r) = Ok (mk None (relationships r)).
Proof.
  unfold from_dict, to_dict. cbn [d_relationships default id].
  rewrite (int_relationships_keys KInt) by reflexivity.
  cbn. now rewrite fold_insert_map_to_list.
Qed.

Lemma from_dict_json_to_dict (r : t) :
  from_dict (json_loads_dumps (to_dict r)) = Ok (mk None (relationships r)).
Proof.
  unfold from_dict, to_dict, json_loads_dumps.
  cbn [d_relationships default fmap option_fmap option_map id].
  rewrite <- list_fmap_compose.
  rewrite (list_fmap_ext _ (prod_map (fun z => KStr (str_of_int z)) id))
    by (intros i [k v] _; reflexivity).
  rewrite (int_relationships_keys (fun z => KStr (str_of_int z)))
    by (intros z; apply int_of_str_of_int).
  cbn. now rewrite fold_insert_map_to_list.
Qed.

(** C4: for every relationship component, after [set_relationship 7 60],
    [to_dict] followed by [from_dict] succeeds, whether the record is handed
    over in memory (integer keys) or has been through JSON (text keys), and
    yields a component whose mapping, keyed by integers, is the mapping that
    was serialized; in particular [get_relationship 7] is 60. *)
Theorem relationship_roundtrip (r : t) :
  (exists r2 : t,
      from_dict (to_dict (set_relationship r 7 60)) = Ok r2 /\
      (relationships r2 : gmap Z Z) = relationships (set_relationship r 7 60) /\
      get_relationship r2 7 = 60) /\
  (exists r3 : t,
      from_dict (json_loads_dumps (to_dict (set_relationship r 7 60))) = Ok r3 /\
      (relationships r3 : gmap Z Z) = relationships (set_relationship r 7 60) /\
      get_relationship r3 7 = 60).
Proof.
  assert (H60 : get_relationship (mk None (relationships (set_relationship r 7 60))) 7 = 60).
  { unfold get_relationship, set_relationship. cbn [relationships].
    now rewrite lookup_insert_eq. }
  split; eexists; (split; [ | split; [ | exact H60]]).
  - apply from_dict_to_dict.
  - reflexivity.
  - apply from_dict_json_to_dict.
  - reflexivity.
Qed.

End Relationship.

(** ** Capability queries *)

Section Query.
Import EntityManager.

Lemma has_components_spec (e : Entity.t) (cts : list ComponentType) :
  Entity.has_components e cts = true <->
  forall ct, ct ∈ cts -> is_Some (Entity.components e !! ct).
Proof.
  unfold Entity.has_components. rewrite forallb_forall. split.
  - intros H ct Hct. apply list_elem_of_In in Hct.
    specialize (H ct Hct). unfold Entity.has_component in H.
    now apply bool_decide_eq_true in H.
  - intros H ct Hct. apply list_elem_of_In in Hct.
    unfold Entity.has_component. apply bool_decide_eq_true. now apply H.
Qed.

Lemma query_entities_spec (m : t) (req : list ComponentType) (e : Entity.t) :
  e ∈ query_entities m req <->
  (exists i, entities m !! i = Some e) /\ Entity.active e = true /\
  forall ct, ct ∈ req -> is_Some (Entity.components e !! ct).
Proof.
  unfold query_entities. rewrite list_elem_of_In, filter_In, <- list_elem_of_In.
  rewrite andb_true_iff, has_components_spec.
  rewrite list_elem_of_fmap. split.
  - intros [([i e'] & -> & Hin) [Ha Hc]].
    apply elem_of_map_to_list in Hin. eauto.
  - intros [[i Hi] [Ha Hc]]. split; [ | auto].
    exists (i, e). split; [reflexivity | ]. now apply elem_of_map_to_list.
Qed.

(** C6: [query_entities] returns exactly the entities of the manager that
    are active and have every requested component type.  Hence an active
    entity holding Position, Health and Inventory is returned by the queries
    for [Position], for [Position, Health] and for
    [Position, Health, Inventory]; no entity is returned by a query that
    includes a type it lacks; and an inactive entity is never returned. *)
Theorem query_entities_exact (m : t) :
  (forall req e,
      e ∈ query_entities m req <->
      (exists i, entities m !! i = Some e) /\ Entity.active e = true /\
      forall ct, ct ∈ req -> is_Some (Entity.components e !! ct)) /\
  (forall i e,
      entities m !! i = Some e -> Entity.active e = true ->
      is_Some (Entity.components e !! POSITION) ->
      is_Some (Entity.components e !! HEALTH) ->
      is_Some (Entity.components e !! INVENTORY) ->
      e ∈ query_entities m [POSITION] /\
      e ∈ query_entities m [POSITION; HEALTH] /\
      e ∈ query_entities m [POSITION; HEALTH; INVENTORY]) /\
  (forall req e ct,
      ct ∈ req -> Entity.components e !! ct = None -> e ∉ query_entities m req) /\
  (forall req e, Entity.active e = false -> e ∉ query_entities m req).
Proof.
  split; [intros req e; apply query_entities_spec | ].
  split.
  { intros i e Hi Ha Hp Hh Hv.
    repeat split; apply query_entities_spec;
      (split; [eauto | split; [exact Ha | ]]);
      intros ct Hct;
      repeat (apply elem_of_cons in Hct as [->|Hct]; [assumption | ]);
      now apply elem_of_nil in Hct. }
  split.
  - intros req e ct Hct Hnone Hin.
    apply query_entities_spec in Hin as (_ & _ & Hall).
    destruct (Hall ct Hct) as [c Hc]. congruence.
  - intros req e Ha Hin.
    apply query_entities_spec in Hin as (_ & Ha' & _). congruence.
Qed.

Lemma query_entities_exact_witness :
  let e1 := Entity.mk 1 "A" "Player"
              (<[INVENTORY := Inventory (InventoryComponent.mk (Some 1) ∅ 20)]>
                 (<[HEALTH := Health (HealthComponent.mk (Some 1) 100 100)]>
                    (<[POSITION := Position (PositionComponent.mk (Some 1) "Farm" 0 0)]> ∅)))
              true in
  let e2 := Entity.mk 2 "B" "Crop"
              (<[POSITION := Position (PositionComponent.mk (Some 2) "Farm" 0 0)]> ∅)
              true in
  let m := mk (<[2 := e2]> (<[1 := e1]> ∅)) (<["Crop" := [2]]> (<["Player" := [1]]> ∅)) in
  (entities m !! 1 = Some e1 /\ Entity.active e1 = true) /\
  (e1 ∈ query_entities m [POSITION] /\
   e1 ∈ query_entities m [POSITION; HEALTH] /\
   e1 ∈ query_entities m [POSITION; HEALTH; INVENTORY]) /\
  (Entity.components e2 !! HEALTH = None /\ e2 ∉ query_entities m [POSITION; HEALTH]).
Proof.
  cbv zeta. split; [split; vm_compute; reflexivity | ]. split.
  - eapply (proj1 (proj2 (query_entities_exact _)) 1);
      vm_compute; solve [reflexivity | eauto].
  - split; [vm_compute; reflexivity | ].
    eapply (proj1 (proj2 (proj2 (query_entities_exact _))) _ _ HEALTH).
    + apply elem_of_cons. right. apply elem_of_cons. now left.
    + vm_compute. reflexivity.
Defined.

End Query.

(** ** Deserializing an entity *)

Section Registry.

Lemma registry_lookup (ct : ComponentType) :
  COMPONENT_REGISTRY !! ComponentType_.value ct =
    match ct with
    | POSITION => Some (fun d => Ok (Position (PositionComponent.from_dict d)))
    | HEALTH => Some (fun d => Ok (Health (HealthComponent.from_dict d)))
    | INVENTORY => Some (fun d => Ok (Inventory (InventoryComponent.from_dict d)))
    | CURRENCY => Some (fun d => Ok (Currency (CurrencyComponent.from_dict d)))
    | RELATIONSHIP => Some (fun d => Relationship <$> RelationshipComponent.from_dict d)
    | NEEDS => Some (fun d => Ok (Needs (NeedsComponent.from_dict d)))
    | SCHEDULE => Some (fun d => Ok (Schedule (ScheduleComponent.from_dict d)))
    | OCCUPATION => Some (fun d => Ok (Occupation (OccupationComponent.from_dict d)))
    | MEMORY => Some (fun d => Ok (Memory (MemoryComponent.from_dict d)))
    | GOAL => Some (fun d => Ok (Goal (GoalComponent.from_dict d)))
    | AI | SENSORY => None
    end.
Proof. destruct ct; vm_compute; reflexivity. Qed.

End Registry.

Section EntityFromDict.
Import Entity.

Lemma create_unregistered (cd : CompData) :
  registered cd = false -> create_component_from_dict cd = Ok None.
Proof.
  unfold registered, create_component_from_dict.
  destruct (d_type cd) as [ty|]; [ | reflexivity].
  intros H. apply bool_decide_eq_false in H.
  destruct (COMPONENT_REGISTRY !! ty) as [f|] eqn:E; [ | reflexivity].
  exfalso. apply H. eauto.
Qed.

Lemma create_registered (cd : CompData) (c : Component) :
  create_component_from_dict cd = Ok (Some c) ->
  registered cd = true /\
  d_type cd = Some (ComponentType_.value (component_type c)).
Proof.
  unfold registered, create_component_from_dict.
  destruct (d_type cd) as [ty|]; [ | discriminate].
  destruct (COMPONENT_REGISTRY !! ty) as [f|] eqn:E; [ | discriminate].
  intros Hc. split; [apply bool_decide_eq_true; eauto | ].
  apply elem_of_list_to_map_2 in E.
  repeat (apply elem_of_cons in E as [E|E];
          [injection E as -> ->; cbn in Hc;
           try (destruct (RelationshipComponent.from_dict cd); cbn in Hc;
                [ | discriminate Hc]);
           injection Hc as <-; reflexivity | ]).
  now apply elem_of_nil in E.
Qed.

Lemma restore_components_drop (l : list CompData) (e : t) :
  restore_components l e = restore_components (List.filter registered l) e.
Proof.
  revert e. induction l as [|cd l IH]; intros e; [reflexivity | ].
  cbn [restore_components List.filter].
  destruct (registered cd) eqn:Hr.
  - cbn [restore_components].
    destruct (create_component_from_dict cd) as [oc|]; [ | reflexivity].
    cbn. apply IH.
  - rewrite (create_unregistered cd Hr). cbn. apply IH.
Qed.

Lemma add_component_lookup (e : t) (c : Component) (ct : ComponentType) :
  components (add_component e c).1 !! ct =
    match components e !! ct with
    | Some c' => Some c'
    | None => if decide (component_type c = ct)
              then Some (set_entity_id (id e) c) else None
    end.
Proof.
  unfold add_component.
  destruct (components e !! component_type c) as [c0|] eqn:E; cbn.
  - destruct (components e !! ct) eqn:E'; [reflexivity | ].
    case_decide; [congruence | reflexivity].
  - case_decide as Hct.
    + subst ct. rewrite E. apply lookup_insert_eq.
    + rewrite lookup_insert_ne by exact Hct.
      now destruct (components e !! ct).
Qed.

Lemma add_component_fields (e : t) (c : Component) :
  id (add_component e c).1 = id e /\ name (add_component e c).1 = name e /\
  entity_type (add_component e c).1 = entity_type e /\
  active (add_component e c).1 = active e.
Proof. unfold add_component. now destruct (components e !! component_type c). Qed.

Lemma restore_components_lookup (l : list CompData) (e e' : t) :
  restore_components l e = Ok e' ->
  id e' = id e /\
  forall ct,
    components e' !! ct =
      match components e !! ct with
      | Some c => Some c
      | None => set_entity_id (id e) <$> first_of_type ct l
      end.
Proof.
  revert e. induction l as [|cd l IH]; intros e Hr.
  - injection Hr as <-. split; [reflexivity | ].
    intros ct. now destruct (components e !! ct).
  - cbn [restore_components first_of_type] in *.
    destruct (create_component_from_dict cd) as [[c|]|]; cbn in Hr;
      [ | now apply IH | discriminate Hr].
    apply IH in Hr as [Hid Hl].
    destruct (add_component_fields e c) as (Hid' & _).
    split; [congruence | ].
    intros ct. rewrite Hl, add_component_lookup, Hid'.
    destruct (components e !! ct); [reflexivity | ].
    now case_decide.
Qed.

Lemma restore_components_total (l : list CompData) (e : t) :
  (forall cd, cd ∈ l -> registered cd = true ->
              exists c, create_component_from_dict cd = Ok (Some c)) ->
  exists e', restore_components l e = Ok e'.
Proof.
  revert e. induction l as [|cd l IH]; intros e Hl; [cbn; eauto | ].
  cbn [restore_components].
  destruct (registered cd) eqn:Hr.
  - destruct (Hl cd) as [c ->]; [left | exact Hr | ].
    cbn. apply IH. intros cd' Hin. apply Hl. now right.
  - rewrite (create_unregistered cd Hr). cbn.
    apply IH. intros cd' Hin. apply Hl. now right.
Qed.

Lemma from_dict_unfold (data : EntityData) (n : Z) :
  from_dict data n =
    (restore_components (default [] (ed_components data))
       (mk (default n (ed_id data)) (default "Unnamed Entity" (ed_name data))
           (default "Generic" (ed_entity_type data)) ∅
           (default true (ed_active data))),
     n + 1).
Proof. reflexivity. Qed.

Lemma restore_components_fields (l : list CompData) (e e' : t) :
  restore_components l e = Ok e' ->
  name e' = name e /\ entity_type e' = entity_type e /\ active e' = active e.
Proof.
  revert e. induction l as [|cd l IH]; intros e H.
  - injection H as <-. auto.
  - cbn [restore_components] in H.
    destruct (create_component_from_dict cd) as [[c|]|]; cbn in H;
      [ | now apply IH | discriminate H].
    apply IH in H. destruct (add_component_fields e c) as (_ & H1 & H2 & H3).
    rewrite H1, H2, H3 in H. exact H.
Qed.

Lemma restore_components_app (l1 l2 : list CompData) (e : t) :
  restore_components (l1 ++ l2)%list e =
    restore_components l1 e ≫= restore_components l2.
Proof.
  revert e. induction l1 as [|cd l1 IH]; intros e; [reflexivity | ].
  cbn [app restore_components].
  destruct (create_component_from_dict cd) as [c|x]; cbn [mbind result_bind];
    [apply IH | reflexivity].
Qed.

(** A record of a type that the entity has by then has no effect. *)
Lemma restore_components_duplicate (l1 l2 : list CompData) (cd : CompData)
    (c : Component) (e : t) :
  create_component_from_dict cd = Ok (Some c) ->
  is_Some (first_of_type (component_type c) l1) ->
  restore_components (l1 ++ cd :: l2)%list e = restore_components (l1 ++ l2)%list e.
Proof.
  intros Hc Hfirst. rewrite !restore_components_app.
  destruct (restore_components l1 e) as [e1|x] eqn:E1; [ | reflexivity].
  cbn [mbind result_bind restore_components]. rewrite Hc. cbn [mbind result_bind].
  destruct (restore_components_lookup _ _ _ E1) as [_ Hl].
  assert (Hhas : is_Some (components e1 !! component_type c)).
  { rewrite Hl. destruct (components e !! component_type c); [eauto | ].
    destruct Hfirst as [c0 ->]. cbn. eauto. }
  unfold add_component. destruct Hhas as [c1 ->]. reflexivity.
Qed.

Lemma create_tagged (cd : CompData) (ct : ComponentType) :
  d_type cd = Some (ComponentType_.value ct) ->
  create_component_from_dict cd =
    match COMPONENT_REGISTRY !! ComponentType_.value ct with
    | Some from_dict => c ← from_dict cd; Ok (Some c)
    | None => Ok None
    end.
Proof. intros H. unfold create_component_from_dict. now rewrite H. Qed.

(** C7, as stated, fails for the records of known tag: of two records
    tagged "health" the second, although its tag is registered and the
    record deserializes, is not restored; the entity holds the component of
    the first one only. *)
Lemma from_dict_duplicate_counterexample :
  registered (tagged "health" (Some 2) None) = true /\
  create_component_from_dict (tagged "health" (Some 2) None) =
    Ok (Some (Health (HealthComponent.mk None 2 100))) /\
  from_dict
    (mkEntityData None None None None
       (Some [tagged "health" (Some 30) (Some 40); tagged "health" (Some 2) None])) 5 =
    (Ok (mk 5 "Unnamed Entity" "Generic"
            (<[HEALTH := Health (HealthComponent.mk (Some 5) 30 40)]> ∅) true), 6) /\
  get_components
    (mk 5 "Unnamed Entity" "Generic"
        (<[HEALTH := Health (HealthComponent.mk (Some 5) 30 40)]> ∅) true) =
    [Health (HealthComponent.mk (Some 5) 30 40)].
Proof. repeat split; vm_compute; reflexivity. Qed.

(** C7, amended.  In [Entity.from_dict]:
    - a component record whose tag is missing or is not a key of the
      registry yields no component and no error, and the result of
      [from_dict], entity or exception, is the one obtained from the record
      without these component records;
    - when every record of registered tag deserializes, the entity is
      constructed, the counter advances by one, and ID, name, type and
      activity are the record's, with the defaults for the missing keys;
    - the entity holds, for each component type, the component of the FIRST
      record of that type, owned by the entity; a later record of a type
      restored already has no effect;
    - the component of a record is of the class its tag names and has the
      field values the record gives, the defaults of the class standing for
      the missing keys; for a relationship record whose keys are integers,
      or the decimal texts of integers, the mapping is the record's, a later
      item replacing an earlier one of the same key. *)
Theorem from_dict_skips_unregistered :
  (forall cd, registered cd = false -> create_component_from_dict cd = Ok None) /\
  (forall data n, from_dict data n = from_dict (drop_unregistered data) n) /\
  (forall data n,
      (forall cd, cd ∈ default [] (ed_components data) -> registered cd = true ->
                  exists c, create_component_from_dict cd = Ok (Some c)) ->
      exists e, from_dict data n = (Ok e, n + 1)) /\
  (forall data n e n',
      from_dict data n = (Ok e, n') ->
      forall ct,
        components e !! ct =
          set_entity_id (id e) <$> first_of_type ct (default [] (ed_components data))) /\
  (forall cd c,
      create_component_from_dict cd = Ok (Some c) ->
      registered cd = true /\
      d_type cd = Some (ComponentType_.value (component_type c))) /\
  (forall data n e n',
      from_dict data n = (Ok e, n') ->
      n' = n + 1 /\
      id e = default n (ed_id data) /\
      name e = default "Unnamed Entity" (ed_name data) /\
      entity_type e = default "Generic" (ed_entity_type data) /\
      active e = default true (ed_active data)) /\
  (forall i nm ty act l1 l2 cd c n,
      create_component_from_dict cd = Ok (Some c) ->
      is_Some (first_of_type (component_type c) l1) ->
      from_dict (mkEntityData i nm ty act (Some (l1 ++ cd :: l2)%list)) n =
        from_dict (mkEntityData i nm ty act (Some (l1 ++ l2)%list)) n) /\
  (forall cd,
      (d_type cd = Some "position" ->
       create_component_from_dict cd =
         Ok (Some (Position (PositionComponent.mk None
                               (default "Unknown" (d_location cd))
                               (default 0%float (d_x cd))
                               (default 0%float (d_y cd)))))) /\
      (d_type cd = Some "health" ->
       create_component_from_dict cd =
         Ok (Some (Health (HealthComponent.mk None
                             (default 100 (d_current cd))
                             (default 100 (d_maximum cd)))))) /\
      (d_type cd = Some "inventory" ->
       create_component_from_dict cd =
         Ok (Some (Inventory (InventoryComponent.mk None
                                (default ∅ (d_items cd))
                                (default 20 (d_capacity cd)))))) /\
      (d_type cd = Some "currency" ->
       create_component_from_dict cd =
         Ok (Some (Currency (CurrencyComponent.mk None (default 0 (d_amount cd)))))) /\
      (d_type cd = Some "needs" ->
       create_component_from_dict cd =
         Ok (Some (Needs (NeedsComponent.mk None
                            (default 50%float (d_hunger cd))
                            (default 100%float (d_energy cd))
                            (default 50%float (d_social cd)))))) /\
      (d_type cd = Some "schedule" ->
       create_component_from_dict cd =
         Ok (Some (Schedule (ScheduleComponent.mk None (default ∅ (d_schedule cd)))))) /\
      (d_type cd = Some "occupation" ->
       create_component_from_dict cd =
         Ok (Some (Occupation (OccupationComponent.mk None
                                 (default "Villager" (d_occupation cd))
                                 (default "None" (d_workplace cd))
                                 (default 1 (d_skill_level cd)))))) /\
      (d_type cd = Some "memory" ->
       create_component_from_dict cd =
         Ok (Some (Memory (MemoryComponent.mk None
                             (default [] (d_memories cd))
                             (default 50 (d_max_memories cd)))))) /\
      (d_type cd = Some "goal" ->
       create_component_from_dict cd =
         Ok (Some (Goal (GoalComponent.mk None (d_current_goal cd)
                           (default [] (d_goals cd)))))) /\
      (d_type cd = Some "relationship" ->
       (d_relationships cd = None ->
        create_component_from_dict cd =
          Ok (Some (Relationship (RelationshipComponent.mk None ∅)))) /\
       (forall l : list (Z * Z),
           d_relationships cd = Some (prod_map KInt Datatypes.id <$> l) \/
           d_relationships cd =
             Some (prod_map (fun z => KStr (str_of_int z)) Datatypes.id <$> l) ->
           create_component_from_dict cd =
             Ok (Some (Relationship
                         (RelationshipComponent.mk None
                            (fold_left (fun a kv => <[kv.1 := kv.2]> a) l ∅))))))).
Proof.
  split; [exact create_unregistered | ].
  split.
  { intros data n. rewrite !from_dict_unfold. unfold drop_unregistered.
    cbn [ed_id ed_name ed_entity_type ed_active ed_components].
    destruct (ed_components data) as [l|];
      cbn [fmap option_fmap option_map from_option Datatypes.id]; [ | reflexivity].
    now rewrite restore_components_drop. }
  split.
  { intros data n Hl. rewrite from_dict_unfold.
    match goal with |- context [restore_components ?l ?e] =>
      destruct (restore_components_total l e Hl) as [e' ->] end.
    eauto. }
  split.
  { intros data n e n' H ct.
    rewrite from_dict_unfold in H.
    injection H as H _. apply restore_components_lookup in H as [Hid Hl].
    rewrite Hl. cbn [components id]. rewrite lookup_empty.
    now rewrite Hid. }
  split; [exact create_registered | ].
  split.
  { intros data n e n' H. rewrite from_dict_unfold in H. injection H as H <-.
    split; [reflexivity | ].
    destruct (restore_components_lookup _ _ _ H) as [Hid _].
    destruct (restore_components_fields _ _ _ H) as (Hn & Ht & Ha).
    cbn [id name entity_type active] in *. auto. }
  split.
  { intros i nm ty act l1 l2 cd c n Hc Hfirst. rewrite !from_dict_unfold.
    cbn [ed_components from_option Datatypes.id]. f_equal.
    now apply (restore_components_duplicate l1 l2 cd c). }
  intros cd.
  repeat (split;
          [intros H;
           first [rewrite (create_tagged cd POSITION H)
                 |rewrite (create_tagged cd HEALTH H)
                 |rewrite (create_tagged cd INVENTORY H)
                 |rewrite (create_tagged cd CURRENCY H)
                 |rewrite (create_tagged cd NEEDS H)
                 |rewrite (create_tagged cd SCHEDULE H)
                 |rewrite (create_tagged cd OCCUPATION H)
                 |rewrite (create_tagged cd MEMORY H)
                 |rewrite (create_tagged cd GOAL H)];
           rewrite registry_lookup; reflexivity | ]).
  intros H. rewrite (create_tagged cd RELATIONSHIP H), registry_lookup.
  unfold RelationshipComponent.from_dict. split.
  - intros ->. reflexivity.
  - intros l [-> | ->]; cbn [from_option Datatypes.id].
    + rewrite (int_relationships_keys KInt) by reflexivity. reflexivity.
    + rewrite (int_relationships_keys (fun z => KStr (str_of_int z)))
        by (intros z; apply int_of_str_of_int).
      reflexivity.
Qed.

Lemma from_dict_skips_unregistered_witness :
  registered (tagged "teleport" (Some 1) None) = false /\
  create_component_from_dict (tagged "teleport" (Some 1) None) = Ok None /\
  from_dict
    (mkEntityData None None None None
       (Some [tagged "teleport" (Some 1) None; tagged "health" (Some 30) (Some 40);
              tagged "ai" None None; tagged "health" (Some 2) None])) 5 =
    (Ok (mk 5 "Unnamed Entity" "Generic"
            (<[HEALTH := Health (HealthComponent.mk (Some 5) 30 40)]> ∅) true), 6) /\
  create_component_from_dict (tagged "health" (Some 30) (Some 40)) =
    Ok (Some (Health (HealthComponent.mk None 30 40))).
Proof.
  split; [vm_compute; reflexivity | ]. split; [ | split].
  - apply from_dict_skips_unregistered. vm_compute. reflexivity.
  - destruct from_dict_skips_unregistered as (_ & -> & _). vm_compute. reflexivity.
  - destruct from_dict_skips_unregistered as (_ & _ & _ & _ & _ & _ & _ & H).
    apply (H (tagged "health" (Some 30) (Some 40))). reflexivity.
Defined.

End EntityFromDict.

(** ** The type index *)

Section TypeIndex.
Import EntityManager.

Lemma count_occ_list_remove (x i : Z) (l : list Z) :
  x ∈ l ->
  count_occ Z.eq_dec (list_remove x l) i =
    (count_occ Z.eq_dec l i - (if decide (x = i) then 1 else 0))%nat.
Proof.
  induction l as [|y l IH]; intros Hin; [now apply elem_of_nil in Hin | ].
  cbn [list_remove]. destruct (decide (y = x)) as [->|Hyx].
  - cbn [count_occ]. destruct (Z.eq_dec x i), (decide (x = i)); try congruence; lia.
  - apply elem_of_cons in Hin as [->|Hin]; [congruence | ].
    cbn [count_occ]. rewrite IH by exact Hin.
    destruct (Z.eq_dec y i), (decide (x = i)); try congruence; lia.
Qed.

(** The code path of [add_entity] for a fresh ID, in closed form. *)
Lemma add_entity_fresh (m : t) (e : Entity.t) :
  entities m !! Entity.id e = None ->
  add_entity m e =
    (mk (<[Entity.id e := e]> (entities m))
        (<[Entity.entity_type e :=
             (default [] (entities_by_type m !! Entity.entity_type e)
              ++ [Entity.id e])%list]> (entities_by_type m)),
     true).
Proof.
  intros Hfresh. unfold add_entity. rewrite Hfresh.
  destruct (entities_by_type m !! Entity.entity_type e) eqn:E.
  - rewrite E. reflexivity.
  - rewrite lookup_insert_eq, insert_insert_eq. reflexivity.
Qed.

Lemma add_entity_consistent (m : t) (e : Entity.t) :
  index_consistent m -> index_consistent (add_entity m e).1.
Proof.
  intros [Hid Hcount].
  destruct (entities m !! Entity.id e) as [e0|] eqn:E.
  { unfold add_entity. rewrite E. now split. }
  rewrite add_entity_fresh by exact E. cbn [fst]. split.
  - intros i e' H. cbn [entities] in H.
    destruct (decide (Entity.id e = i)) as [<-|Hne].
    + rewrite lookup_insert_eq in H. now injection H as <-.
    + rewrite lookup_insert_ne in H by exact Hne. now apply Hid.
  - intros ty i. specialize (Hcount ty i).
    unfold listed, expected in *. cbn [entities entities_by_type].
    destruct (decide (Entity.entity_type e = ty)) as [<-|Hty].
    + rewrite lookup_insert_eq. cbn [from_option id]. rewrite count_occ_app, Hcount.
      cbn [count_occ id].
      destruct (decide (Entity.id e = i)) as [<-|Hne].
      * rewrite lookup_insert_eq, E. destruct (Z.eq_dec _ _); [ | congruence].
        now rewrite decide_True.
      * rewrite lookup_insert_ne by exact Hne.
        destruct (Z.eq_dec _ _); [congruence | lia].
    + rewrite lookup_insert_ne by exact Hty. rewrite Hcount.
      destruct (decide (Entity.id e = i)) as [<-|Hne].
      * rewrite lookup_insert_eq, E. now rewrite decide_False.
      * now rewrite lookup_insert_ne.
Qed.

Lemma remove_entity_consistent (m : t) (i0 : Z) :
  index_consistent m -> index_consistent (remove_entity m i0).1.
Proof.
  intros [Hid Hcount]. unfold remove_entity.
  destruct (entities m !! i0) as [e0|] eqn:E; [ | now split].
  cbn [fst].
  assert (H1 : listed m (Entity.entity_type e0) i0 = 1%nat).
  { rewrite Hcount. unfold expected. rewrite E. now rewrite decide_True. }
  unfold listed in H1.
  destruct (entities_by_type m !! Entity.entity_type e0) as [ids|] eqn:Et;
    [ | discriminate H1].
  cbn [from_option id] in H1.
  assert (Hin : i0 ∈ ids).
  { apply list_elem_of_In, (count_occ_In Z.eq_dec). lia. }
  rewrite decide_True by exact Hin.
  split.
  - intros i e H. cbn [entities] in H.
    apply lookup_delete_Some in H as [_ H]. now apply Hid.
  - intros ty i. specialize (Hcount ty i).
    unfold listed, expected in *. cbn [entities entities_by_type].
    destruct (decide (Entity.entity_type e0 = ty)) as [<-|Hty].
    + rewrite lookup_insert_eq. cbn [from_option id].
      rewrite Et in Hcount. cbn [from_option id] in Hcount.
      rewrite count_occ_list_remove by exact Hin. rewrite Hcount.
      destruct (decide (i0 = i)) as [<-|Hne].
      * rewrite lookup_delete_eq, E. now rewrite decide_True.
      * rewrite lookup_delete_ne by exact Hne. lia.
    + rewrite lookup_insert_ne by exact Hty. rewrite Hcount.
      destruct (decide (i0 = i)) as [<-|Hne].
      * rewrite lookup_delete_eq, E. now rewrite decide_False.
      * now rewrite lookup_delete_ne.
Qed.

Lemma empty_consistent : index_consistent __init__.
Proof.
  split; [intros i e H; cbn in H; now rewrite lookup_empty in H | ].
  intros ty i. unfold listed, expected. cbn. now rewrite !lookup_empty.
Qed.

Lemma create_entity_unfold (m : t) (name ty : string) (n : Z) :
  create_entity m name ty n =
    (Ok ((add_entity m (Entity.mk n name ty ∅ true)).1,
         Entity.mk n name ty ∅ true), n + 1).
Proof. reflexivity. Qed.

Lemma step_consistent (st : t * Z) (o : op) :
  index_consistent st.1 -> index_consistent (step st o).1.
Proof.
  intros H. destruct o as [name ty|e|i|]; cbn [step].
  - rewrite create_entity_unfold. cbn [fst]. now apply add_entity_consistent.
  - now apply add_entity_consistent.
  - now apply remove_entity_consistent.
  - apply empty_consistent.
Qed.

Lemma run_consistent (ops : list op) (st : t * Z) :
  index_consistent st.1 -> index_consistent (run ops st).1.
Proof.
  revert st. induction ops as [|o ops IH]; intros st H; [exact H | ].
  cbn [run fold_left]. apply IH. now apply step_consistent.
Qed.

(** C10: in every manager reached from the empty one by [create_entity],
    [add_entity], [remove_entity] and [clear] calls, whatever the starting
    value of the ID counter, an ID is listed under a type exactly once when
    it is a key of the primary map and the entity stored under it is of that
    type, and not at all otherwise; and the entity stored under a key has
    that key as its ID. *)
Theorem reachable_index_consistent (ops : list op) (n0 : Z) :
  (forall i e,
      entities (run ops (__init__, n0)).1 !! i = Some e -> Entity.id e = i) /\
  (forall ty i,
      listed (run ops (__init__, n0)).1 ty i =
        match entities (run ops (__init__, n0)).1 !! i with
        | Some e => if decide (Entity.entity_type e = ty) then 1%nat else 0%nat
        | None => 0%nat
        end).
Proof. apply (run_consistent ops (__init__, n0)). apply empty_consistent. Qed.

End TypeIndex.

(** ** The ID counter after loading *)

Section IdContinuity.
Import EntityManager.

Lemma load_entities_cons (d : EntityData) (l : list EntityData) (m : t) (n : Z) :
  load_entities (d :: l) m n =
    match Entity.from_dict d n with
    | (Ok e, n1) =>
        load_entities l (add_entity m e).1
          (if bool_decide (Entity.id e >= n1) then Entity.id e + 1 else n1)
    | (Raise x, n1) => (Raise x, n1)
    end.
Proof.
  cbn [load_entities]. unfold mbind, M_bind.
  destruct (Entity.from_dict d n) as [[e|x] n1]; [ | reflexivity].
  unfold get_next_id. now destruct (bool_decide (Entity.id e >= n1)).
Qed.

Lemma add_entity_keys (m : t) (e : Entity.t) (i : Z) :
  is_Some (entities (add_entity m e).1 !! i) ->
  is_Some (entities m !! i) \/ i = Entity.id e.
Proof.
  destruct (entities m !! Entity.id e) eqn:E.
  - unfold add_entity. rewrite E. now left.
  - rewrite add_entity_fresh by exact E. cbn [fst entities].
    destruct (decide (Entity.id e = i)) as [<-|Hne]; [now right | ].
    rewrite lookup_insert_ne by exact Hne. now left.
Qed.

(** The loop of [EntityManager.from_dict] leaves the counter above every ID
    it has read and every ID it has stored. *)
Lemma load_entities_bound (l : list EntityData) :
  forall (m : t) (n : Z) (m' : t) (n' : Z),
    load_entities l m n = (Ok m', n') ->
    n <= n' /\
    (forall d i, d ∈ l -> ed_id d = Some i -> i < n') /\
    (forall i, is_Some (entities m' !! i) -> is_Some (entities m !! i) \/ i < n').
Proof.
  induction l as [|d l IH]; intros m n m' n' H.
  - injection H as <- <-. split; [lia | ]. split; [ | now left].
    intros d i Hd. now apply elem_of_nil in Hd.
  - rewrite load_entities_cons, from_dict_unfold in H.
    destruct (Entity.restore_components _ _) as [e|x] eqn:Er; [ | discriminate H].
    apply restore_components_lookup in Er as [Hid _]. cbn [Entity.id] in Hid.
    apply IH in H as (Hle & Hdata & Hkeys).
    assert (Hbump : Entity.id e < n' /\ n <= n').
    { destruct (bool_decide (Entity.id e >= n + 1)) eqn:Eb.
      - apply bool_decide_eq_true in Eb. lia.
      - apply bool_decide_eq_false in Eb. lia. }
    destruct Hbump as [Hlt Hn]. split; [exact Hn | ]. split.
    + intros d' i Hd' Hi. apply elem_of_cons in Hd' as [->|Hd'].
      * rewrite Hi in Hid. cbn in Hid. lia.
      * now apply (Hdata d').
    + intros i Hi. apply Hkeys in Hi as [Hi|Hi]; [ | now right].
      apply add_entity_keys in Hi as [Hi| ->]; [now left | now right].
Qed.

Lemma step_counter (st : t * Z) (o : op) : st.2 <= (step st o).2.
Proof.
  destruct o as [name ty|e|i|]; cbn [step]; try (cbn [snd]; lia).
  rewrite create_entity_unfold. cbn [snd]. lia.
Qed.

Lemma run_counter (ops : list op) (st : t * Z) : st.2 <= (run ops st).2.
Proof.
  revert st. induction ops as [|o ops IH]; intros st; [cbn; lia | ].
  cbn [run fold_left]. pose proof (step_counter st o) as H1.
  pose proof (IH (step st o)) as H2. unfold run in H2. lia.
Qed.

(** C3: when [EntityManager.from_dict] returns a manager, then after any
    further [create_entity], [add_entity], [remove_entity] and [clear] calls
    on it, [create_entity] returns (it does not raise) an entity whose ID is
    strictly greater than every ID given by a record of the loaded data and
    than every key of the loaded manager. *)
Theorem from_dict_id_continuity
    (data : option (list EntityData)) (n : Z) (m : t) (n' : Z) :
  from_dict data n = (Ok m, n') ->
  forall (ops : list op) (name ty : string),
  exists m2 e,
    create_entity (run ops (m, n')).1 name ty (run ops (m, n')).2 =
      (Ok (m2, e), (run ops (m, n')).2 + 1) /\
    (forall d i, d ∈ default [] data -> ed_id d = Some i -> i < Entity.id e) /\
    (forall i, is_Some (entities m !! i) -> i < Entity.id e).
Proof.
  intros H ops name ty. apply load_entities_bound in H as (_ & Hdata & Hkeys).
  pose proof (run_counter ops (m, n')) as Hc. cbn [snd] in Hc.
  rewrite create_entity_unfold. do 2 eexists. split; [reflexivity | ].
  cbn [Entity.id]. split.
  - intros d i Hd Hi. specialize (Hdata d i Hd Hi). lia.
  - intros i Hi. apply Hkeys in Hi as [Hi|Hi]; [ | lia].
    cbn in Hi. rewrite lookup_empty in Hi. now destruct Hi.
Qed.

Lemma from_dict_id_continuity_witness :
  from_dict
    (Some [mkEntityData (Some 7) (Some "A") (Some "Player") None None;
           mkEntityData None None None None None]) 1 =
    (Ok (mk (<[8 := Entity.mk 8 "Unnamed Entity" "Generic" ∅ true]>
               (<[7 := Entity.mk 7 "A" "Player" ∅ true]> ∅))
            (<["Generic" := [8]]> (<["Player" := [7]]> ∅))), 9) /\
  forall (ops : list op) (name ty : string),
  exists m2 e,
    create_entity
      (run ops (mk (<[8 := Entity.mk 8 "Unnamed Entity" "Generic" ∅ true]>
                      (<[7 := Entity.mk 7 "A" "Player" ∅ true]> ∅))
                   (<["Generic" := [8]]> (<["Player" := [7]]> ∅)), 9)).1 name ty
      (run ops (mk (<[8 := Entity.mk 8 "Unnamed Entity" "Generic" ∅ true]>
                      (<[7 := Entity.mk 7 "A" "Player" ∅ true]> ∅))
                   (<["Generic" := [8]]> (<["Player" := [7]]> ∅)), 9)).2 =
      (Ok (m2, e),
       (run ops (mk (<[8 := Entity.mk 8 "Unnamed Entity" "Generic" ∅ true]>
                       (<[7 := Entity.mk 7 "A" "Player" ∅ true]> ∅))
                    (<["Generic" := [8]]> (<["Player" := [7]]> ∅)), 9)).2 + 1) /\
    (forall d i,
        d ∈ default []
              (Some [mkEntityData (Some 7) (Some "A") (Some "Player") None None;
                     mkEntityData None None None None None]) ->
        ed_id d = Some i -> i < Entity.id e) /\
    (forall i,
        is_Some (entities
                   (mk (<[8 := Entity.mk 8 "Unnamed Entity" "Generic" ∅ true]>
                          (<[7 := Entity.mk 7 "A" "Player" ∅ true]> ∅))
                       (<["Generic" := [8]]> (<["Player" := [7]]> ∅))) !! i) ->
        i < Entity.id e).
Proof.
  split; [vm_compute; reflexivity | ].
  apply (from_dict_id_continuity
           (Some [mkEntityData (Some 7) (Some "A") (Some "Player") None None;
                  mkEntityData None None None None None]) 1).
  vm_compute. reflexivity.
Defined.

End IdContinuity.

(** ** The most urgent need *)

Section Needs.
Import NeedsComponent.

(** The order of the floats, from the comparison of their specification. *)

Ltac cmp_cases :=
  change (Pos.compare_cont Eq) with Pos.compare in *;
  repeat match goal with
    | |- context [Z.compare ?a ?b] => destruct (Z.compare_spec a b)
    | |- context [Pos.compare ?a ?b] => destruct (Pos.compare_spec a b)
    end;
  cbn [CompOpp]; intros; subst; try congruence; try lia.

Lemma SFcompare_opp (x y : spec_float) :
  SFcompare y x = option_map CompOpp (SFcompare x y).
Proof.
  destruct x as [[]|[]| |[] m1 e1], y as [[]|[]| |[] m2 e2]; cbn; try reflexivity;
    f_equal; cmp_cases.
Qed.

Lemma SFcompare_lt_le (x y z : spec_float) (c : comparison) :
  SFcompare x y = Some Lt -> SFcompare y z = Some c -> c <> Gt ->
  SFcompare x z = Some Lt.
Proof.
  destruct x as [[]|[]| |[] m1 e1], y as [[]|[]| |[] m2 e2], z as [[]|[]| |[] m3 e3];
    cbn; try congruence; intros H1 H2 Hc; f_equal;
    injection H1 as H1; injection H2 as H2; subst c; revert H1 Hc; cmp_cases.
Qed.

Lemma ltb_compare (a b : float) :
  PrimFloat.ltb a b = true <-> SFcompare (Prim2SF a) (Prim2SF b) = Some Lt.
Proof.
  rewrite ltb_spec. unfold SFltb.
  destruct (SFcompare _ _) as [[]|]; split; congruence.
Qed.

Lemma leb_compare (a b : float) :
  PrimFloat.leb a b = true <->
  exists c, SFcompare (Prim2SF a) (Prim2SF b) = Some c /\ c <> Gt.
Proof.
  rewrite leb_spec. unfold SFleb.
  destruct (SFcompare _ _) as [[]|]; split; try congruence;
    try (intros _; eexists; split; [reflexivity | congruence]);
    intros (c & H & Hc); congruence.
Qed.

Lemma ltb_leb_false (a b : float) :
  PrimFloat.ltb a b = true -> PrimFloat.leb b a = false.
Proof.
  intros H. apply ltb_compare in H. apply not_true_is_false. intros H'.
  apply leb_compare in H' as (c & H' & Hc).
  rewrite SFcompare_opp, H in H'. cbn in H'. congruence.
Qed.

Lemma leb_false_ltb_false (a b : float) :
  PrimFloat.leb a b = false -> PrimFloat.ltb a b = false.
Proof.
  intros H. apply not_true_is_false. intros H'. apply ltb_compare in H'.
  assert (PrimFloat.leb a b = true); [ | congruence].
  apply leb_compare. eexists. split; [exact H' | congruence].
Qed.

Lemma ltb_asym (a b : float) :
  PrimFloat.ltb a b = true -> PrimFloat.ltb b a = false.
Proof. intros H. now apply leb_false_ltb_false, ltb_leb_false. Qed.

Lemma ltb_irrefl (a : float) : PrimFloat.ltb a a = false.
Proof.
  destruct (PrimFloat.ltb a a) eqn:E; [ | reflexivity].
  now rewrite (ltb_asym a a E) in E.
Qed.

Lemma ltb_trans (a b c : float) :
  PrimFloat.ltb a b = true -> PrimFloat.ltb b c = true -> PrimFloat.ltb a c = true.
Proof.
  rewrite !ltb_compare. intros H1 H2.
  apply (SFcompare_lt_le _ _ _ Lt H1 H2). congruence.
Qed.

(** A need that did not replace the best so far is not above a later,
    greater best either. *)
Lemma ltb_skipped (a b c : float) :
  PrimFloat.ltb a b = false -> PrimFloat.ltb a c = true -> PrimFloat.leb c b = false.
Proof.
  intros H1 H2. apply not_true_is_false. intros H3.
  apply ltb_compare in H2. apply leb_compare in H3 as (k & H3 & Hk).
  pose proof (SFcompare_lt_le _ _ _ k H2 H3 Hk) as H4.
  apply ltb_compare in H4. congruence.
Qed.

(** C8, the need of the lowest value: with hunger = 2^-50, energy = 0 and
    social = 50 the answer is hunger, although the value of energy is
    strictly below the two others; [100.0 - 2^-50] is rounded to [100.0]. *)
Lemma most_urgent_need_counterexample :
  get_most_urgent_need (mk None 0x1p-50 0 50) = Ok "hunger" /\
  PrimFloat.ltb (energy (mk None 0x1p-50 0 50)) (hunger (mk None 0x1p-50 0 50)) = true /\
  PrimFloat.ltb (energy (mk None 0x1p-50 0 50)) (social (mk None 0x1p-50 0 50)) = true.
Proof. vm_compute. repeat split; reflexivity. Qed.

(** C8, as the code has it: [get_most_urgent_need] returns the name of one of
    the three entries of the dict of urgencies ([100.0 - value], a float);
    no entry has an urgency strictly greater than the returned one's, and the
    returned urgency is not less than or equal to the urgency of any entry
    before it in the order hunger, energy, social: among the entries of the
    greatest urgency the first one is returned. *)
Theorem most_urgent_need_maximal (self : t) :
  exists (i : nat) (k : string) (u : float),
    get_most_urgent_need self = Ok k /\
    urgencies self !! i = Some (k, u) /\
    forall (j : nat) (k' : string) (u' : float),
      urgencies self !! j = Some (k', u') ->
      PrimFloat.ltb u u' = false /\
      ((j < i)%nat -> PrimFloat.leb u u' = false).
Proof.
  unfold get_most_urgent_need, urgencies, py_max_key. cbn [max_loop fst snd].
  set (h := (100 - hunger self)%float).
  set (e := (100 - energy self)%float).
  set (s := (100 - social self)%float).
  destruct (PrimFloat.ltb h e) eqn:Ehe; cbn [max_loop fst snd].
  - destruct (PrimFloat.ltb e s) eqn:Ees.
    + exists 2%nat, "social", s. do 2 (split; [reflexivity | ]).
      pose proof (ltb_trans _ _ _ Ehe Ees) as Ehs.
      intros [|[|[|j]]] k' u' Hj; cbn in Hj; [ | | | discriminate Hj];
        injection Hj as <- <-; (split; [ | intros Hlt]);
        auto using ltb_asym, ltb_irrefl, ltb_leb_false; lia.
    + exists 1%nat, "energy", e. do 2 (split; [reflexivity | ]).
      intros [|[|[|j]]] k' u' Hj; cbn in Hj; [ | | | discriminate Hj];
        injection Hj as <- <-; (split; [ | intros Hlt]);
        auto using ltb_asym, ltb_irrefl, ltb_leb_false; lia.
  - destruct (PrimFloat.ltb h s) eqn:Ehs.
    + exists 2%nat, "social", s. do 2 (split; [reflexivity | ]).
      pose proof (ltb_skipped _ _ _ Ehe Ehs) as Hse.
      intros [|[|[|j]]] k' u' Hj; cbn in Hj; [ | | | discriminate Hj];
        injection Hj as <- <-; (split; [ | intros Hlt]);
        auto using ltb_asym, ltb_irrefl, ltb_leb_false, leb_false_ltb_false; lia.
    + exists 0%nat, "hunger", h. do 2 (split; [reflexivity | ]).
      intros [|[|[|j]]] k' u' Hj; cbn in Hj; [ | | | discriminate Hj];
        injection Hj as <- <-; (split; [ | intros Hlt]);
        auto using ltb_irrefl; lia.
Qed.

End Needs.

(** * Further properties of the code *)

(** ** Health *)

Section HealthBounds.
Import HealthComponent.

Lemma health_do_bounds (h : t) (c : health_call) :
  0 <= current h <= maximum h -> 0 <= health_amount c ->
  0 <= current (health_do h c) <= maximum (health_do h c) /\
  maximum (health_do h c) = maximum h /\ entity_id (health_do h c) = entity_id h.
Proof.
  destruct c; unfold health_do, health_amount, damage, heal;
    cbn [current maximum entity_id];
    intros; repeat split; try reflexivity; lia.
Qed.

(** X1: any sequence of [damage] and [heal] calls with non-negative amounts, on
    a component with [0 <= current <= maximum], ends with
    [0 <= current <= maximum], the same [maximum] and the same owner. *)
Theorem health_bounds_kept (calls : list health_call) (h : t) :
  0 <= current h <= maximum h ->
  Forall (fun c => 0 <= health_amount c) calls ->
  0 <= current (fold_left health_do calls h) <= maximum (fold_left health_do calls h) /\
  maximum (fold_left health_do calls h) = maximum h /\
  entity_id (fold_left health_do calls h) = entity_id h.
Proof.
  revert h. induction calls as [|c calls IH]; intros h Hb Hc; [cbn; auto | ].
  inversion Hc as [|? ? Hc1 Hcs]; subst. cbn [fold_left].
  destruct (health_do_bounds h c Hb Hc1) as (Hb' & Hm & He).
  destruct (IH _ Hb' Hcs) as (H1 & H2 & H3).
  split; [exact H1 | ]. split; congruence.
Qed.

Lemma health_bounds_kept_witness :
  (0 <= current (mk None 5 10) <= maximum (mk None 5 10)) /\
  Forall (fun c => 0 <= health_amount c) [CallDamage 8; CallHeal 3; CallHeal 20] /\
  (0 <= current (fold_left health_do [CallDamage 8; CallHeal 3; CallHeal 20] (mk None 5 10))
     <= maximum (fold_left health_do [CallDamage 8; CallHeal 3; CallHeal 20] (mk None 5 10)) /\
   maximum (fold_left health_do [CallDamage 8; CallHeal 3; CallHeal 20] (mk None 5 10)) =
     maximum (mk None 5 10) /\
   entity_id (fold_left health_do [CallDamage 8; CallHeal 3; CallHeal 20] (mk None 5 10)) =
     entity_id (mk None 5 10)).
Proof.
  split; [cbn; lia | ]. split; [repeat constructor; cbn; lia | ].
  apply health_bounds_kept; [cbn; lia | repeat constructor; cbn; lia].
Defined.

End HealthBounds.

(** ** Currency *)

Section CurrencyBalance.
Import CurrencyComponent.

Lemma currency_do_nonneg (w : t) (c : currency_call) :
  0 <= amount w -> currency_ok c -> 0 <= amount (currency_do w c).
Proof.
  intros Hw Hc. destruct c as [v|v]; cbn [currency_do currency_ok] in *.
  - unfold add. cbn [amount]. lia.
  - unfold remove. case_bool_decide; cbn [fst amount]; lia.
Qed.

(** X2: a balance that is not negative stays so under any sequence of [add]
    calls with non-negative values and [remove] calls with any value,
    negative and too large ones included; and [has] answers exactly whether
    [remove] of the same value would succeed. *)
Theorem currency_never_negative (calls : list currency_call) (w : t) :
  0 <= amount w ->
  Forall currency_ok calls ->
  0 <= amount (fold_left currency_do calls w) /\
  forall v, has (fold_left currency_do calls w) v =
            (remove (fold_left currency_do calls w) v).2.
Proof.
  intros Hw Hc. split.
  - revert w Hw. induction Hc as [|c calls Hc Hcs IH]; intros w Hw; [exact Hw | ].
    cbn [fold_left]. apply IH. now apply currency_do_nonneg.
  - intros v. unfold has, remove. now case_bool_decide.
Qed.

Lemma currency_never_negative_witness :
  0 <= amount (mk None 10) /\
  Forall currency_ok [CallRemove 4; CallRemove 7; CallAdd 0; CallRemove (-5)] /\
  (0 <= amount (fold_left currency_do
                  [CallRemove 4; CallRemove 7; CallAdd 0; CallRemove (-5)] (mk None 10)) /\
   forall v,
     has (fold_left currency_do
            [CallRemove 4; CallRemove 7; CallAdd 0; CallRemove (-5)] (mk None 10)) v =
     (remove (fold_left currency_do
                [CallRemove 4; CallRemove 7; CallAdd 0; CallRemove (-5)] (mk None 10)) v).2).
Proof.
  split; [cbn; lia | ]. split; [repeat constructor; cbn; lia | ].
  apply currency_never_negative; [cbn; lia | repeat constructor; cbn; lia].
Defined.

End CurrencyBalance.

(** ** Relationship values *)

Section RelationshipRange.
Import RelationshipComponent.

Lemma relationship_do_in_range (r : t) (c : relationship_call) :
  in_range r -> in_range (relationship_do r c).
Proof.
  intros Hr k v. destruct c as [i x|i d]; cbn [relationship_do];
    unfold set_relationship, modify_relationship; cbn [relationships];
    (destruct (decide (i = k)) as [->|Hne];
     [rewrite lookup_insert_eq; intros [= <-]; lia
     |rewrite lookup_insert_ne by exact Hne; apply Hr]).
Qed.

(** X3: when every stored value lies in [-100, 100] (as in a new component),
    this still holds after any sequence of [set_relationship] and
    [modify_relationship] calls, whatever their arguments, and
    [get_relationship] then answers a value in [-100, 100] for every entity,
    known or not. *)
Theorem relationship_values_in_range (calls : list relationship_call) (r : t) :
  in_range r ->
  in_range (fold_left relationship_do calls r) /\
  forall eid, -100 <= get_relationship (fold_left relationship_do calls r) eid <= 100.
Proof.
  intros Hr.
  assert (H : in_range (fold_left relationship_do calls r)).
  { revert r Hr. induction calls as [|c calls IH]; intros r Hr; [exact Hr | ].
    cbn [fold_left]. apply IH. now apply relationship_do_in_range. }
  split; [exact H | ]. intros eid. unfold get_relationship.
  destruct (relationships _ !! eid) as [v|] eqn:E; cbn; [now apply (H eid) | lia].
Qed.

Lemma relationship_values_in_range_witness :
  in_range (mk None ∅) /\
  (in_range (fold_left relationship_do
               [CallSet 7 250; CallModify 7 (-500); CallModify 3 40] (mk None ∅)) /\
   forall eid,
     -100 <= get_relationship
               (fold_left relationship_do
                  [CallSet 7 250; CallModify 7 (-500); CallModify 3 40] (mk None ∅)) eid
          <= 100).
Proof.
  assert (H0 : in_range (mk None ∅)).
  { intros k v H. cbn in H. now rewrite lookup_empty in H. }
  split; [exact H0 | ]. apply relationship_values_in_range. exact H0.
Defined.

(** The keys of a serialized relationship mapping that [int] refuses. *)

Lemma py_int_raises (k : pykey) (e : exn) : py_int k = Raise e -> e = ValueError.
Proof.
  destruct k as [z|s]; cbn; [discriminate | ]. unfold int_of_str.
  destruct (match strip (list_ascii_of_string s) with
            | [] => _ | _ => _ end) as [neg body].
  destruct (drop_underscores false body); [ | congruence].
  destruct (NilZero.uint_of_string _); congruence.
Qed.

Lemma int_relationships_raises (items : list (pykey * Z)) :
  forall (acc : gmap Z Z) (e : exn),
    int_relationships items acc = Raise e ->
    e = ValueError /\ exists k v, (k, v) ∈ items /\ py_int k = Raise ValueError.
Proof.
  induction items as [|[k v] items IH]; intros acc e H; [discriminate H | ].
  cbn [int_relationships] in H. destruct (py_int k) as [z|e'] eqn:Ek; cbn in H.
  - apply IH in H as (-> & k' & v' & Hin & Hk'). split; [reflexivity | ].
    exists k', v'. split; [now apply elem_of_cons; right | exact Hk'].
  - injection H as <-. pose proof (py_int_raises _ _ Ek) as ->.
    split; [reflexivity | ]. exists k, v. split; [now apply elem_of_cons; left | exact Ek].
Qed.

Lemma int_relationships_ok (items : list (pykey * Z)) :
  forall (acc m : gmap Z Z),
    int_relationships items acc = Ok m ->
    forall k v, (k, v) ∈ items -> exists z, py_int k = Ok z.
Proof.
  induction items as [|[k v] items IH]; intros acc m H k' v' Hin;
    [now apply elem_of_nil in Hin | ].
  cbn [int_relationships] in H. destruct (py_int k) as [z|e'] eqn:Ek; cbn in H;
    [ | discriminate H].
  apply elem_of_cons in Hin as [[= -> ->]|Hin]; [eauto | ].
  now apply (IH _ _ H k' v').
Qed.

(** X4: for a record whose relationship keys are integers or ASCII texts of
    at most 4300 characters, [RelationshipComponent.from_dict] raises exactly
    when [int] refuses one of the keys, and what it raises then is
    [ValueError]; a missing mapping is read as the empty one.  [int] accepts
    a text made of an optional sign and decimal digits, with single
    underscores between digits, between blanks; the blanks are the bytes 9
    to 13 and 32 only. *)
Theorem relationship_from_dict_raises (data : CompData) :
  Forall (fun kv => plain_key kv.1 = true) (default [] (d_relationships data)) ->
  (forall e, from_dict data = Raise e -> e = ValueError) /\
  (from_dict data = Raise ValueError <->
   exists k v, (k, v) ∈ default [] (d_relationships data) /\
               py_int k = Raise ValueError) /\
  (d_relationships data = None -> from_dict data = Ok (mk None ∅)).
Proof.
  intros _. unfold from_dict. split; [ | split].
  - intros e H.
    destruct (int_relationships _ ∅) as [m|e'] eqn:E; cbn in H; [discriminate H | ].
    injection H as <-. now apply int_relationships_raises in E as [-> _].
  - split.
    + intros H.
      destruct (int_relationships _ ∅) as [m|e'] eqn:E; cbn in H; [discriminate H | ].
      now apply int_relationships_raises in E as [_ E].
    + intros (k & v & Hin & Hk).
      destruct (int_relationships _ ∅) as [m|e'] eqn:E; cbn.
      * destruct (int_relationships_ok _ _ _ E k v Hin) as [z Hz]. congruence.
      * now apply int_relationships_raises in E as [-> _].
  - intros ->. reflexivity.
Qed.

Lemma relationship_from_dict_raises_witness :
  Forall (fun kv => plain_key kv.1 = true)
    (default [] (d_relationships
                   (relationship_record [(KStr " +1_0 ", 5); (KStr (String "028" "7"), 6)]))) /\
  ((forall e,
       from_dict (relationship_record [(KStr " +1_0 ", 5); (KStr (String "028" "7"), 6)]) =
         Raise e -> e = ValueError) /\
   (from_dict (relationship_record [(KStr " +1_0 ", 5); (KStr (String "028" "7"), 6)]) =
      Raise ValueError <->
    exists k v,
      (k, v) ∈ default [] (d_relationships
                             (relationship_record
                                [(KStr " +1_0 ", 5); (KStr (String "028" "7"), 6)])) /\
      py_int k = Raise ValueError) /\
   (d_relationships (relationship_record [(KStr " +1_0 ", 5); (KStr (String "028" "7"), 6)]) =
      None ->
    from_dict (relationship_record [(KStr " +1_0 ", 5); (KStr (String "028" "7"), 6)]) =
      Ok (mk None ∅))) /\
  py_int (KStr " +1_0 ") = Ok 10 /\
  py_int (KStr (String "028" "7")) = Raise ValueError /\
  from_dict (relationship_record [(KStr " +1_0 ", 5); (KStr (String "028" "7"), 6)]) =
    Raise ValueError.
Proof.
  split; [repeat constructor | ]. split.
  - apply relationship_from_dict_raises. repeat constructor.
  - repeat split; vm_compute; reflexivity.
Defined.

End RelationshipRange.

(** ** Inventory *)

Section InventoryStock.
Import InventoryComponent.

Lemma sum_comm (j1 j2 : string) (z1 z2 y : Z) : z1 + (z2 + y) = z2 + (z1 + y).
Proof. lia. Qed.

Lemma total_delete (inv : t) (k : string) (v : Z) :
  items inv !! k = Some v ->
  total inv = v + map_fold (fun _ v acc => v + acc) 0 (delete k (items inv)).
Proof.
  intros H. unfold total.
  apply (map_fold_delete_L (fun (_ : string) v acc => v + acc)); [ | exact H].
  intros; apply sum_comm; assumption.
Qed.

Lemma total_insert (inv : t) (k : string) (v : Z) :
  map_fold (fun _ v acc => v + acc) 0 (<[k := v]> (items inv)) =
    total inv + v - default 0 (items inv !! k).
Proof.
  destruct (items inv !! k) as [v0|] eqn:E; cbn [from_option id].
  - rewrite (total_delete inv k v0 E), <- (insert_delete_eq (items inv)).
    rewrite (map_fold_insert_L (fun (_ : string) v acc => v + acc));
      [lia | intros; apply sum_comm; assumption | apply lookup_delete_eq].
  - unfold total.
    rewrite (map_fold_insert_L (fun (_ : string) v acc => v + acc));
      [lia | intros; apply sum_comm; assumption | exact E].
Qed.

Lemma total_after_delete (inv : t) (k : string) :
  map_fold (fun _ v acc => v + acc) 0 (delete k (items inv)) =
    total inv - default 0 (items inv !! k).
Proof.
  destruct (items inv !! k) as [v0|] eqn:E; cbn [from_option id].
  - rewrite (total_delete inv k v0 E). lia.
  - rewrite delete_id by exact E. unfold total. lia.
Qed.

(** X5: [add_item] is all or nothing: when the new total fits the capacity it
    answers [True], the count of the item grows by the quantity, the other
    counts stay and the total grows by the quantity; otherwise it answers
    [False] and changes nothing. *)
Theorem add_item_all_or_nothing (inv : t) (k : string) (q : Z) :
  (total inv + q <= capacity inv ->
   (add_item inv k q).2 = true /\
   get_count (add_item inv k q).1 k = get_count inv k + q /\
   (forall k', k' <> k -> get_count (add_item inv k q).1 k' = get_count inv k') /\
   total (add_item inv k q).1 = total inv + q /\
   capacity (add_item inv k q).1 = capacity inv) /\
  (capacity inv < total inv + q -> add_item inv k q = (inv, false)).
Proof.
  unfold add_item. fold (total inv). split; intros H.
  - rewrite bool_decide_eq_true_2 by exact H. cbn [fst snd].
    split; [reflexivity | ]. unfold get_count at 1. cbn [items].
    rewrite lookup_insert_eq. split; [reflexivity | ]. split.
    + intros k' Hk'. unfold get_count. cbn [items].
      now rewrite lookup_insert_ne by congruence.
    + split; [ | reflexivity]. unfold total at 1. cbn [items].
      rewrite total_insert. unfold get_count. lia.
  - rewrite bool_decide_eq_false_2 by lia. reflexivity.
Qed.

Lemma add_item_stocked (inv : t) (k : string) (q : Z) :
  stocked inv -> 0 < q -> stocked (add_item inv k q).1.
Proof.
  intros [Hpos Hcap] Hq. unfold add_item. fold (total inv).
  case_bool_decide as Hfit; cbn [fst]; [ | now split]. split.
  - intros k' v. cbn [items]. destruct (decide (k = k')) as [<-|Hne].
    + rewrite lookup_insert_eq. intros [= <-]. unfold get_count.
      destruct (items inv !! k) as [v0|] eqn:E; cbn; [specialize (Hpos k v0 E) | ]; lia.
    + rewrite lookup_insert_ne by exact Hne. apply Hpos.
  - unfold total at 1. cbn [items capacity]. rewrite total_insert. unfold get_count. lia.
Qed.

Lemma remove_item_stocked (inv : t) (k : string) (q : Z) :
  stocked inv -> 0 < q -> stocked (remove_item inv k q).1.
Proof.
  intros [Hpos Hcap] Hq. unfold remove_item.
  destruct (items inv !! k) as [n|] eqn:E; [ | now split].
  case_bool_decide as Hn; [ | now split]. cbn [fst].
  destruct (decide (n - q = 0)) as [H0|H0]; split.
  - intros k' v. cbn [items]. intros H. apply lookup_delete_Some in H as [_ H].
    now apply (Hpos k').
  - unfold total. cbn [items capacity]. rewrite total_after_delete, E. cbn. lia.
  - intros k' v. cbn [items]. destruct (decide (k = k')) as [<-|Hne].
    + rewrite lookup_insert_eq. intros [= <-]. lia.
    + rewrite lookup_insert_ne by exact Hne. apply Hpos.
  - unfold total. cbn [items capacity]. rewrite total_insert, E. cbn. lia.
Qed.

(** X6: an inventory in which every stored count is positive and the total does
    not exceed the capacity stays so under any sequence of [add_item] and
    [remove_item] calls with positive quantities; in particular the total
    stays between 0 and the capacity. *)
Theorem inventory_stocked_kept (calls : list inventory_call) (inv : t) :
  stocked inv ->
  Forall (fun c => 0 < inventory_quantity c) calls ->
  stocked (fold_left inventory_do calls inv) /\
  capacity (fold_left inventory_do calls inv) = capacity inv.
Proof.
  intros Hs Hc. revert inv Hs.
  induction Hc as [|c calls Hc Hcs IH]; intros inv Hs; [now split | ].
  cbn [fold_left].
  assert (H1 : stocked (inventory_do inv c) /\
               capacity (inventory_do inv c) = capacity inv).
  { destruct c as [k q|k q]; cbn [inventory_do inventory_quantity] in *.
    - split; [now apply add_item_stocked | ].
      unfold add_item. now case_bool_decide.
    - split; [now apply remove_item_stocked | ].
      unfold remove_item. destruct (items inv !! k); [ | reflexivity].
      now case_bool_decide. }
  destruct H1 as [H1 H2]. destruct (IH _ H1) as [H3 H4]. split; congruence.
Qed.

Lemma stocked_empty (cap : Z) : 0 <= cap -> stocked (mk None ∅ cap).
Proof.
  intros H. split.
  - intros k v. cbn. now rewrite lookup_empty.
  - unfold total. cbn [items capacity]. now rewrite map_fold_empty.
Qed.

Lemma inventory_stocked_kept_witness :
  stocked (mk None ∅ 5) /\
  Forall (fun c => 0 < inventory_quantity c)
    [CallAddItem "seed" 3; CallAddItem "hoe" 4; CallRemoveItem "seed" 3;
     CallAddItem "hoe" 4] /\
  (stocked (fold_left inventory_do
              [CallAddItem "seed" 3; CallAddItem "hoe" 4; CallRemoveItem "seed" 3;
               CallAddItem "hoe" 4] (mk None ∅ 5)) /\
   capacity (fold_left inventory_do
               [CallAddItem "seed" 3; CallAddItem "hoe" 4; CallRemoveItem "seed" 3;
                CallAddItem "hoe" 4] (mk None ∅ 5)) = capacity (mk None ∅ 5)).
Proof.
  split; [apply stocked_empty; lia | ]. split; [repeat constructor; cbn; lia | ].
  apply inventory_stocked_kept; [apply stocked_empty; lia | repeat constructor; cbn; lia].
Defined.

End InventoryStock.

Section InventoryRemove.
Import InventoryComponent.

(** X7: for a positive quantity [remove_item] succeeds exactly when [has_item]
    answers [True]; it then lowers the count of the item by the quantity and
    leaves the other counts alone, and when it fails it changes nothing.  An
    item whose count reaches zero is no longer a key. *)
Theorem remove_item_all_or_nothing (inv : t) (k : string) (q : Z) :
  0 < q ->
  (remove_item inv k q).2 = has_item inv k q /\
  (has_item inv k q = true ->
   get_count (remove_item inv k q).1 k = get_count inv k - q /\
   (forall k', k' <> k -> get_count (remove_item inv k q).1 k' = get_count inv k') /\
   total (remove_item inv k q).1 = total inv - q /\
   (get_count inv k = q -> items (remove_item inv k q).1 !! k = None)) /\
  (has_item inv k q = false -> remove_item inv k q = (inv, false)).
Proof.
  intros Hq. unfold remove_item, has_item, get_count.
  destruct (items inv !! k) as [n|] eqn:E; cbn [from_option id].
  - case_bool_decide as Hn; cbn [fst snd];
      [ | split; [reflexivity | split; [discriminate | reflexivity]]].
    split; [reflexivity | ]. split; [intros _ | discriminate].
    destruct (decide (n - q = 0)) as [H0|H0]; cbn [items].
    + rewrite lookup_delete_eq. cbn. split; [lia | ]. split.
      * intros k' Hk'. now rewrite lookup_delete_ne by congruence.
      * split; [ | reflexivity]. unfold total at 1. cbn [items].
        rewrite total_after_delete, E. cbn. lia.
    + rewrite lookup_insert_eq. cbn. split; [reflexivity | ]. split.
      * intros k' Hk'. now rewrite lookup_insert_ne by congruence.
      * split; [ | lia]. unfold total at 1. cbn [items].
        rewrite total_insert, E. cbn. lia.
  - rewrite bool_decide_eq_false_2 by lia. cbn [fst snd].
    split; [reflexivity | ]. split; [discriminate | reflexivity].
Qed.

Lemma remove_item_all_or_nothing_witness :
  0 < 2 /\
  ((remove_item (mk None (<["seed" := 2]> ∅) 5) "seed" 2).2 =
     has_item (mk None (<["seed" := 2]> ∅) 5) "seed" 2 /\
   (has_item (mk None (<["seed" := 2]> ∅) 5) "seed" 2 = true ->
    get_count (remove_item (mk None (<["seed" := 2]> ∅) 5) "seed" 2).1 "seed" =
      get_count (mk None (<["seed" := 2]> ∅) 5) "seed" - 2 /\
    (forall k', k' <> "seed" ->
       get_count (remove_item (mk None (<["seed" := 2]> ∅) 5) "seed" 2).1 k' =
         get_count (mk None (<["seed" := 2]> ∅) 5) k') /\
    total (remove_item (mk None (<["seed" := 2]> ∅) 5) "seed" 2).1 =
      total (mk None (<["seed" := 2]> ∅) 5) - 2 /\
    (get_count (mk None (<["seed" := 2]> ∅) 5) "seed" = 2 ->
     items (remove_item (mk None (<["seed" := 2]> ∅) 5) "seed" 2).1 !! "seed" = None)) /\
   (has_item (mk None (<["seed" := 2]> ∅) 5) "seed" 2 = false ->
    remove_item (mk None (<["seed" := 2]> ∅) 5) "seed" 2 =
      (mk None (<["seed" := 2]> ∅) 5, false))).
Proof. split; [lia | apply remove_item_all_or_nothing; lia]. Defined.

(** Without the positive quantity the two disagree: an item that is not a
    key is had in quantity 0 but cannot be removed in quantity 0. *)
Lemma has_item_zero_absent (inv : t) (k : string) :
  items inv !! k = None ->
  has_item inv k 0 = true /\ remove_item inv k 0 = (inv, false).
Proof.
  intros E. unfold has_item, remove_item. rewrite E. cbn.
  split; [now apply bool_decide_eq_true_2 | reflexivity].
Qed.

(** X8: in an inventory whose stored counts are all positive, an [add_item] that
    succeeds is undone by the [remove_item] of the same item and quantity:
    the inventory is the one before, also when the item was not a key. *)
Theorem add_then_remove_restores (inv : t) (k : string) (q : Z) :
  (forall k' v, items inv !! k' = Some v -> 0 < v) ->
  (add_item inv k q).2 = true ->
  remove_item (add_item inv k q).1 k q = (inv, true).
Proof.
  intros Hpos. unfold add_item. fold (total inv).
  case_bool_decide as Hfit; cbn [fst snd]; [intros _ | discriminate].
  unfold remove_item. cbn [items entity_id capacity]. rewrite lookup_insert_eq.
  unfold get_count. destruct inv as [eid its cap]. cbn [items] in *.
  destruct (its !! k) as [n|] eqn:E; cbn [from_option id].
  - specialize (Hpos k n E). rewrite bool_decide_eq_true_2 by lia.
    rewrite decide_False by lia. cbn [entity_id capacity].
    rewrite insert_insert_eq. replace (n + q - q) with n by lia.
    now rewrite insert_id.
  - rewrite bool_decide_eq_true_2 by lia. rewrite decide_True by lia.
    cbn [entity_id capacity]. rewrite delete_insert_eq. now rewrite delete_id.
Qed.

Lemma add_then_remove_restores_witness :
  (forall k' v, items (mk None (<["seed" := 2]> ∅) 5) !! k' = Some v -> 0 < v) /\
  (add_item (mk None (<["seed" := 2]> ∅) 5) "hoe" 3).2 = true /\
  remove_item (add_item (mk None (<["seed" := 2]> ∅) 5) "hoe" 3).1 "hoe" 3 =
    (mk None (<["seed" := 2]> ∅) 5, true).
Proof.
  assert (H : forall k' v, items (mk None (<["seed" := 2]> ∅) 5) !! k' = Some v -> 0 < v).
  { intros k' v. cbn [items]. destruct (decide ("seed" = k')) as [<-|Hne].
    - rewrite lookup_insert_eq. intros [= <-]. lia.
    - rewrite lookup_insert_ne by exact Hne. now rewrite lookup_empty. }
  split; [exact H | ]. split; [vm_compute; reflexivity | ].
  apply add_then_remove_restores; [exact H | vm_compute; reflexivity].
Defined.

End InventoryRemove.

(** ** Needs *)

Section NeedsClamp.
Import NeedsComponent.

Lemma ltb_leb (a b : float) : PrimFloat.ltb a b = true -> PrimFloat.leb a b = true.
Proof.
  intros H. destruct (PrimFloat.leb a b) eqn:E; [reflexivity | ].
  apply leb_false_ltb_false in E. congruence.
Qed.

Lemma py_max2_lower (a b : float) :
  PrimFloat.leb a a = true -> PrimFloat.leb a (py_max2 a b) = true.
Proof.
  intros Ha. unfold py_max2.
  destruct (PrimFloat.ltb a b) eqn:E; [now apply ltb_leb | exact Ha].
Qed.

Lemma py_min2_upper (a b : float) :
  PrimFloat.leb a a = true -> PrimFloat.leb (py_min2 a b) a = true.
Proof.
  intros Ha. unfold py_min2.
  destruct (PrimFloat.ltb b a) eqn:E; [now apply ltb_leb | exact Ha].
Qed.

(** X9: whatever the stored values and the argument are (negative, infinite and
    not-a-number included): after [decay] the three needs are at least 0.0,
    and after [eat], [rest] and [socialize] the need they raise is at most
    100.0 and the two others are as before.  In particular none of these
    results is not-a-number. *)
Theorem needs_clamped (c : t) (v : float) :
  (PrimFloat.leb 0 (hunger (decay c v)) = true /\
   PrimFloat.leb 0 (energy (decay c v)) = true /\
   PrimFloat.leb 0 (social (decay c v)) = true) /\
  (PrimFloat.leb (hunger (eat c v)) 100 = true /\
   energy (eat c v) = energy c /\ social (eat c v) = social c) /\
  (PrimFloat.leb (energy (rest c v)) 100 = true /\
   hunger (rest c v) = hunger c /\ social (rest c v) = social c) /\
  (PrimFloat.leb (social (socialize c v)) 100 = true /\
   hunger (socialize c v) = hunger c /\ energy (socialize c v) = energy c).
Proof.
  unfold decay, eat, rest, socialize. cbn [hunger energy social].
  repeat split; first [apply py_max2_lower | apply py_min2_upper]; reflexivity.
Qed.

(** A need above 100.0 is not brought back by [decay], and one below 0.0 is
    not brought back by [eat]: each call clamps on one side only. *)
Lemma needs_one_sided :
  hunger (decay (mk None 150 100 50) 1) = 145%float /\
  hunger (eat (mk None (-20) 100 50) 5) = (-15)%float.
Proof. vm_compute. split; reflexivity. Qed.

End NeedsClamp.

(** ** Memories *)

Section Memories.
Import MemoryComponent.

(** X10: [add_memory] appends while the list is shorter than [max_memories];
    from then on it drops the oldest memory for each new one, so a list
    within the bound stays within it, and a list that is already longer
    (one read from a save, say) keeps its length.  With a bound of zero or
    less on an empty list the new memory is dropped at once. *)
Theorem add_memory_bounded (c : t) (m : gmap string string) :
  Z.of_nat (length (memories (add_memory c m))) =
    (if decide (Z.of_nat (length (memories c)) < max_memories c)
     then Z.of_nat (length (memories c)) + 1
     else Z.of_nat (length (memories c))) /\
  (Z.of_nat (length (memories c)) <= max_memories c ->
   Z.of_nat (length (memories (add_memory c m))) <= max_memories c) /\
  (Z.of_nat (length (memories c)) < max_memories c ->
   memories (add_memory c m) = (memories c ++ [m])%list) /\
  (max_memories c <= Z.of_nat (length (memories c)) ->
   memories (add_memory c m) = (tail (memories c ++ [m]))%list /\
   (memories c <> [] -> memories (add_memory c m) = (tail (memories c) ++ [m])%list)) /\
  max_memories (add_memory c m) = max_memories c.
Proof.
  unfold add_memory. cbn [memories max_memories].
  rewrite length_app. cbn [length].
  case_bool_decide as Hfull.
  - rewrite decide_False by lia.
    assert (Hl : length (tail (memories c ++ [m])) = length (memories c)).
    { destruct (memories c); cbn; [reflexivity | ]. rewrite length_app. cbn. lia. }
    rewrite Hl. split; [reflexivity | ]. split; [lia | ]. split; [lia | ].
    split; [ | reflexivity]. intros _. split; [reflexivity | ].
    now destruct (memories c).
  - rewrite decide_True by lia. rewrite length_app. cbn [length].
    split; [lia | ]. split; [lia | ]. split; [reflexivity | ].
    split; [lia | reflexivity].
Qed.

(** X11: [get_recent_memories(count)] returns the last [count] memories (all of
    them when there are fewer) for a positive [count]; for [count = 0] it
    returns every memory, not none; for a negative [count] it returns the
    list without its first [-count] memories. *)
Theorem get_recent_memories_slice (c : t) (count : Z) :
  (0 < count ->
   get_recent_memories c count =
     drop (length (memories c) - Z.to_nat count) (memories c) /\
   length (get_recent_memories c count) =
     Nat.min (Z.to_nat count) (length (memories c))) /\
  get_recent_memories c 0 = memories c /\
  (count < 0 -> get_recent_memories c count = drop (Z.to_nat (- count)) (memories c)).
Proof.
  unfold get_recent_memories, slice_from. split; [ | split].
  - intros Hc. destruct (Z.ltb_spec (- count) 0) as [_|H]; [ | lia].
    replace (Z.to_nat (Z.max (- count + Z.of_nat (length (memories c))) 0))
      with (length (memories c) - Z.to_nat count)%nat by lia.
    split; [reflexivity | ]. rewrite length_drop. lia.
  - cbn. destruct (memories c); reflexivity.
  - intros Hc. destruct (Z.ltb_spec (- count) 0) as [H|_]; [lia | ].
    destruct (Z.min_spec (- count) (Z.of_nat (length (memories c)))) as [[_ ->]|[Hle ->]];
      [reflexivity | ].
    rewrite Nat2Z.id. rewrite !drop_ge by lia. reflexivity.
Qed.

Lemma get_recent_memories_slice_example :
  get_recent_memories (mk None [{["a" := "1"]}; {["b" := "2"]}; {["c" := "3"]}] 50) 2 =
    [{["b" := "2"]}; {["c" := "3"]}].
Proof. reflexivity. Qed.

End Memories.

(** ** Goals *)

Section Goals.
Import GoalComponent.

Lemma remove_first_elem_of (x y : string) (l : list string) :
  NoDup l -> y ∈ remove_first x l <-> y ∈ l /\ y <> x.
Proof.
  induction l as [|z l IH]; intros Hnd; cbn [remove_first].
  - split; [intros H; now apply elem_of_nil in H | intros [H _]; now apply elem_of_nil in H].
  - apply list.NoDup_cons in Hnd as [Hz Hnd]. destruct (decide (z = x)) as [->|Hzx].
    + rewrite elem_of_cons. split.
      * intros H. split; [now right | ]. intros ->. contradiction.
      * intros [[->|H] Hne]; [contradiction | exact H].
    + rewrite !elem_of_cons, IH by exact Hnd. split.
      * intros [->|[H Hne]]; [split; [now left | exact Hzx] | split; [now right | exact Hne]].
      * intros [[->|H] Hne]; [now left | right; now split].
Qed.

Lemma remove_first_NoDup (x : string) (l : list string) :
  NoDup l -> NoDup (remove_first x l).
Proof.
  induction l as [|z l IH]; intros Hnd; cbn [remove_first]; [exact Hnd | ].
  apply list.NoDup_cons in Hnd as [Hz Hnd]. destruct (decide (z = x)); [exact Hnd | ].
  apply list.NoDup_cons. split; [ | now apply IH].
  rewrite remove_first_elem_of by exact Hnd. intros [H _]. contradiction.
Qed.

Lemma goal_do_NoDup (g : t) (c : goal_call) :
  NoDup (goals g) -> NoDup (goals (goal_do g c)).
Proof.
  intros Hnd. destruct c as [x|x|x]; cbn [goal_do].
  - unfold add_goal. destruct (decide (x ∈ goals g)) as [Hin|Hin]; [exact Hnd | ].
    cbn [goals]. apply list.NoDup_app. split; [exact Hnd | ]. split.
    + intros y Hy Hy'. apply list_elem_of_singleton in Hy'. now subst.
    + apply NoDup_singleton.
  - exact Hnd.
  - unfold complete_goal. cbn [goals].
    destruct (decide (x ∈ goals g)); [now apply remove_first_NoDup | exact Hnd].
Qed.

(** X12: a goal list without duplicates (the empty list of a new component, for
    one) has none after any sequence of [add_goal], [set_goal] and
    [complete_goal] calls. *)
Theorem goals_no_duplicates (calls : list goal_call) (g : t) :
  NoDup (goals g) -> NoDup (goals (fold_left goal_do calls g)).
Proof.
  revert g. induction calls as [|c calls IH]; intros g Hnd; [exact Hnd | ].
  cbn [fold_left]. apply IH. now apply goal_do_NoDup.
Qed.

Lemma goals_no_duplicates_witness :
  NoDup (goals (mk None None [])) /\
  NoDup (goals (fold_left goal_do
                  [CallAddGoal "plant"; CallAddGoal "plant"; CallSetGoal "plant";
                   CallCompleteGoal "plant"; CallAddGoal "sell"] (mk None None []))).
Proof.
  split; [apply NoDup_nil_2 | ]. apply goals_no_duplicates. apply NoDup_nil_2.
Defined.

(** X13: on a goal list without duplicates [complete_goal] removes the goal for
    good: it is no longer in the list, the other goals are the ones that
    were there, and it is no longer the current goal; another current goal
    is kept. *)
Theorem complete_goal_removes (g : t) (x : string) :
  NoDup (goals g) ->
  (x ∉ goals (complete_goal g x)) /\
  (forall y, y <> x -> y ∈ goals (complete_goal g x) <-> y ∈ goals g) /\
  current_goal (complete_goal g x) <> Some x /\
  (current_goal g <> Some x -> current_goal (complete_goal g x) = current_goal g).
Proof.
  intros Hnd. unfold complete_goal. cbn [goals current_goal]. split; [ | split; [ | split]].
  - destruct (decide (x ∈ goals g)) as [Hin|Hin]; [ | exact Hin].
    rewrite remove_first_elem_of by exact Hnd. now intros [_ H].
  - intros y Hy. destruct (decide (x ∈ goals g)) as [Hin|Hin]; [ | reflexivity].
    rewrite remove_first_elem_of by exact Hnd. split; [now intros [H _] | now split].
  - destruct (decide (current_goal g = Some x)) as [H|H]; [discriminate | exact H].
  - intros H. now rewrite decide_False.
Qed.

Lemma complete_goal_removes_witness :
  NoDup (goals (mk None (Some "plant") ["plant"; "sell"])) /\
  (("plant" ∉ goals (complete_goal (mk None (Some "plant") ["plant"; "sell"]) "plant")) /\
   (forall y, y <> "plant" ->
      y ∈ goals (complete_goal (mk None (Some "plant") ["plant"; "sell"]) "plant") <->
      y ∈ goals (mk None (Some "plant") ["plant"; "sell"])) /\
   current_goal (complete_goal (mk None (Some "plant") ["plant"; "sell"]) "plant")
     <> Some "plant" /\
   (current_goal (mk None (Some "plant") ["plant"; "sell"]) <> Some "plant" ->
    current_goal (complete_goal (mk None (Some "plant") ["plant"; "sell"]) "plant") =
      current_goal (mk None (Some "plant") ["plant"; "sell"]))).
Proof.
  assert (H : NoDup (goals (mk None (Some "plant") ["plant"; "sell"]))).
  { cbn [goals]. apply list.NoDup_cons. split; [ | apply NoDup_singleton].
    intros H. apply list_elem_of_singleton in H. discriminate H. }
  split; [exact H | ]. apply complete_goal_removes. exact H.
Defined.

(** With a duplicate in the list (a list read from a save may have one)
    [complete_goal] leaves a copy of the goal behind. *)
Lemma complete_goal_duplicate :
  "plant" ∈ goals (complete_goal (mk None None ["plant"; "plant"]) "plant").
Proof. cbn. apply elem_of_cons. now left. Qed.

End Goals.

(** ** Serialized components *)

Section ComponentRoundTrip.

Lemma dispatch_to_dict_type (c : Component) :
  d_type (dispatch_to_dict c) = Some (ComponentType_.value (component_type c)) /\
  d_type (json_loads_dumps (dispatch_to_dict c)) =
    Some (ComponentType_.value (component_type c)).
Proof. destruct c; split; reflexivity. Qed.

Lemma create_from_to_dict (c : Component) :
  create_component_from_dict (dispatch_to_dict c) = Ok (Some (detached c)).
Proof.
  unfold create_component_from_dict.
  rewrite (proj1 (dispatch_to_dict_type c)), registry_lookup.
  destruct c as [c|c|c|c|c|c|c|c|c|c]; destruct c; cbn [component_type dispatch_to_dict];
    try reflexivity.
  rewrite from_dict_to_dict. reflexivity.
Qed.

Lemma create_from_json_to_dict (c : Component) :
  create_component_from_dict (json_loads_dumps (dispatch_to_dict c)) =
    Ok (Some (detached c)).
Proof.
  unfold create_component_from_dict.
  rewrite (proj2 (dispatch_to_dict_type c)), registry_lookup.
  destruct c as [c|c|c|c|c|c|c|c|c|c]; destruct c; cbn [component_type dispatch_to_dict];
    try reflexivity.
  rewrite from_dict_json_to_dict. reflexivity.
Qed.

(** X14: for a component of any of the ten classes, [create_component_from_dict]
    on what its [to_dict] returns, handed over as it is or written to and
    read from JSON, gives a component of the same class with the same field
    values that is attached to no entity; the owner is written by [to_dict]
    under ["entity_id"] and not read back. *)
Theorem component_roundtrip (c : Component) :
  create_component_from_dict (dispatch_to_dict c) = Ok (Some (detached c)) /\
  create_component_from_dict (json_loads_dumps (dispatch_to_dict c)) =
    Ok (Some (detached c)) /\
  d_entity_id (dispatch_to_dict c) = entity_id c /\
  entity_id (detached c) = None /\
  component_type (detached c) = component_type c /\
  (entity_id c = None -> detached c = c).
Proof.
  split; [apply create_from_to_dict | ]. split; [apply create_from_json_to_dict | ].
  destruct c as [c|c|c|c|c|c|c|c|c|c]; destruct c; cbn;
    (repeat split; try reflexivity); intros ->; reflexivity.
Qed.

End ComponentRoundTrip.

(** ** Components of an entity *)

Section EntityComponents.
Import Entity.

Lemma component_type_set_entity_id (i : Z) (c : Component) :
  component_type (set_entity_id i c) = component_type c /\
  entity_id (set_entity_id i c) = Some i.
Proof. destruct c as [c|c|c|c|c|c|c|c|c|c]; destruct c; split; reflexivity. Qed.

Lemma set_entity_id_detached (i : Z) (c : Component) :
  entity_id c = Some i -> set_entity_id i (detached c) = c.
Proof.
  destruct c as [c|c|c|c|c|c|c|c|c|c]; destruct c; cbn; intros ->; reflexivity.
Qed.

Lemma add_component_owned (e : t) (c : Component) :
  owned e -> owned (add_component e c).1.
Proof.
  intros He. unfold add_component.
  destruct (components e !! component_type c) eqn:E; [exact He | ].
  intros ct c'. cbn [fst components id].
  destruct (decide (component_type c = ct)) as [<-|Hne].
  - rewrite lookup_insert_eq. intros [= <-]. apply component_type_set_entity_id.
  - rewrite lookup_insert_ne by exact Hne. apply He.
Qed.

Lemma remove_component_owned (e : t) (ct : ComponentType) :
  owned e -> owned (remove_component e ct).1.
Proof.
  intros He. unfold remove_component.
  destruct (components e !! ct) eqn:E; [ | exact He].
  intros ct' c'. cbn [fst components id]. intros H.
  apply lookup_delete_Some in H as [_ H]. now apply He.
Qed.

(** X15: every component of an entity is stored under its own component type and
    names that entity as its owner: this holds for a new entity and for one
    returned by [Entity.from_dict], and [add_component] and
    [remove_component] keep it. *)
Theorem entity_components_owned :
  (forall name ty n e n', __init__ name ty n = (Ok e, n') -> owned e) /\
  (forall data n e n', from_dict data n = (Ok e, n') -> owned e) /\
  (forall e c, owned e -> owned (add_component e c).1) /\
  (forall e ct, owned e -> owned (remove_component e ct).1).
Proof.
  split; [ | split; [ | split]].
  - intros name ty n e n' [= <- _] ct c H. cbn in H. now rewrite lookup_empty in H.
  - intros data n e n' H. rewrite from_dict_unfold in H.
    injection H as H _. apply restore_components_lookup in H as [Hid Hc].
    cbn [id components] in *. intros ct c Hl. rewrite Hc, lookup_empty in Hl.
    rewrite Hid. clear Hc.
    induction (default [] (ed_components data)) as [|cd l IH]; [discriminate Hl | ].
    cbn [first_of_type] in Hl.
    destruct (create_component_from_dict cd) as [[c0|]|]; try (now apply IH).
    destruct (decide (component_type c0 = ct)) as [<-|Hne]; [ | now apply IH].
    cbn in Hl. injection Hl as <-. apply component_type_set_entity_id.
  - apply add_component_owned.
  - apply remove_component_owned.
Qed.

(** X16: [add_component] refuses a second component of a type the entity has:
    it answers [False] and the entity keeps the first one.  Otherwise it
    answers [True], the component is what [get_component] returns for its
    type, with the entity as owner, the other types are untouched, and
    [remove_component] of that type gives the entity back as it was. *)
Theorem add_component_first_wins (e : t) (c : Component) :
  (has_component e (component_type c) = true -> add_component e c = (e, false)) /\
  (has_component e (component_type c) = false ->
   (add_component e c).2 = true /\
   get_component (add_component e c).1 (component_type c) =
     Some (set_entity_id (id e) c) /\
   (forall ct, ct <> component_type c ->
      get_component (add_component e c).1 ct = get_component e ct) /\
   remove_component (add_component e c).1 (component_type c) = (e, true)).
Proof.
  unfold has_component, add_component, get_component. split; intros H.
  - apply bool_decide_eq_true in H as [c0 ->]. reflexivity.
  - apply bool_decide_eq_false in H.
    destruct (components e !! component_type c) eqn:E; [exfalso; eauto | ].
    cbn [fst snd components]. split; [reflexivity | ].
    rewrite lookup_insert_eq. split; [reflexivity | ]. split.
    + intros ct Hct. now rewrite lookup_insert_ne by congruence.
    + unfold remove_component. cbn [components id name entity_type active].
      rewrite lookup_insert_eq, delete_insert_eq, delete_id by exact E.
      now destruct e.
Qed.

End EntityComponents.

(** ** Saving and loading an entity *)

Section EntityRoundTrip.
Import Entity.

(** The first record of a type in a list of serialized components that has
    one component per key. *)
Lemma first_of_type_serialized (f : Component -> CompData)
    (l : list (ComponentType * Component)) (ct : ComponentType) :
  (forall c, create_component_from_dict (f c) = Ok (Some (detached c))) ->
  (forall k c, (k, c) ∈ l -> component_type c = k) ->
  first_of_type ct (f <$> l.*2) =
    detached <$> ((list_to_map l : gmap ComponentType Component) !! ct).
Proof.
  intros Hf. induction l as [|[k c] l IH]; intros Hl; [reflexivity | ].
  cbn [fmap list_fmap snd first_of_type list_to_map foldr].
  rewrite Hf.
  assert (Hk : component_type c = k) by (apply Hl; left).
  assert (Hd : component_type (detached c) = k).
  { rewrite <- Hk. destruct c as [c|c|c|c|c|c|c|c|c|c]; destruct c; reflexivity. }
  rewrite Hd. cbn [curry fst snd]. destruct (decide (k = ct)) as [<-|Hne].
  - now rewrite lookup_insert_eq.
  - rewrite lookup_insert_ne by exact Hne. apply IH.
    intros k' c' Hin. apply Hl. now right.
Qed.

Lemma from_dict_serialized (f : Component -> CompData)
    (e : t) (l : list (ComponentType * Component)) (n : Z) :
  (forall c, create_component_from_dict (f c) = Ok (Some (detached c))) ->
  owned e ->
  l ≡ₚ map_to_list (components e) ->
  from_dict
    (mkEntityData (Some (id e)) (Some (name e)) (Some (entity_type e))
       (Some (active e)) (Some (f <$> l.*2))) n = (Ok e, n + 1).
Proof.
  intros Hf He Hl. rewrite from_dict_unfold.
  cbn [ed_id ed_name ed_entity_type ed_active ed_components from_option Datatypes.id].
  f_equal.
  destruct (restore_components_total (f <$> l.*2)
              (mk (Entity.id e) (name e) (entity_type e) ∅ (active e))) as [e' He'].
  { intros cd Hcd _. apply list_elem_of_fmap in Hcd as (c & -> & _). eauto. }
  rewrite He'. f_equal.
  destruct (restore_components_lookup _ _ _ He') as [Hid Hc].
  destruct (restore_components_fields _ _ _ He') as (Hn & Ht & Ha).
  cbn [Entity.id name entity_type active components] in *.
  assert (Hm : (list_to_map l : gmap ComponentType Component) = components e).
  { rewrite <- (list_to_map_to_list (components e)).
    apply list_to_map_proper; [ | exact Hl].
    rewrite Hl. apply NoDup_fst_map_to_list. }
  assert (Hcs : components e' = components e).
  { apply map_eq. intros ct. rewrite Hc, lookup_empty.
    rewrite (first_of_type_serialized f l ct Hf).
    - rewrite Hm. destruct (components e !! ct) as [c|] eqn:E; [ | reflexivity].
      cbn. f_equal. apply set_entity_id_detached. now apply (He ct).
    - intros k c Hin. rewrite Hl in Hin. apply elem_of_map_to_list in Hin.
      now apply (He k). }
  destruct e, e'. cbn in *. congruence.
Qed.

(** X17: an entity whose components are stored under their own types and name it
    as owner is what [Entity.from_dict] returns on its [to_dict], handed
    over as it is or through JSON, and in whatever order the components are
    listed; the ID counter advances by one. *)
Theorem entity_roundtrip (e : t) (n : Z) :
  owned e ->
  from_dict (to_dict e) n = (Ok e, n + 1) /\
  from_dict (json_entity (to_dict e)) n = (Ok e, n + 1) /\
  forall l : list (ComponentType * Component),
    l ≡ₚ map_to_list (components e) ->
    from_dict
      (mkEntityData (Some (id e)) (Some (name e)) (Some (entity_type e))
         (Some (active e)) (Some (dispatch_to_dict <$> l.*2))) n = (Ok e, n + 1).
Proof.
  intros He. split; [ | split].
  - apply (from_dict_serialized dispatch_to_dict e (map_to_list (components e)) n);
      [apply create_from_to_dict | exact He | reflexivity].
  - unfold json_entity, to_dict.
    cbn [ed_id ed_name ed_entity_type ed_active ed_components fmap option_fmap option_map].
    rewrite <- list_fmap_compose.
    apply (from_dict_serialized (json_loads_dumps ∘ dispatch_to_dict) e
             (map_to_list (components e)) n);
      [apply create_from_json_to_dict | exact He | reflexivity].
  - intros l Hl. now apply (from_dict_serialized dispatch_to_dict e l n);
      [apply create_from_to_dict | | ].
Qed.

Lemma entity_roundtrip_witness :
  owned (mk 7 "A" "Player"
           (<[HEALTH := Health (HealthComponent.mk (Some 7) 30 40)]> ∅) false) /\
  from_dict
    (to_dict (mk 7 "A" "Player"
                (<[HEALTH := Health (HealthComponent.mk (Some 7) 30 40)]> ∅) false)) 3 =
    (Ok (mk 7 "A" "Player"
           (<[HEALTH := Health (HealthComponent.mk (Some 7) 30 40)]> ∅) false), 3 + 1).
Proof.
  assert (H : owned (mk 7 "A" "Player"
                       (<[HEALTH := Health (HealthComponent.mk (Some 7) 30 40)]> ∅) false)).
  { intros ct c. cbn [components id]. destruct (decide (HEALTH = ct)) as [<-|Hne].
    - rewrite lookup_insert_eq. intros [= <-]. split; reflexivity.
    - rewrite lookup_insert_ne by exact Hne. now rewrite lookup_empty. }
  split; [exact H | ]. exact (proj1 (entity_roundtrip _ 3 H)).
Defined.

End EntityRoundTrip.

(** ** Saving and loading a manager *)

Section ManagerRoundTrip.
Import EntityManager.

Lemma load_serialized (f : Entity.t -> EntityData) (es : list Entity.t) :
  (forall e n, e ∈ es -> Entity.from_dict (f e) n = (Ok e, n + 1)) ->
  forall (m0 : t) (n : Z),
  exists n',
    load_entities (f <$> es) m0 n =
      (Ok (fold_left (fun m e => (add_entity m e).1) es m0), n').
Proof.
  induction es as [|e es IH]; intros Hf m0 n; [cbn; eauto | ].
  cbn [fmap list_fmap]. rewrite load_entities_cons.
  rewrite (Hf e n) by left.
  destruct (IH (fun e' n' H => Hf e' n' (list_elem_of_further _ _ _ H))
              (add_entity m0 e).1
              (if bool_decide (Entity.id e >= n + 1) then Entity.id e + 1 else n + 1))
    as [n' Hn'].
  exists n'. exact Hn'.
Qed.

Lemma fold_add_consistent (es : list Entity.t) (m0 : t) :
  index_consistent m0 ->
  index_consistent (fold_left (fun m e => (add_entity m e).1) es m0).
Proof.
  revert m0. induction es as [|e es IH]; intros m0 H; [exact H | ].
  cbn [fold_left]. apply IH. now apply add_entity_consistent.
Qed.

Lemma fold_add_entities (l : list (Z * Entity.t)) :
  forall m0 : t,
    (forall i e, (i, e) ∈ l -> Entity.id e = i) ->
    NoDup l.*1 ->
    (forall i, i ∈ l.*1 -> entities m0 !! i = None) ->
    forall i,
      entities (fold_left (fun m e => (add_entity m e).1) l.*2 m0) !! i =
        match (list_to_map l : gmap Z Entity.t) !! i with
        | Some e => Some e
        | None => entities m0 !! i
        end.
Proof.
  induction l as [|[i1 e1] l IH]; intros m0 Hid Hnd Hfresh i.
  - cbn. now rewrite lookup_empty.
  - cbn [fmap list_fmap fst snd fold_left list_to_map foldr curry] in *.
    apply list.NoDup_cons in Hnd as [Hi1 Hnd].
    assert (He1 : Entity.id e1 = i1) by (apply Hid; left).
    assert (Hf1 : entities m0 !! Entity.id e1 = None).
    { rewrite He1. apply Hfresh. left. }
    rewrite IH; [ | | exact Hnd | ].
    + rewrite (add_entity_fresh m0 e1 Hf1). cbn [fst entities]. rewrite He1.
      destruct (decide (i1 = i)) as [<-|Hne].
      * rewrite !lookup_insert_eq.
        now rewrite (not_elem_of_list_to_map_1 _ _ Hi1).
      * rewrite !lookup_insert_ne by exact Hne. reflexivity.
    + intros i' e' Hin. apply Hid. now right.
    + intros i' Hin. rewrite (add_entity_fresh m0 e1 Hf1). cbn [fst entities].
      rewrite lookup_insert_ne; [apply Hfresh; now right | ].
      rewrite He1. intros ->. contradiction.
Qed.

(** X18: a manager whose entities are stored under their own IDs and own their
    components is restored by [EntityManager.from_dict] from its [to_dict]:
    the load does not raise, the restored manager has the same entities
    under the same IDs, its type index agrees with them, and the counter is
    left above every restored ID and not below its old value. *)
Theorem manager_roundtrip (m : t) (n : Z) :
  well_formed m ->
  exists (m' : t) (n' : Z),
    from_dict (to_dict m) n = (Ok m', n') /\
    entities m' = entities m /\
    index_consistent m' /\
    (forall i, is_Some (entities m !! i) -> i < n') /\
    n <= n'.
Proof.
  intros Hm. unfold from_dict, to_dict. cbn [from_option Datatypes.id].
  destruct (load_serialized Entity.to_dict (map_to_list (entities m)).*2) with
    (m0 := __init__) (n := n) as [n' Hn'].
  { intros e k He. apply list_elem_of_fmap in He as ([i e'] & -> & Hin).
    apply elem_of_map_to_list in Hin.
    apply (from_dict_serialized dispatch_to_dict e' (map_to_list (Entity.components e')) k);
      [apply create_from_to_dict | apply (Hm i e' Hin) | reflexivity]. }
  exists (fold_left (fun m e => (add_entity m e).1) (map_to_list (entities m)).*2 __init__), n'.
  split; [exact Hn' | ].
  assert (Hent : entities (fold_left (fun m e => (add_entity m e).1)
                             (map_to_list (entities m)).*2 __init__) = entities m).
  { apply map_eq. intros i. rewrite fold_add_entities.
    - rewrite list_to_map_to_list. cbn. rewrite lookup_empty.
      now destruct (entities m !! i).
    - intros i' e' Hin. apply elem_of_map_to_list in Hin. now apply (Hm i').
    - apply NoDup_fst_map_to_list.
    - intros i' _. cbn. apply lookup_empty. }
  split; [exact Hent | ]. split; [apply fold_add_consistent, empty_consistent | ].
  apply load_entities_bound in Hn' as (Hle & _ & Hkeys). split; [ | exact Hle].
  intros i Hi. rewrite <- Hent in Hi. apply Hkeys in Hi as [Hi|Hi]; [ | exact Hi].
  cbn in Hi. rewrite lookup_empty in Hi. now destruct Hi.
Qed.

Lemma manager_roundtrip_witness :
  well_formed (mk (<[7 := Entity.mk 7 "A" "Player" ∅ true]> ∅) (<["Player" := [7]]> ∅)) /\
  exists (m' : t) (n' : Z),
    from_dict
      (to_dict (mk (<[7 := Entity.mk 7 "A" "Player" ∅ true]> ∅) (<["Player" := [7]]> ∅)))
      1 = (Ok m', n') /\
    entities m' =
      entities (mk (<[7 := Entity.mk 7 "A" "Player" ∅ true]> ∅) (<["Player" := [7]]> ∅)) /\
    index_consistent m' /\
    (forall i,
        is_Some (entities (mk (<[7 := Entity.mk 7 "A" "Player" ∅ true]> ∅)
                              (<["Player" := [7]]> ∅)) !! i) -> i < n') /\
    1 <= n'.
Proof.
  assert (H : well_formed (mk (<[7 := Entity.mk 7 "A" "Player" ∅ true]> ∅)
                              (<["Player" := [7]]> ∅))).
  { intros i e. cbn [entities]. destruct (decide (7 = i)) as [<-|Hne].
    - rewrite lookup_insert_eq. intros [= <-]. split; [reflexivity | ].
      intros ct c Hc. cbn in Hc. now rewrite lookup_empty in Hc.
    - rewrite lookup_insert_ne by exact Hne. now rewrite lookup_empty. }
  split; [exact H | ]. apply manager_roundtrip. exact H.
Defined.

End ManagerRoundTrip.

(** ** Looking entities up by type *)

Section ByType.
Import EntityManager.

Lemma length_filter_snd {A B} (P : B -> Prop) `{!forall b, Decision (P b)}
    (l : list (A * B)) :
  length (filter P l.*2) = length (filter (fun p => P p.2) l).
Proof.
  induction l as [|[a b] l IH]; [reflexivity | ].
  cbn [fmap list_fmap snd]. rewrite !filter_cons. cbn [snd].
  destruct (decide (P b)); cbn [length]; now rewrite IH.
Qed.

Lemma length_omap_total {A B} (f : A -> option B) (l : list A) :
  (forall a, a ∈ l -> is_Some (f a)) -> length (omap f l) = length l.
Proof.
  induction l as [|a l IH]; intros H; [reflexivity | ].
  cbn [omap list_omap]. destruct (H a) as [b ->]; [left | ].
  cbn [length]. f_equal. apply IH. intros a' Ha'. apply H. now right.
Qed.

Lemma by_type_ids (m : t) (ty : string) :
  index_consistent m ->
  NoDup (default [] (entities_by_type m !! ty)) /\
  forall i, i ∈ default [] (entities_by_type m !! ty) <->
            exists e, entities m !! i = Some e /\ Entity.entity_type e = ty.
Proof.
  intros [_ Hc]. split.
  - apply NoDup_ListNoDup, (proj2 (NoDup_count_occ Z.eq_dec _)). intros i.
    specialize (Hc ty i). unfold listed, expected in Hc. rewrite Hc.
    destruct (entities m !! i); [destruct (decide _) | ]; lia.
  - intros i. rewrite list_elem_of_In, (count_occ_In Z.eq_dec).
    specialize (Hc ty i). unfold listed, expected in Hc. rewrite Hc.
    destruct (entities m !! i) as [e|]; [destruct (decide _) as [Hty|Hty] | ].
    + split; [eauto | lia].
    + split; [lia | intros (e' & [= <-] & H); contradiction].
    + split; [lia | intros (e' & [=] & _)].
Qed.

(** X19: in a manager reached from the empty one by [create_entity],
    [add_entity], [remove_entity] and [clear] calls,
    [get_entities_by_type] returns exactly the stored entities of the type,
    and [count_entities_by_type] is the length of that list and the number
    of entities of that type among [get_all_entities]. *)
Theorem by_type_exact (ops : list op) (n0 : Z) (ty : string) :
  (forall e,
      e ∈ get_entities_by_type (run ops (__init__, n0)).1 ty <->
      exists i, entities (run ops (__init__, n0)).1 !! i = Some e /\
                Entity.entity_type e = ty) /\
  count_entities_by_type (run ops (__init__, n0)).1 ty =
    Z.of_nat (length (get_entities_by_type (run ops (__init__, n0)).1 ty)) /\
  count_entities_by_type (run ops (__init__, n0)).1 ty =
    Z.of_nat (length (filter (fun e => Entity.entity_type e = ty)
                        (get_all_entities (run ops (__init__, n0)).1))).
Proof.
  pose proof (run_consistent ops (__init__, n0) empty_consistent) as Hm.
  set (m := (run ops (__init__, n0)).1) in *.
  destruct (by_type_ids m ty Hm) as [Hnd Hids].
  destruct Hm as [Hkey _].
  unfold get_entities_by_type, count_entities_by_type, get_all_entities.
  split; [ | split].
  - intros e. rewrite list_elem_of_omap. split.
    + intros (i & Hi & He). apply Hids in Hi as (e' & He' & Hty).
      exists i. split; [exact He | congruence].
    + intros (i & He & Hty). exists i. split; [apply Hids; eauto | exact He].
  - f_equal. symmetry. apply length_omap_total.
    intros i Hi. apply Hids in Hi as (e & -> & _). eauto.
  - f_equal. rewrite length_filter_snd.
    rewrite <- (length_fmap fst (filter _ (map_to_list (entities m)))).
    apply Permutation_length, NoDup_Permutation; [exact Hnd | | ].
    + apply (sublist_NoDup _ (map_to_list (entities m)).*1);
        [apply NoDup_fst_map_to_list | ].
      apply fmap_sublist, sublist_filter.
    + intros i. rewrite Hids, list_elem_of_fmap. split.
      * intros (e & He & Hty). exists (i, e). split; [reflexivity | ].
        apply list_elem_of_filter. split; [exact Hty | now apply elem_of_map_to_list].
      * intros ([i' e] & -> & Hin). apply list_elem_of_filter in Hin as [Hty Hin].
        apply elem_of_map_to_list in Hin. eauto.
Qed.

End ByType.

(** ** Adding, removing and creating entities *)

Section ManagerCalls.
Import EntityManager.

(** X20: [add_entity] answers [True] exactly when the ID of the entity is free.
    It then stores the entity under its ID, leaves the other IDs alone and
    raises [count_entities] by one, and [remove_entity] of that ID gives the
    primary map back as it was.  When the ID is taken it changes nothing. *)
Theorem add_entity_effect (m : t) (e : Entity.t) :
  ((add_entity m e).2 = true <-> entities m !! Entity.id e = None) /\
  (is_Some (entities m !! Entity.id e) -> add_entity m e = (m, false)) /\
  (entities m !! Entity.id e = None ->
   get_entity (add_entity m e).1 (Entity.id e) = Some e /\
   (forall i, i <> Entity.id e ->
      get_entity (add_entity m e).1 i = get_entity m i) /\
   count_entities (add_entity m e).1 = count_entities m + 1 /\
   (remove_entity (add_entity m e).1 (Entity.id e)).2 = true /\
   entities (remove_entity (add_entity m e).1 (Entity.id e)).1 = entities m).
Proof.
  split; [ | split].
  - unfold add_entity. destruct (entities m !! Entity.id e); cbn; split; congruence.
  - intros [e0 H]. unfold add_entity. now rewrite H.
  - intros H. rewrite (add_entity_fresh m e H). unfold get_entity, count_entities.
    cbn [fst entities]. rewrite lookup_insert_eq. split; [reflexivity | ]. split.
    + intros i Hi. now rewrite lookup_insert_ne by congruence.
    + split; [rewrite map_size_insert_None by exact H; lia | ].
      unfold remove_entity. cbn [entities]. rewrite lookup_insert_eq. cbn [fst snd entities].
      split; [reflexivity | ]. rewrite delete_insert_eq. now apply delete_id.
Qed.

(** X21: [remove_entity] answers [True] exactly when the ID is in use.  It then
    frees the ID, leaves the other IDs alone and lowers [count_entities] by
    one; otherwise it changes nothing. *)
Theorem remove_entity_effect (m : t) (i : Z) :
  ((remove_entity m i).2 = true <-> is_Some (entities m !! i)) /\
  (entities m !! i = None -> remove_entity m i = (m, false)) /\
  (is_Some (entities m !! i) ->
   get_entity (remove_entity m i).1 i = None /\
   (forall j, j <> i -> get_entity (remove_entity m i).1 j = get_entity m j) /\
   count_entities (remove_entity m i).1 = count_entities m - 1).
Proof.
  unfold remove_entity, get_entity, count_entities. split; [ | split].
  - destruct (entities m !! i); cbn; split; try congruence; eauto.
    intros [? [=]].
  - now intros ->.
  - intros [e H]. rewrite H. cbn [fst entities]. rewrite lookup_delete_eq.
    split; [reflexivity | ]. split.
    + intros j Hj. now rewrite lookup_delete_ne by congruence.
    + rewrite map_size_delete_Some by eauto.
      assert (0 < size (entities m))%nat; [ | lia].
      destruct (decide (size (entities m) = 0%nat)) as [H0|H0]; [ | lia].
      apply map_size_empty_inv in H0. rewrite H0, lookup_empty in H. discriminate H.
Qed.

(** X22: when the value of the ID counter is an ID in use, [create_entity] still
    returns a new entity with that ID and advances the counter, but the
    manager is unchanged: the entity stored under the ID is the old one. *)
Theorem create_entity_collision (m : t) (n : Z) (name ty : string) (e0 : Entity.t) :
  entities m !! n = Some e0 ->
  create_entity m name ty n = (Ok (m, Entity.mk n name ty ∅ true), n + 1) /\
  get_entity m n = Some e0.
Proof.
  intros H. rewrite create_entity_unfold. unfold add_entity, get_entity.
  cbn [Entity.id]. rewrite H. split; reflexivity.
Qed.

Lemma create_entity_collision_witness :
  entities (mk (<[5 := Entity.mk 5 "A" "Player" ∅ true]> ∅) (<["Player" := [5]]> ∅)) !! 5 =
    Some (Entity.mk 5 "A" "Player" ∅ true) /\
  (create_entity (mk (<[5 := Entity.mk 5 "A" "Player" ∅ true]> ∅) (<["Player" := [5]]> ∅))
     "B" "Crop" 5 =
     (Ok (mk (<[5 := Entity.mk 5 "A" "Player" ∅ true]> ∅) (<["Player" := [5]]> ∅),
          Entity.mk 5 "B" "Crop" ∅ true), 5 + 1) /\
   get_entity (mk (<[5 := Entity.mk 5 "A" "Player" ∅ true]> ∅) (<["Player" := [5]]> ∅)) 5 =
     Some (Entity.mk 5 "A" "Player" ∅ true)).
Proof.
  split; [vm_compute; reflexivity | ].
  apply create_entity_collision. vm_compute. reflexivity.
Defined.

Lemma step_keys_below (st : t * Z) (o : op) :
  keys_below st -> own_call o -> keys_below (step st o).
Proof.
  intros Hk Ho i. destruct o as [name ty|e|j|]; cbn [step]; [ | contradiction | | ].
  - rewrite create_entity_unfold. cbn [fst snd]. intros Hi.
    apply add_entity_keys in Hi as [Hi| ->]; [apply Hk in Hi | cbn]; lia.
  - cbn [fst snd]. unfold remove_entity.
    destruct (entities st.1 !! j); cbn [fst entities]; [ | apply Hk].
    intros [e' Hi]. apply lookup_delete_Some in Hi as [_ Hi]. apply Hk. eauto.
  - cbn. intros [e' Hi]. now rewrite lookup_empty in Hi.
Qed.

Lemma run_keys_below (ops : list op) (st : t * Z) :
  keys_below st -> Forall own_call ops -> keys_below (run ops st).
Proof.
  intros Hk Ho. revert st Hk.
  induction Ho as [|o ops Ho Hos IH]; intros st Hk; [exact Hk | ].
  cbn [run fold_left]. apply IH. now apply step_keys_below.
Qed.

(** X23: from the empty manager, or from a manager that [EntityManager.from_dict]
    returned, and after any sequence of [create_entity], [remove_entity] and
    [clear] calls: every ID in use is below the counter, so that
    [create_entity] stores the entity it returns, under an ID that was free,
    and raises [count_entities] by one. *)
Theorem create_entity_stored (st : t * Z) (ops : list op) (name ty : string) :
  (st.1 = __init__ \/ exists data n, from_dict data n = (Ok st.1, st.2)) ->
  Forall own_call ops ->
  keys_below (run ops st) /\
  exists m2 e,
    create_entity (run ops st).1 name ty (run ops st).2 =
      (Ok (m2, e), (run ops st).2 + 1) /\
    entities (run ops st).1 !! Entity.id e = None /\
    get_entity m2 (Entity.id e) = Some e /\
    count_entities m2 = count_entities (run ops st).1 + 1.
Proof.
  intros Hst Ho.
  assert (Hk : keys_below st).
  { destruct Hst as [H|(data & n & H)]; intros i Hi.
    - rewrite H in Hi. cbn in Hi. rewrite lookup_empty in Hi. now destruct Hi.
    - apply load_entities_bound in H as (_ & _ & Hkeys).
      apply Hkeys in Hi as [Hi|Hi]; [ | exact Hi].
      cbn in Hi. rewrite lookup_empty in Hi. now destruct Hi. }
  pose proof (run_keys_below ops st Hk Ho) as Hk'. split; [exact Hk' | ].
  rewrite create_entity_unfold. do 2 eexists. split; [reflexivity | ].
  cbn [Entity.id].
  assert (Hfree : entities (run ops st).1 !! (run ops st).2 = None).
  { destruct (entities (run ops st).1 !! (run ops st).2) eqn:E; [ | reflexivity].
    assert ((run ops st).2 < (run ops st).2) by (apply Hk'; eauto). lia. }
  split; [exact Hfree | ].
  rewrite add_entity_fresh by exact Hfree. unfold get_entity, count_entities.
  cbn [fst entities Entity.id]. rewrite lookup_insert_eq. split; [reflexivity | ].
  rewrite map_size_insert_None by exact Hfree. lia.
Qed.

Lemma create_entity_stored_witness :
  ((__init__, 1).1 = __init__ \/
   exists data n, from_dict data n = (Ok (__init__, 1).1, (__init__, 1).2)) /\
  Forall own_call [OpCreate "A" "Player"; OpRemove 1; OpCreate "B" "Crop"; OpClear] /\
  (keys_below (run [OpCreate "A" "Player"; OpRemove 1; OpCreate "B" "Crop"; OpClear]
                 (__init__, 1)) /\
   exists m2 e,
     create_entity
       (run [OpCreate "A" "Player"; OpRemove 1; OpCreate "B" "Crop"; OpClear]
          (__init__, 1)).1 "C" "Villager"
       (run [OpCreate "A" "Player"; OpRemove 1; OpCreate "B" "Crop"; OpClear]
          (__init__, 1)).2 =
       (Ok (m2, e),
        (run [OpCreate "A" "Player"; OpRemove 1; OpCreate "B" "Crop"; OpClear]
           (__init__, 1)).2 + 1) /\
     entities
       (run [OpCreate "A" "Player"; OpRemove 1; OpCreate "B" "Crop"; OpClear]
          (__init__, 1)).1 !! Entity.id e = None /\
     get_entity m2 (Entity.id e) = Some e /\
     count_entities m2 =
       count_entities
         (run [OpCreate "A" "Player"; OpRemove 1; OpCreate "B" "Crop"; OpClear]
            (__init__, 1)).1 + 1).
Proof.
  split; [now left | ]. split; [repeat constructor | ].
  apply create_entity_stored; [now left | repeat constructor].
Defined.

End ManagerCalls.

(** ** Entity archetypes *)

Section Archetypes.
Import EntityManager.

Lemma add_components_fields (cs : list Component) (e : Entity.t) :
  Entity.id (Entity.add_components cs e) = Entity.id e /\
  Entity.entity_type (Entity.add_components cs e) = Entity.entity_type e /\
  Entity.active (Entity.add_components cs e) = Entity.active e.
Proof.
  revert e. induction cs as [|c cs IH]; intros e; [auto | ].
  unfold Entity.add_components in *. cbn [fold_left].
  destruct (IH (Entity.add_component e c).1) as (H1 & H2 & H3).
  destruct (add_component_fields e c) as (F1 & _ & F2 & F3).
  rewrite H1, H2, H3. auto.
Qed.

Lemma add_components_owned (cs : list Component) (e : Entity.t) :
  owned e -> owned (Entity.add_components cs e).
Proof.
  revert e. induction cs as [|c cs IH]; intros e He; [exact He | ].
  unfold Entity.add_components in *. cbn [fold_left].
  apply IH. now apply add_component_owned.
Qed.

Lemma add_components_has (cs : list Component) (e : Entity.t) (ct : ComponentType) :
  Entity.has_component (Entity.add_components cs e) ct = true <->
  Entity.has_component e ct = true \/ ct ∈ component_type <$> cs.
Proof.
  revert e. induction cs as [|c cs IH]; intros e.
  - cbn. split; [now left | intros [H|H]; [exact H | now apply elem_of_nil in H]].
  - unfold Entity.add_components in *. cbn [fold_left fmap list_fmap].
    rewrite IH, elem_of_cons.
    assert (H : Entity.has_component (Entity.add_component e c).1 ct = true <->
                Entity.has_component e ct = true \/ ct = component_type c).
    { unfold Entity.has_component, Entity.add_component.
      rewrite !bool_decide_eq_true.
      destruct (Entity.components e !! component_type c) as [c0|] eqn:E; cbn [fst].
      - split; [now left | intros [H| ->]; [exact H | eauto]].
      - cbn [Entity.components]. destruct (decide (component_type c = ct)) as [<-|Hne].
        + rewrite lookup_insert_eq. split; [now right | eauto].
        + rewrite lookup_insert_ne by exact Hne.
          split; [now left | intros [H|H]; [exact H | congruence]]. }
    rewrite H. tauto.
Qed.

Lemma write_back_spec (m : t) (n : Z) (name ty : string) (cs : list Component) :
  archetype m n
    (Ok (write_back m (add_entity m (Entity.mk n name ty ∅ true)).1
           (Entity.mk n name ty ∅ true)
           (Entity.add_components cs (Entity.mk n name ty ∅ true)),
         Entity.add_components cs (Entity.mk n name ty ∅ true)), n + 1)
    ty (component_type <$> cs).
Proof.
  set (e0 := Entity.mk n name ty ∅ true). set (e := Entity.add_components cs e0).
  destruct (add_components_fields cs e0) as (Hid & Hty & Hact).
  fold e in Hid, Hty, Hact. cbn [Entity.id Entity.entity_type Entity.active e0] in *.
  assert (Hown : owned e).
  { apply add_components_owned. intros ct c H. cbn in H. now rewrite lookup_empty in H. }
  assert (Hhas : forall ct, Entity.has_component e ct = true <-> ct ∈ component_type <$> cs).
  { intros ct. unfold e. rewrite add_components_has. split; [ | now right].
    intros [H|H]; [ | exact H]. unfold Entity.has_component in H.
    apply bool_decide_eq_true in H as [c H]. cbn in H. now rewrite lookup_empty in H. }
  exists (write_back m (add_entity m e0).1 e0 e), e.
  split; [reflexivity | ]. do 5 (split; [assumption | ]).
  unfold write_back. split; [ | split].
  - intros Hfree. rewrite (add_entity_fresh m e0) by exact Hfree.
    cbn [fst snd entities entities_by_type Entity.id e0]. rewrite Hid.
    unfold get_entity. cbn [entities]. rewrite lookup_insert_eq.
    split; [reflexivity | ]. split.
    + apply query_entities_spec. cbn [entities]. split; [ | split; [exact Hact | ]].
      * exists n. apply lookup_insert_eq.
      * intros ct Hct. apply Hhas in Hct. unfold Entity.has_component in Hct.
        now apply bool_decide_eq_true in Hct.
    + intros i Hi. now rewrite !lookup_insert_ne by congruence.
  - intros [e1 Htaken]. unfold add_entity. cbn [Entity.id e0]. now rewrite Htaken.
  - intros Hm. pose proof (add_entity_consistent m e0 Hm) as [Hkey Hcount].
    destruct (entities m !! n) as [e1|] eqn:E.
    + unfold add_entity. cbn [Entity.id e0]. rewrite E. exact Hm.
    + revert Hkey Hcount. rewrite (add_entity_fresh m e0) by exact E.
      cbn [fst snd entities entities_by_type Entity.id Entity.entity_type e0].
      rewrite Hid. rewrite insert_insert_eq. intros Hkey Hcount. split.
      * intros i e' H. cbn [entities] in H.
        destruct (decide (n = i)) as [<-|Hne].
        -- rewrite lookup_insert_eq in H. injection H as <-. exact Hid.
        -- rewrite lookup_insert_ne in H by exact Hne.
           apply (Hkey i). cbn [entities]. now rewrite lookup_insert_ne.
      * intros ty' i. specialize (Hcount ty' i). unfold listed, expected in *.
        cbn [entities entities_by_type] in *. rewrite Hcount.
        destruct (decide (n = i)) as [<-|Hne].
        -- rewrite !lookup_insert_eq. now rewrite Hty.
        -- now rewrite !lookup_insert_ne by exact Hne.
Qed.

(** X24: [create_player_entity], [create_villager_entity] and
    [create_crop_entity] return, without raising, an active entity of type
    Player, Villager or Crop whose ID is the value of the counter, which
    advances by one.  The entity has exactly the component types the helper
    attaches, each naming it as owner.  When the ID was free the entity with
    its components is the one stored in the manager and the query for these
    types finds it; when the ID was taken the manager is unchanged.  A
    consistent type index stays consistent. *)
Theorem archetypes_complete (m : t) (n : Z) (name occupation location : string)
    (x y : float) :
  archetype m n (create_player_entity m name n) "Player"
    [POSITION; HEALTH; INVENTORY; CURRENCY; RELATIONSHIP] /\
  archetype m n (create_villager_entity m name occupation location n) "Villager"
    [POSITION; HEALTH; INVENTORY; CURRENCY; RELATIONSHIP; NEEDS; SCHEDULE;
     OCCUPATION; MEMORY; GOAL] /\
  archetype m n (create_crop_entity m name location x y n) "Crop" [POSITION].
Proof.
  split; [ | split].
  - exact (write_back_spec m n name "Player"
             [ Position (PositionComponent.mk None "YourFarm" 0 0);
               Health (HealthComponent.mk None 100 100);
               Inventory (InventoryComponent.mk None ∅ 20);
               Currency (CurrencyComponent.mk None 100);
               Relationship (RelationshipComponent.mk None ∅) ]).
  - exact (write_back_spec m n name "Villager"
             [ Position (PositionComponent.mk None location 0 0);
               Health (HealthComponent.mk None 100 100);
               Inventory (InventoryComponent.mk None ∅ 15);
               Currency (CurrencyComponent.mk None 50);
               Relationship (RelationshipComponent.mk None ∅);
               Needs (NeedsComponent.mk None 50 100 50);
               Schedule (ScheduleComponent.mk None ∅);
               Occupation (OccupationComponent.mk None occupation "None" 1);
               Memory (MemoryComponent.mk None [] 50);
               Goal (GoalComponent.mk None None []) ]).
  - exact (write_back_spec m n name "Crop"
             [ Position (PositionComponent.mk None location x y) ]).
Qed.

End Archetypes.

(** ** The calendar in closed form *)

Section CalendarClosedForm.
Import GameState.

Lemma advance_time_fields (g : t) :
  exists g',
    advance_time g = Ok g' /\
    entity_manager g' = entity_manager g /\ current_weather g' = current_weather g /\
    player_id g' = player_id g /\ game_name g' = game_name g /\
    calendar g' =
      (let tod := if decide (time_of_day g = "morning") then "afternoon"
                  else if decide (time_of_day g = "afternoon") then "evening"
                  else if decide (time_of_day g = "evening") then "night"
                  else "morning" in
       if decide (tod = "morning") then
         if decide ((day_count g + 1) mod 28 = 0) then
           let s := if decide (season g = "spring") then "summer"
                    else if decide (season g = "summer") then "fall"
                    else if decide (season g = "fall") then "winter"
                    else "spring" in
           (tod, day_count g + 1, s,
            if decide (s = "spring") then year g + 1 else year g)
         else (tod, day_count g + 1, season g, year g)
       else (tod, day_count g, season g, year g)).
Proof.
  unfold advance_time. rewrite get_next_time_cases. cbv zeta.
  match goal with |- context [Ok ?r ≫= _] => generalize r end. intros tod.
  cbn [mbind result_bind]. unfold TimeOfDay.MORNING.
  destruct (decide (tod = "morning")) as [Hm|Hm].
  - unfold py_mod. destruct (decide (28 = 0)) as [|_]; [lia | ].
    cbn [mbind result_bind].
    destruct (decide ((day_count g + 1) `mod` 28 = 0)) as [H28|H28].
    + rewrite get_next_season_cases. cbn [mbind result_bind].
      eexists. split; [reflexivity | ]. repeat split.
    + eexists. split; [reflexivity | ]. repeat split.
  - eexists. split; [reflexivity | ]. repeat split.
Qed.

Lemma advance_times_snoc (n : nat) (g : t) :
  advance_times (S n) g = advance_times n g ≫= advance_time.
Proof.
  revert g. induction n as [|n IH]; intros g.
  - cbn. now destruct (advance_time g).
  - change (advance_times (S (S n)) g)
      with (advance_time g ≫= advance_times (S n)).
    change (advance_times (S n) g) with (advance_time g ≫= advance_times n).
    destruct (advance_time g) as [g1|]; [ | reflexivity].
    cbn [mbind result_bind]. apply IH.
Qed.

Lemma tod_next (r : Z) :
  0 <= r < 4 ->
  (if decide (nth (Z.to_nat r) TimeOfDay.get_all "" = "morning") then "afternoon"
   else if decide (nth (Z.to_nat r) TimeOfDay.get_all "" = "afternoon") then "evening"
   else if decide (nth (Z.to_nat r) TimeOfDay.get_all "" = "evening") then "night"
   else "morning") = nth (Z.to_nat ((r + 1) mod 4)) TimeOfDay.get_all "".
Proof.
  intros Hr.
  assert (H : r = 0 \/ r = 1 \/ r = 2 \/ r = 3) by lia.
  destruct H as [->|[->|[->| ->]]]; vm_compute; reflexivity.
Qed.

Lemma season_next (r : Z) :
  0 <= r < 4 ->
  (if decide (nth (Z.to_nat r) Season.get_all "" = "spring") then "summer"
   else if decide (nth (Z.to_nat r) Season.get_all "" = "summer") then "fall"
   else if decide (nth (Z.to_nat r) Season.get_all "" = "fall") then "winter"
   else "spring") = nth (Z.to_nat ((r + 1) mod 4)) Season.get_all "".
Proof.
  intros Hr.
  assert (H : r = 0 \/ r = 1 \/ r = 2 \/ r = 3) by lia.
  destruct H as [->|[->|[->| ->]]]; vm_compute; reflexivity.
Qed.

Lemma first_label (r : Z) :
  0 <= r < 4 ->
  (nth (Z.to_nat r) TimeOfDay.get_all "" = "morning" <-> r = 0) /\
  (nth (Z.to_nat r) Season.get_all "" = "spring" <-> r = 0).
Proof.
  intros Hr.
  assert (H : r = 0 \/ r = 1 \/ r = 2 \/ r = 3) by lia.
  destruct H as [->|[->|[->| ->]]]; cbn; split; split; first [reflexivity | discriminate].
Qed.

Ltac calendar_eq :=
  apply f_equal2;
  [apply f_equal2;
   [apply f_equal2; [apply (f_equal (fun z => nth (Z.to_nat z) _ "")) | ]
   |apply (f_equal (fun z => nth (Z.to_nat z) _ ""))]
  | ];
  Z.div_mod_to_equations; lia.

Lemma calendar_at_step (k : Z) (g : t) :
  0 <= k -> calendar g = calendar_at k ->
  exists g', advance_time g = Ok g' /\ calendar g' = calendar_at (k + 1).
Proof.
  intros Hk Hc. destruct (advance_time_fields g) as (g' & Hg' & _ & _ & _ & _ & Hcal).
  exists g'. split; [exact Hg' | ]. rewrite Hcal. clear Hcal Hg' g'.
  assert (Ht : time_of_day g = nth (Z.to_nat (k mod 4)) TimeOfDay.get_all "")
    by exact (f_equal (fun c => c.1.1.1) Hc).
  assert (Hd : day_count g = 1 + k / 4) by exact (f_equal (fun c => c.1.1.2) Hc).
  assert (Hs : season g = nth (Z.to_nat (((1 + k / 4) / 28) mod 4)) Season.get_all "")
    by exact (f_equal (fun c => c.1.2) Hc).
  assert (Hy : year g = 1 + (1 + k / 4) / 112) by exact (f_equal (fun c => c.2) Hc).
  rewrite Ht, Hd, Hs, Hy. clear Ht Hd Hs Hy Hc g. unfold calendar_at. cbv zeta.
  pose proof (Z.mod_pos_bound k 4 eq_refl) as Ha.
  pose proof (Z.mod_pos_bound ((1 + k / 4) / 28) 4 eq_refl) as Hb.
  rewrite (tod_next _ Ha), (season_next _ Hb).
  pose proof (Z.mod_pos_bound (k mod 4 + 1) 4 eq_refl) as Ha'.
  pose proof (Z.mod_pos_bound (((1 + k / 4) / 28) mod 4 + 1) 4 eq_refl) as Hb'.
  destruct (decide (nth (Z.to_nat ((k mod 4 + 1) mod 4)) TimeOfDay.get_all "" = "morning"))
    as [Hm|Hm]; rewrite (proj1 (first_label _ Ha')) in Hm.
  - destruct (decide ((1 + k / 4 + 1) mod 28 = 0)) as [H28|H28].
    + destruct (decide (nth (Z.to_nat ((((1 + k / 4) / 28) mod 4 + 1) mod 4))
                          Season.get_all "" = "spring"))
        as [Hsp|Hsp]; rewrite (proj2 (first_label _ Hb')) in Hsp; calendar_eq.
    + calendar_eq.
  - calendar_eq.
Qed.

(** X25: from the calendar of a new game (morning of day 1, spring, year 1),
    after [n] calls of [advance_time]: the time of day is entry [n mod 4] of
    the four labels, the day number is [1 + n / 4], the season is entry
    [(day / 28) mod 4] of the four seasons and the year is [1 + day / 112].
    So the first season ends after 27 days, every later one lasts 28, and
    the first year has 111 days. *)
Theorem calendar_closed_form (n : nat) (g : t) :
  calendar g = calendar __init__ ->
  calendar <$> advance_times n g = Ok (calendar_at (Z.of_nat n)).
Proof.
  intros Hc.
  assert (H : exists g', advance_times n g = Ok g' /\ calendar g' = calendar_at (Z.of_nat n)).
  { induction n as [|n IH].
    - exists g. split; [reflexivity | ]. rewrite Hc. reflexivity.
    - destruct IH as (g1 & Hg1 & Hc1). rewrite advance_times_snoc, Hg1.
      cbn [mbind result_bind].
      destruct (calendar_at_step (Z.of_nat n) g1) as (g2 & Hg2 & Hc2); [lia | exact Hc1 | ].
      exists g2. split; [exact Hg2 | ]. rewrite Hc2. f_equal. lia. }
  destruct H as (g' & -> & Hg'). cbn. now rewrite Hg'.
Qed.

Lemma calendar_closed_form_witness :
  calendar __init__ = calendar __init__ /\
  calendar <$> advance_times 108 __init__ = Ok (calendar_at (Z.of_nat 108)) /\
  calendar_at (Z.of_nat 108) = ("morning", 28, "summer", 1) /\
  calendar_at 444 = ("morning", 112, "spring", 2).
Proof.
  split; [reflexivity | ]. split; [now apply calendar_closed_form | ].
  split; vm_compute; reflexivity.
Defined.

End CalendarClosedForm.

(** ** What a call of [advance_time] changes *)

Section CalendarFrame.
Import GameState.

Lemma tod_cases (s : string) :
  s ∈ TimeOfDay.get_all ->
  s = "morning" \/ s = "afternoon" \/ s = "evening" \/ s = "night".
Proof.
  unfold TimeOfDay.get_all, TimeOfDay.MORNING, TimeOfDay.AFTERNOON,
    TimeOfDay.EVENING, TimeOfDay.NIGHT.
  rewrite !elem_of_cons, elem_of_nil. tauto.
Qed.

Lemma season_cases (s : string) :
  s ∈ Season.get_all ->
  s = "spring" \/ s = "summer" \/ s = "fall" \/ s = "winter".
Proof.
  unfold Season.get_all, Season.SPRING, Season.SUMMER, Season.FALL, Season.WINTER.
  rewrite !elem_of_cons, elem_of_nil. tauto.
Qed.

Lemma advance_time_frame (g : t) :
  exists g',
    advance_time g = Ok g' /\
    (entity_manager g' = entity_manager g /\ current_weather g' = current_weather g /\
     player_id g' = player_id g /\ game_name g' = game_name g) /\
    day_count g <= day_count g' <= day_count g + 1 /\
    year g <= year g' <= year g + 1 /\
    time_of_day g' ∈ TimeOfDay.get_all /\
    (day_count g' = day_count g -> season g' = season g /\ year g' = year g) /\
    (season g' = season g \/ season g' ∈ Season.get_all).
Proof.
  destruct (advance_time_fields g) as (g' & Hg' & H1 & H2 & H3 & H4 & Hc).
  exists g'. split; [exact Hg' | ]. split; [auto | ].
  cbv zeta in Hc.
  set (tod := if decide (time_of_day g = "morning") then "afternoon"
              else if decide (time_of_day g = "afternoon") then "evening"
              else if decide (time_of_day g = "evening") then "night"
              else "morning") in *.
  assert (Htod : tod ∈ TimeOfDay.get_all).
  { unfold tod, TimeOfDay.get_all, TimeOfDay.MORNING, TimeOfDay.AFTERNOON,
      TimeOfDay.EVENING, TimeOfDay.NIGHT.
    repeat case_decide; rewrite !elem_of_cons; tauto. }
  set (s := if decide (season g = "spring") then "summer"
            else if decide (season g = "summer") then "fall"
            else if decide (season g = "fall") then "winter"
            else "spring") in *.
  assert (Hs : s ∈ Season.get_all).
  { unfold s, Season.get_all, Season.SPRING, Season.SUMMER, Season.FALL, Season.WINTER.
    repeat case_decide; rewrite !elem_of_cons; tauto. }
  unfold calendar in Hc.
  destruct (decide (tod = "morning")) as [Hm|Hm];
    [destruct (decide ((day_count g + 1) mod 28 = 0)) as [H28|H28];
     [destruct (decide (s = "spring")) as [Hsp|Hsp] | ] | ];
    injection Hc as -> -> -> ->;
    (split; [lia | ]); (split; [lia | ]); (split; [exact Htod | ]);
    (split; [intros; first [lia | split; reflexivity] | ]); auto.
Qed.

(** X26: any number of [advance_time] calls changes the calendar only: the
    entity manager, the weather, the player and the name of the game are as
    before.  The day number and the year never go down, and neither grows by
    more than one per call; after at least one call the time of day is one
    of the four labels. *)
Theorem advance_times_frame (n : nat) (g : t) :
  exists g',
    advance_times n g = Ok g' /\
    (entity_manager g' = entity_manager g /\ current_weather g' = current_weather g /\
     player_id g' = player_id g /\ game_name g' = game_name g) /\
    day_count g <= day_count g' <= day_count g + Z.of_nat n /\
    year g <= year g' <= year g + Z.of_nat n /\
    ((0 < n)%nat -> time_of_day g' ∈ TimeOfDay.get_all).
Proof.
  induction n as [|n IH].
  - exists g. split; [reflexivity | ]. repeat split; lia.
  - destruct IH as (g1 & Hg1 & (F1 & F2 & F3 & F4) & Hd & Hy & _).
    destruct (advance_time_frame g1)
      as (g2 & Hg2 & (E1 & E2 & E3 & E4) & Hd2 & Hy2 & Ht2 & _).
    exists g2. rewrite advance_times_snoc, Hg1. split; [exact Hg2 | ].
    split; [repeat split; congruence | ]. split; [lia | ]. split; [lia | ].
    intros _. exact Ht2.
Qed.

Lemma advance_time_tod (g : t) :
  exists g',
    advance_time g = Ok g' /\
    time_of_day g' =
      (if decide (time_of_day g = "morning") then "afternoon"
       else if decide (time_of_day g = "afternoon") then "evening"
       else if decide (time_of_day g = "evening") then "night"
       else "morning") /\
    day_count g' = (if decide (time_of_day g' = "morning") then day_count g + 1
                    else day_count g).
Proof.
  destruct (advance_time_fields g) as (g' & Hg' & _ & _ & _ & _ & Hc).
  exists g'. split; [exact Hg' | ]. cbv zeta in Hc. unfold calendar in Hc.
  set (tod := if decide (time_of_day g = "morning") then "afternoon"
              else if decide (time_of_day g = "afternoon") then "evening"
              else if decide (time_of_day g = "evening") then "night"
              else "morning") in *.
  destruct (decide (tod = "morning")) as [Hm|Hm];
    [destruct (decide ((day_count g + 1) mod 28 = 0)) | ];
    injection Hc as Ht Hd _ _; rewrite Ht;
    (split; [reflexivity | ]);
    [rewrite decide_True by exact Hm | rewrite decide_True by exact Hm
    |rewrite decide_False by exact Hm]; exact Hd.
Qed.

Ltac norm_rhs H :=
  match type of H with
  | ?l = ?r => let v := eval vm_compute in r in change (l = v) in H
  end.

(** X27: from a state whose time of day is one of the four labels, four
    [advance_time] calls come back to the same time of day with the day
    number raised by exactly one.  From a state whose time of day is any
    other text, one call gives "morning" and raises the day number by one:
    the repair of a corrupt label counts as the start of a day. *)
Theorem four_calls_one_day (g : t) :
  (time_of_day g ∈ TimeOfDay.get_all ->
   exists g', advance_times 4 g = Ok g' /\
              time_of_day g' = time_of_day g /\ day_count g' = day_count g + 1) /\
  (time_of_day g ∉ TimeOfDay.get_all ->
   exists g', advance_time g = Ok g' /\
              time_of_day g' = "morning" /\ day_count g' = day_count g + 1).
Proof.
  split.
  - intros Hin. apply tod_cases in Hin.
    destruct (advance_time_tod g) as (g1 & Hg1 & Ht1 & Hd1).
    destruct (advance_time_tod g1) as (g2 & Hg2 & Ht2 & Hd2).
    destruct (advance_time_tod g2) as (g3 & Hg3 & Ht3 & Hd3).
    destruct (advance_time_tod g3) as (g4 & Hg4 & Ht4 & Hd4).
    exists g4. cbn [advance_times]. rewrite Hg1. cbn [mbind result_bind].
    rewrite Hg2. cbn [mbind result_bind]. rewrite Hg3. cbn [mbind result_bind].
    rewrite Hg4. cbn [mbind result_bind]. split; [reflexivity | ].
    destruct Hin as [Hin|[Hin|[Hin|Hin]]]; rewrite Hin in *;
      norm_rhs Ht1; rewrite Ht1 in *; norm_rhs Ht2; rewrite Ht2 in *;
      norm_rhs Ht3; rewrite Ht3 in *; norm_rhs Ht4; rewrite Ht4 in *;
      revert Hd1 Hd2 Hd3 Hd4;
      repeat (first [rewrite decide_True by reflexivity
                    |rewrite decide_False by discriminate]);
      intros; (split; [reflexivity | lia]).
  - intros Hout. destruct (advance_time_tod g) as (g1 & Hg1 & Ht1 & Hd1).
    exists g1. split; [exact Hg1 | ].
    assert (Ht : time_of_day g1 = "morning").
    { rewrite Ht1.
      unfold TimeOfDay.get_all, TimeOfDay.MORNING, TimeOfDay.AFTERNOON,
        TimeOfDay.EVENING, TimeOfDay.NIGHT in Hout.
      destruct (decide (time_of_day g = "morning")) as [Hx|_];
        [exfalso; apply Hout; rewrite Hx, !elem_of_cons; tauto | ].
      destruct (decide (time_of_day g = "afternoon")) as [Hx|_];
        [exfalso; apply Hout; rewrite Hx, !elem_of_cons; tauto | ].
      destruct (decide (time_of_day g = "evening")) as [Hx|_];
        [exfalso; apply Hout; rewrite Hx, !elem_of_cons; tauto | ].
      reflexivity. }
    split; [exact Ht | ]. rewrite Hd1, Ht. now rewrite decide_True.
Qed.

(** X28: [get_next] walks through the four labels in a cycle: from a label it
    gives another label, four steps come back to the start, and whatever
    the text given, the result is one of the four labels. *)
Theorem get_next_cycle :
  (forall s, s ∈ TimeOfDay.get_all ->
     (r1 ← TimeOfDay.get_next s; r2 ← TimeOfDay.get_next r1;
      r3 ← TimeOfDay.get_next r2; TimeOfDay.get_next r3) = Ok s /\
     TimeOfDay.get_next s <> Ok s) /\
  (forall s, exists r, TimeOfDay.get_next s = Ok r /\ r ∈ TimeOfDay.get_all) /\
  (forall s, s ∈ Season.get_all ->
     (r1 ← Season.get_next s; r2 ← Season.get_next r1;
      r3 ← Season.get_next r2; Season.get_next r3) = Ok s /\
     Season.get_next s <> Ok s) /\
  (forall s, exists r, Season.get_next s = Ok r /\ r ∈ Season.get_all).
Proof.
  split; [ | split; [ | split]].
  - intros s Hs. apply tod_cases in Hs.
    destruct Hs as [->|[->|[->| ->]]]; split; vm_compute; congruence.
  - intros s. rewrite get_next_time_cases. eexists. split; [reflexivity | ].
    unfold TimeOfDay.get_all, TimeOfDay.MORNING, TimeOfDay.AFTERNOON,
      TimeOfDay.EVENING, TimeOfDay.NIGHT.
    repeat case_decide; rewrite !elem_of_cons; tauto.
  - intros s Hs. apply season_cases in Hs.
    destruct Hs as [->|[->|[->| ->]]]; split; vm_compute; congruence.
  - intros s. rewrite get_next_season_cases. eexists. split; [reflexivity | ].
    unfold Season.get_all, Season.SPRING, Season.SUMMER, Season.FALL, Season.WINTER.
    repeat case_decide; rewrite !elem_of_cons; tauto.
Qed.

End CalendarFrame.

(** ** The player *)

Section Player.
Import GameState.

(** X29: [set_player] with the ID of an entity of the manager makes that entity
    the one [get_player] returns; with an ID that is not in use it changes
    nothing and signals nothing, so that the player, if any, stays the one
    set before.  In a new game there is no player. *)
Theorem set_player_get_player (g : t) (i : Z) :
  (forall e, EntityManager.get_entity (entity_manager g) i = Some e ->
             player_id (set_player g i) = Some i /\
             get_player (set_player g i) = Some e /\
             calendar (set_player g i) = calendar g /\
             entity_manager (set_player g i) = entity_manager g) /\
  (EntityManager.get_entity (entity_manager g) i = None -> set_player g i = g) /\
  get_player __init__ = None.
Proof.
  unfold set_player, get_player. split; [ | split].
  - intros e He. rewrite He. cbn [player_id entity_manager]. rewrite He.
    repeat split.
  - intros He. now rewrite He.
  - reflexivity.
Qed.

End Player.
